(** * Market signal dashboard: the signal engine, the session resampler,
      the column repair and the batch loop of [yahoo_query.py].

    Prices are the non-null floats that survive [dropna]; they are ordered
    and compared exactly, and are modelled by rationals ([Q]) with the
    boolean comparisons of [QArith].  Timestamps are seconds since the epoch
    (UTC).  A pandas frame is its list of rows, by position; nothing is
    assumed of the order of the timestamps along it.  Python exceptions are
    the [Raise] results of a small error monad. *)

From Stdlib Require Import ZArith QArith Qminmax Ascii String.
From stdpp Require Import base option list sorting strings gmap.

Set Default Proof Using "Type".

(** ** Exceptions and results *)

(** The exceptions of class [Exception], which a handler [except Exception]
    catches. *)
Inductive exn : Type :=
  | IndexError
  | KeyError
  | ValueError
  | OtherException (msg : string).

Inductive result (A : Type) : Type :=
  | Ok (a : A)
  | Raise (e : exn).
Arguments Ok {A} a.
Arguments Raise {A} e.

#[global] Instance result_ret : MRet result := λ A a, Ok a.
#[global] Instance result_bind : MBind result := λ A B k m,
  match m with
  | Ok a => k a
  | Raise e => Raise e
  end.

(** [try: m except Exception: h] *)
Definition try_except {A : Type} (m : result A) (h : exn → result A) : result A :=
  match m with
  | Ok a => Ok a
  | Raise e => h e
  end.

(** ** Candles and frames *)

Record OHLC : Type := mkOHLC { Open : Q; High : Q; Low : Q; Close : Q }.

(** One row of a frame: the index timestamp and the four prices. *)
Abbreviation Row := (Z * OHLC)%type.

(** A frame with a [DatetimeIndex]: the index's time zone, as the offset of
    local wall-clock time from UTC at each instant, and the rows. *)
Record DataFrame : Type := mkFrame { utcoffset : Z → Z; rows : list Row }.

Definition len (data : DataFrame) : nat := length (rows data).

(** [data[col]]: one column as a series of values. *)
Definition column (col : OHLC → Q) (rs : list Row) : list Q := (col ∘ snd) <$> rs.

(** [series.iloc[i]] for a possibly negative position [i]. *)
Definition iloc {A : Type} (s : list A) (i : Z) : result A :=
  let n := Z.of_nat (length s) in
  let j := if (i <? 0)%Z then (n + i)%Z else i in
  if ((j <? 0) || (n <=? j))%Z then Raise IndexError
  else match s !! Z.to_nat j with
       | Some x => Ok x
       | None => Raise IndexError
       end.

(** [series.tail(n)]: the last [n] values, or all of them if there are fewer. *)
Definition tail {A : Type} (n : nat) (s : list A) : list A :=
  drop (length s - n) s.

Definition qmax (a b : Q) : Q := if Qle_bool a b then b else a.
Definition qmin (a b : Q) : Q := if Qle_bool a b then a else b.

(** [series.max()] and [series.min()]; [None] is the NaN of an empty series. *)
Definition series_max (s : list Q) : option Q :=
  match s with
  | [] => None
  | x :: xs => Some (foldl qmax x xs)
  end.

Definition series_min (s : list Q) : option Q :=
  match s with
  | [] => None
  | x :: xs => Some (foldl qmin x xs)
  end.

(** [a == m] on floats, where a NaN equals nothing. *)
Definition float_eq (a : Q) (m : option Q) : bool :=
  match m with
  | Some b => Qeq_bool a b
  | None => false
  end.

Definition Qlt_bool (a b : Q) : bool := negb (Qle_bool b a).

(** ** Signal engine: daily logic on the last fully closed session *)

Definition is_high_of_month (data : DataFrame) : result bool :=
  h ← iloc (column High (rows data)) (-2);
  Ok (float_eq h (series_max (tail 22 (column High (rows data))))).

Definition is_high_of_week (data : DataFrame) : result bool :=
  h ← iloc (column High (rows data)) (-2);
  Ok (float_eq h (series_max (tail 5 (column High (rows data))))).

Definition is_low_of_month (data : DataFrame) : result bool :=
  l ← iloc (column Low (rows data)) (-2);
  Ok (float_eq l (series_min (tail 22 (column Low (rows data))))).

Definition is_low_of_week (data : DataFrame) : result bool :=
  l ← iloc (column Low (rows data)) (-2);
  Ok (float_eq l (series_min (tail 5 (column Low (rows data))))).

Definition is_red_day (data : DataFrame) : result bool :=
  if (1 <? len data)%nat then
    c ← iloc (column Close (rows data)) (-2);
    o ← iloc (column Open (rows data)) (-2);
    Ok (Qlt_bool c o)
  else Ok false.

Definition is_green_day (data : DataFrame) : result bool :=
  if (1 <? len data)%nat then
    c ← iloc (column Close (rows data)) (-2);
    o ← iloc (column Open (rows data)) (-2);
    Ok (Qlt_bool o c)
  else Ok false.

(** [a and b]: the right operand is evaluated only when the left is true. *)
Definition is_inside_day (data : DataFrame) : result bool :=
  h2 ← iloc (column High (rows data)) (-2);
  h3 ← iloc (column High (rows data)) (-3);
  if Qle_bool h2 h3 then
    l2 ← iloc (column Low (rows data)) (-2);
    l3 ← iloc (column Low (rows data)) (-3);
    Ok (Qle_bool l3 l2)
  else Ok false.

(** ** Resampling

    [frame.resample(rule).agg({"Open": "first", "High": "max", "Low": "min",
    "Close": "last"}).dropna()]: pandas first puts the rows in ascending order
    of their timestamps, with a stable sort, so that rows with the same
    timestamp keep the order they had; every row then falls into the bin [key]
    gives its timestamp; a bin keeps the first Open, the largest High, the
    smallest Low and the last Close of its rows, in that order; bins come out
    in ascending order, and a bin no row falls into has no candle. *)

(** The stable sort of the rows by timestamp: a row goes before the first
    row of the sorted rest that is not earlier than it. *)
Fixpoint sort_insert (r : Row) (sorted : list Row) : list Row :=
  match sorted with
  | [] => [r]
  | r' :: rest =>
      if (r.1 <=? r'.1)%Z then r :: sorted else r' :: sort_insert r rest
  end.

Definition sort_index (rs : list Row) : list Row := foldr sort_insert [] rs.

Definition agg_merge (acc c : OHLC) : OHLC :=
  mkOHLC (Open acc) (qmax (High acc) (High c)) (qmin (Low acc) (Low c)) (Close c).

Fixpoint agg_insert (k : Z) (c : OHLC) (bins : list Row) : list Row :=
  match bins with
  | [] => [(k, c)]
  | (k', c') :: rest =>
      if (k <? k')%Z then (k, c) :: bins
      else if (k =? k')%Z then (k', agg_merge c' c) :: rest
      else (k', c') :: agg_insert k c rest
  end.

(** The candles of rows taken one after the other. *)
Definition agg_rows (key : Z → Z) (rs : list Row) : list Row :=
  foldl (λ bins r, agg_insert (key r.1) r.2 bins) [] rs.

Definition resample (key : Z → Z) (rs : list Row) : list Row :=
  agg_rows key (sort_index rs).

(** *** Calendar arithmetic on the index *)

Definition DAY : Z := 86400.
Definition HOUR : Z := 3600.

(** The local calendar day of an instant, in days since 1970-01-01. *)
Definition local_day (off : Z → Z) (t : Z) : Z := ((t + off t) / DAY)%Z.

(** Monday is 0; 1970-01-01 was a Thursday. *)
Definition weekday (d : Z) : Z := ((d + 3) mod 7)%Z.

(** The bin of the rule ["W"]: calendar weeks from Monday to Sunday,
    numbered from the week of the epoch. *)
Definition week_bin (off : Z → Z) (t : Z) : Z := ((local_day off t + 3) / 7)%Z.

(** Days from the epoch to 1 January of year [y] (proleptic Gregorian). *)
Definition jan1 (y : Z) : Z :=
  let p := (y - 1)%Z in (365 * p + p / 4 - p / 100 + p / 400 - 719162)%Z.

(** The calendar year of day [d]. *)
Definition year_of_day (d : Z) : Z :=
  let z := (d + 719468)%Z in
  let era := (z / 146097)%Z in
  let doe := (z - era * 146097)%Z in
  let yoe := ((doe - doe / 1460 + doe / 36524 - doe / 146096) / 365)%Z in
  let doy := (doe - (365 * yoe + yoe / 4 - yoe / 100))%Z in
  let mp := ((5 * doy + 2) / 153)%Z in
  let m := if (mp <? 10)%Z then (mp + 3)%Z else (mp - 9)%Z in
  (yoe + era * 400 + (if (m <=? 2)%Z then 1 else 0))%Z.

(** [timestamp.isocalendar().week]: the week of the year of the Thursday of
    the timestamp's week. *)
Definition iso_week_of_day (d : Z) : Z :=
  let thursday := (d - weekday d + 3)%Z in
  ((thursday - jan1 (year_of_day thursday)) / 7 + 1)%Z.

Definition isocalendar_week (off : Z → Z) (t : Z) : Z :=
  iso_week_of_day (local_day off t).

(** ** Signal engine: weekly logic *)

(** The weekly candles; a candle's index is its week's number ([week_bin]),
    which stands for the Sunday that closes the week. *)
Definition get_weekly_data (data : DataFrame) : list Row :=
  resample (week_bin (utcoffset data)) (rows data).

Definition is_inside_week (data : DataFrame) : result bool :=
  let weekly := get_weekly_data data in
  if (length weekly <? 2)%nat then Ok false
  else
    h1 ← iloc (column High weekly) (-1);
    h2 ← iloc (column High weekly) (-2);
    if Qle_bool h1 h2 then
      l1 ← iloc (column Low weekly) (-1);
      l2 ← iloc (column Low weekly) (-2);
      Ok (Qle_bool l2 l1)
    else Ok false.

(** [a <= b] on floats, false when [a] is NaN. *)
Definition float_le (a : option Q) (b : Q) : bool :=
  match a with Some x => Qle_bool x b | None => false end.
Definition float_ge (a : option Q) (b : Q) : bool :=
  match a with Some x => Qle_bool b x | None => false end.

Definition in_previous_week_range (data : DataFrame) : result bool :=
  let weekly := get_weekly_data data in
  if (length weekly <? 2)%nat then Ok false
  else
    prev_week_high ← iloc (column High weekly) (-2);
    prev_week_low ← iloc (column Low weekly) (-2);
    last ← iloc (fst <$> rows data) (-1);
    let current_week_number := isocalendar_week (utcoffset data) last in
    let this_week :=
      filter (λ r, isocalendar_week (utcoffset data) r.1 = current_week_number)
             (rows data) in
    if bool_decide (this_week = []) then Ok false
    else
      let curr_high := series_max (column High this_week) in
      let curr_low := series_min (column Low this_week) in
      Ok (float_le curr_high prev_week_high && float_ge curr_low prev_week_low).

(** ** Analysis wrapper *)

Definition TICK : string := "✅".
Definition CROSS : string := "❌".
Definition SHORT : string := "<span style='color:red;font-weight:bold;'>SHORT</span>".
Definition LONG : string := "<span style='color:green;font-weight:bold;'>LONG</span>".
Definition NO_SIGNAL : string := "–".

Definition mark (b : bool) : string := if b then TICK else CROSS.

(** The signal computed from the four flags. *)
Definition signal_of_flags (hom lom frd fgd : bool) : string :=
  if hom && frd then SHORT
  else if lom && fgd then LONG
  else NO_SIGNAL.

(** The flags and the signal, as [analyze_symbol] computes them before it
    builds its result. *)
Definition compute_signal (data : DataFrame) : result (bool * bool * bool * bool * string) :=
  hom ← is_high_of_month data;
  lom ← is_low_of_month data;
  frd ← is_red_day data;
  fgd ← is_green_day data;
  Ok (hom, lom, frd, fgd, signal_of_flags hom lom frd fgd).

(** The body of [analyze_symbol] after [get_data]: the result row is a
    dictionary from column name to cell; its items are evaluated in order. *)
Definition analyze_frame (symbol : string) (data : DataFrame) : result (gmap string string) :=
  '(hom, lom, frd, fgd, signal) ← compute_signal data;
  inside_week ← is_inside_week data;
  inside_pw ← in_previous_week_range data;
  how ← is_high_of_week data;
  low ← is_low_of_week data;
  inside_day ← is_inside_day data;
  Ok (<["Symbol" := symbol]> $
      <["Signal" := signal]> $
      <["Inside Week" := mark inside_week]> $
      <["Inside PW Range" := mark inside_pw]> $
      <["HOM" := mark hom]> $
      <["HOW" := mark how]> $
      <["FRD" := mark frd]> $
      <["LOM" := mark lom]> $
      <["LOW" := mark low]> $
      <["FGD" := mark fgd]> $
      <["Inside Day" := mark inside_day]> ∅).

(** ** Data fetching: column repair *)

(** The column labels of the downloaded frame: a flat index or a two-level
    [MultiIndex] of (outer, inner) labels. *)
Inductive Columns : Type :=
  | Index (labels : list string)
  | MultiIndex (labels : list (string * string)).

Definition is_lower (c : ascii) : bool :=
  let n := nat_of_ascii c in (97 <=? n)%nat && (n <=? 122)%nat.
Definition is_upper (c : ascii) : bool :=
  let n := nat_of_ascii c in (65 <=? n)%nat && (n <=? 90)%nat.
Definition to_upper (c : ascii) : ascii :=
  if is_lower c then ascii_of_nat (nat_of_ascii c - 32) else c.
Definition to_lower (c : ascii) : ascii :=
  if is_upper c then ascii_of_nat (nat_of_ascii c + 32) else c.

(** [s.title()] on ASCII labels, which the labels of a download are: a
    letter that follows a letter is lowered, any other letter is raised.  A
    label is a string of bytes; the bytes of a character outside ASCII are
    kept and count as uncased, where [str.title] cases the letters among such
    characters too. *)
Fixpoint title_from (prev_cased : bool) (s : string) : string :=
  match s with
  | EmptyString => EmptyString
  | String c rest =>
      if is_lower c || is_upper c
      then String (if prev_cased then to_lower c else to_upper c) (title_from true rest)
      else String c (title_from false rest)
  end.
Definition title (s : string) : string := title_from false s.

(** [sep in s] for a one-character [sep]. *)
Fixpoint contains (sep : ascii) (s : string) : bool :=
  match s with
  | EmptyString => false
  | String c rest => bool_decide (c = sep) || contains sep rest
  end.

(** [s.split(sep)] *)
Fixpoint split (sep : ascii) (s : string) : list string :=
  match s with
  | EmptyString => [EmptyString]
  | String c rest =>
      let parts := split sep rest in
      if bool_decide (c = sep) then EmptyString :: parts
      else match parts with
           | p :: ps => String c p :: ps
           | [] => [String c EmptyString]
           end
  end.

Definition UNDERSCORE : ascii := "_"%char.

Definition CANONICAL : list string := ["Open"; "High"; "Low"; "Close"; "Volume"].
Definition REQUIRED : list string := ["Open"; "High"; "Low"; "Close"].

(** [frame.columns = new]: the new labels must be as many as the columns. *)
Definition set_columns (old new : list string) : result (list string) :=
  if bool_decide (length new = length old) then Ok new else Raise ValueError.

(** The four repair rules of [get_data]. *)
Inductive Rule : Type := Collapse | Positional5 | StripPrefix | PositionalFirst.

Definition identical_labels (labels : list string) : bool :=
  (5 <=? length labels)%nat && bool_decide (length (remove_dups labels) = 1).
Definition separator_labels (labels : list string) : bool :=
  forallb (contains UNDERSCORE) labels.
Definition missing_required (labels : list string) : bool :=
  negb (forallb (λ r, bool_decide (r ∈ labels)) REQUIRED).

(** Which branch of the [if ... elif ... elif ...] chain is taken. *)
Definition chain_rule (labels : list string) : option Rule :=
  if identical_labels labels then Some Positional5
  else if separator_labels labels then Some StripPrefix
  else if missing_required labels then Some PositionalFirst
  else None.

Definition apply_rule (r : option Rule) (labels : list string) : result (list string) :=
  match r with
  | Some Positional5 => set_columns labels (take (length labels) CANONICAL)
  | Some StripPrefix =>
      set_columns labels (map (λ c, title (List.last (split UNDERSCORE c) EmptyString)) labels)
  | Some PositionalFirst =>
      let cols := take (length labels) REQUIRED in
      set_columns labels (cols ++ drop (length cols) labels)
  | Some Collapse | None => Ok labels
  end.

(** The first [if]: a [MultiIndex] is collapsed to its inner labels. *)
Definition collapse (cols : Columns) : list string :=
  match cols with
  | MultiIndex labels => snd <$> labels
  | Index labels => labels
  end.

Definition rename_adj_close (labels : list string) : list string :=
  map (λ c, if bool_decide (c = "Adj Close") || bool_decide (c = "AdjClose")
            then "Close" else c) labels.

(** The rules that fire on an input, in the order they fire. *)
Definition fired_rules (cols : Columns) : list Rule :=
  (match cols with MultiIndex _ => [Collapse] | Index _ => [] end)
  ++ (match chain_rule (collapse cols) with Some r => [r] | None => [] end).

(** The labels of the frame after the column repair of [get_data]. *)
Definition fix_columns (cols : Columns) : result (list string) :=
  let labels := collapse cols in
  labels ← apply_rule (chain_rule labels) labels;
  Ok (rename_adj_close labels).

(** ** Data fetching: session alignment *)

(** [index + delta] *)
Definition shift_index (delta : Z) (rs : list Row) : list Row :=
  (λ r, ((r.1 + delta)%Z, r.2)) <$> rs.

(** Midnight (UTC) of the day of [t]. *)
Definition floor_day (t : Z) : Z := (t / DAY * DAY)%Z.

(** [resample("1D")] on a UTC index: one bin per UTC calendar day, labelled
    by the day's midnight. *)
Definition resample_1D (rs : list Row) : list Row := resample floor_day rs.

(** The FTSE branch: shift back two hours, resample by day, shift forward. *)
Definition ftse_daily (bars : list Row) : list Row :=
  let shifted := shift_index (- (2 * HOUR)) bars in
  let daily := resample_1D shifted in
  shift_index (2 * HOUR) daily.

Definition UTC : Z → Z := λ _, 0%Z.

(** A downloaded frame: its column labels, its index and its values, row
    by row. *)
Record RawFrame : Type := mkRaw {
  raw_columns : Columns;
  raw_index : list Z;
  raw_values : list (list Q)
}.

Definition raw_empty (f : RawFrame) : bool :=
  bool_decide (raw_index f = []) || bool_decide (collapse (raw_columns f) = []).

Section Fetching.
(** The network and the parts of pandas that are taken as given:
    [yf.download] (with the [dropna] chained on it), the selection of the
    four price columns by label, which raises when one is absent, and the
    daily resampling in a local time zone at a cutoff offset. *)
Variable yf_download : string → string → string → result (option RawFrame).
Variable select_ohlc : list string → RawFrame → result (list Row).
Variable offset_resample : string → string → list Row → DataFrame.

(** The two resampling modes of [get_data]. *)
Definition session_resample (symbol offset tz : string) (bars : list Row) : DataFrame :=
  if bool_decide (symbol = "^FTSE") then mkFrame UTC (ftse_daily bars)
  else offset_resample tz offset bars.

(** [get_data]: download, repair the columns, select the four prices and
    resample to sessions.  The index is kept as instants, so that localizing
    or converting it to UTC changes nothing; the frame that comes out of the
    aggregation has the four required columns, so that the last check of
    [get_data] passes. *)
Definition get_data (symbol period offset tz : string) : result DataFrame :=
  downloaded ← yf_download symbol period "1h";
  match downloaded with
  | None => Raise (OtherException "AttributeError")
  | Some raw =>
      labels ← fix_columns (raw_columns raw);
      bars ← select_ohlc labels raw;
      Ok (session_resample symbol offset tz bars)
  end.

Definition analyze_symbol (symbol offset tz : string) : result (gmap string string) :=
  data ← get_data symbol "3mo" offset tz;
  analyze_frame symbol data.

(** ** Main logic *)

Definition groups : list (string * list (string * string)) :=
  [ ("Commodities",
     [ ("CL=F", "WTI Crude Oil"); ("GC=F", "Gold"); ("SI=F", "Silver");
       ("HG=F", "Copper"); ("PL=F", "Platinum"); ("NG=F", "Natural Gas") ]);
    ("Indices",
     [ ("^GSPC", "S&P 500"); ("^NDX", "Nasdaq 100"); ("^DJI", "Dow Jones");
       ("^FTSE", "FTSE 100"); ("^N225", "Nikkei 225") ]);
    ("FX",
     [ ("EURUSD=X", "EUR/USD"); ("GBPUSD=X", "GBP/USD"); ("USDJPY=X", "USD/JPY");
       ("AUDUSD=X", "AUD/USD"); ("USDCAD=X", "USD/CAD") ]);
    ("Crypto",
     [ ("BTC-USD", "Bitcoin"); ("ETH-USD", "Ethereum") ]) ].

Definition tz_offsets : gmap string (string * string) :=
  list_to_map
    [ ("Commodities", ("America/New_York", "16h30min"));
      ("FX", ("America/New_York", "17h"));
      ("Crypto", ("UTC", "00h"));
      ("^GSPC", ("America/New_York", "16h"));
      ("^NDX", ("America/New_York", "16h"));
      ("^DJI", ("America/New_York", "16h"));
      ("^FTSE", ("UTC", "0h"));
      ("^N225", ("UTC", "0h")) ].

Definition FLAGS : list string :=
  [ "Inside Week"; "Inside PW Range"; "HOM"; "HOW"; "FRD"; "LOM"; "LOW"; "FGD";
    "Inside Day" ].

Definition no_data_template : gmap string string :=
  <["Signal" := NO_SIGNAL]> (list_to_map (map (λ k, (k, "No data")) FLAGS)).

(** [{"Asset": name, "Symbol": sym, **no_data_template}] *)
Definition no_data_row (name sym : string) : gmap string string :=
  no_data_template ∪ (<["Asset" := name]> {["Symbol" := sym]}).

(** [row.update({k: "Error" for k in no_data_template})] *)
Definition error_row (name sym : string) : gmap string string :=
  ((λ _, "Error") <$> no_data_template) ∪ (<["Asset" := name]> {["Symbol" := sym]}).

(** The pre-flight check: the 5-day daily download must be a non-empty frame. *)
Definition preflight (sym : string) : result unit :=
  test ← yf_download sym "5d" "1d";
  match test with
  | None => Raise ValueError
  | Some f => if raw_empty f then Raise ValueError else Ok ()
  end.

(** [tz_offsets.get(sym, tz_offsets.get(group_name, default))]: the time zone
    and the cutoff of a symbol. *)
Definition session_config (group_name sym : string) : string * string :=
  default (default ("America/New_York", "16h30min") (tz_offsets !! group_name))
          (tz_offsets !! sym).

(** One iteration of the loop over a group's symbols: the rows collected so
    far, and the rows after the iteration. *)
Definition process_symbol (group_name : string) (group_results : list (gmap string string))
    (entry : string * string) : result (list (gmap string string)) :=
  let '(sym, name) := entry in
  let '(tz, offset) := session_config group_name sym in
  match preflight sym with
  | Raise _ => Ok (group_results ++ [no_data_row name sym])
  | Ok _ =>
      try_except
        (res ← analyze_symbol sym offset tz;
         Ok (group_results ++ [<["Asset" := name]> res]))
        (λ _, Ok (group_results ++ [error_row name sym]))
  end.

(** The loop over one group, from an empty [group_results]. *)
Definition process_group (group_name : string) (symbols : list (string * string))
    : result (list (gmap string string)) :=
  foldl (λ acc entry, rs ← acc; process_symbol group_name rs entry) (Ok []) symbols.

(** The loop over the groups: every group that has rows, with its rows. *)
Definition main_results : result (list (string * list (gmap string string))) :=
  foldl (λ acc g,
           tables ← acc;
           rs ← process_group g.1 g.2;
           Ok (if bool_decide (rs = []) then tables else tables ++ [(g.1, rs)]))
        (Ok []) groups.
End Fetching.

(** ** Specification vocabulary *)

(** [m] is a largest (smallest) value of the series [s]. *)
Definition is_maximum (m : Q) (s : list Q) : Prop :=
  m ∈ s ∧ ∀ x, x ∈ s → (x <= m)%Q.
Definition is_minimum (m : Q) (s : list Q) : Prop :=
  m ∈ s ∧ ∀ x, x ∈ s → (m <= x)%Q.

(** The shape shared by the four of-month and of-week predicates. *)
Definition of_window (extremum : list Q → option Q) (n : nat) (s : list Q) : result bool :=
  v ← iloc s (-2); Ok (float_eq v (extremum (tail n s))).

(** ** Sample data and perturbations *)

(** A UTC frame of candles on consecutive days from the instant [start]. *)
Definition daily_utc (start : Z) (cs : list OHLC) : DataFrame :=
  mkFrame UTC (imap (λ i c, ((start + Z.of_nat i * DAY)%Z, c)) cs).

(** The frame with the High (the Low) of candle [i] replaced by [v]. *)
Definition set_high (i : nat) (v : Q) (data : DataFrame) : DataFrame :=
  mkFrame (utcoffset data)
          (alter (λ r, (r.1, mkOHLC (Open r.2) v (Low r.2) (Close r.2))) i (rows data)).
Definition set_low (i : nat) (v : Q) (data : DataFrame) : DataFrame :=
  mkFrame (utcoffset data)
          (alter (λ r, (r.1, mkOHLC (Open r.2) (High r.2) v (Close r.2))) i (rows data)).

(** Raising the High of any candle but the one at position -2 above that
    candle's High makes [is_high_of_month] false. *)
Definition any_higher_candle_flips (data : DataFrame) : Prop :=
  ∀ i v h, i < len data → i ≠ len data - 2 →
    column High (rows data) !! (len data - 2) = Some h → (h < v)%Q →
    is_high_of_month (set_high i v data) = Ok false.

(** Thirty flat candles, the last closed one with the highest High. *)
Definition month30 : DataFrame :=
  daily_utc 0 (replicate 28 (mkOHLC 1 1 1 1) ++ [mkOHLC 1 2 1 1; mkOHLC 1 1 1 1]).

(** Two candles, the first one red. *)
Definition two_candles : DataFrame :=
  daily_utc 0 [mkOHLC 5 6 3 4; mkOHLC 4 5 3 4].

(** The three candles of the inside-day scenario. *)
Definition inside3 : DataFrame :=
  daily_utc 0 [mkOHLC 5 10 1 5; mkOHLC 5 9 2 5; mkOHLC 5 11 0.5 5].

(** ** Sessions and bins *)

(** The candle of a group of rows taken in order. *)
Definition aggregate (cs : list OHLC) : option OHLC :=
  match cs with
  | [] => None
  | c :: rest => Some (foldl agg_merge c rest)
  end.

(** The rows of a frame whose timestamp falls into bin [k]. *)
Definition bin_rows (key : Z → Z) (k : Z) (rs : list Row) : list OHLC :=
  snd <$> filter (λ r, key r.1 = k) rs.

(** An index in strictly ascending order. *)
Definition ascending (bins : list Row) : Prop :=
  StronglySorted (λ a b, (a.1 < b.1)%Z) bins.

(** Rows in time order: no row is earlier than a row before it. *)
Definition in_time_order (rs : list Row) : Prop :=
  StronglySorted (λ a b, (a.1 <= b.1)%Z) rs.

(** The label of the FTSE session of a bar at instant [t]: 02:00 UTC of the
    day of [t] minus two hours. *)
Definition ftse_session (t : Z) : Z := (floor_day (t - 2 * HOUR) + 2 * HOUR)%Z.

(** Three hourly bars around midnight: 22:00 on 1 January 1970, and 01:00
    and 02:00 on the next day. *)
Definition night_bars : list Row :=
  [ (79200%Z, mkOHLC 10 12 9 11);
    (90000%Z, mkOHLC 11 15 10 14);
    (93600%Z, mkOHLC 14 16 13 15) ].

(** Two hourly bars of one session, the later one first: 10:00 and 09:00 on
    1 January 1970. *)
Definition late_bar_first : list Row :=
  [ (36000%Z, mkOHLC 1 5 1 2); (32400%Z, mkOHLC 3 4 0 4) ].

(** A bar two hours before midnight belongs to the session of the UTC day of
    its timestamp plus two hours. *)
Definition boundary_bar_next_day : Prop :=
  ∀ t b L c, (t mod DAY = DAY - 2 * HOUR)%Z →
    (L, c) ∈ ftse_daily [(t, b)] → floor_day L = floor_day (t + 2 * HOUR).

(** Daily candles from Monday 5 January 1970 on: a week of five sessions, and
    three sessions of the next week that stay within the range of the first. *)
Definition two_weeks : DataFrame :=
  mkFrame UTC
    [ (345600%Z, mkOHLC 10 12 8 11); (432000%Z, mkOHLC 11 14 9 13);
      (518400%Z, mkOHLC 13 15 10 12); (604800%Z, mkOHLC 12 13 7 9);
      (691200%Z, mkOHLC 9 11 8 10);
      (950400%Z, mkOHLC 10 12 9 11); (1036800%Z, mkOHLC 11 13 10 12);
      (1123200%Z, mkOHLC 12 14 11 13) ].

(** Daily candles of three weeks from Monday 5 January 1970: two sessions of
    the first week, two of the second, which stay within the range of the
    first, and the Monday of the third, which breaks out of the second. *)
Definition three_weeks : DataFrame :=
  mkFrame UTC
    [ (345600%Z, mkOHLC 10 20 5 12); (432000%Z, mkOHLC 12 18 8 11);
      (950400%Z, mkOHLC 11 15 7 12); (1036800%Z, mkOHLC 12 14 9 13);
      (1555200%Z, mkOHLC 13 30 1 20) ].

(** [is_inside_week] tells whether the most recent completed week lies
    inside the week before it; the weeks are named as the comments of
    [in_previous_week_range] name them: the last weekly candle is the current
    week, still forming, and the candle before it is the previous completed
    week. *)
Definition inside_completed_week (data : DataFrame) : Prop :=
  let weekly := get_weekly_data data in
  ∀ completed prior,
    3 ≤ length weekly →
    weekly !! (length weekly - 2) = Some completed →
    weekly !! (length weekly - 3) = Some prior →
    ∃ inside, is_inside_week data = Ok inside
            ∧ (inside = true ↔
                 (High completed.2 <= High prior.2)%Q ∧ (Low prior.2 <= Low completed.2)%Q).

(** Three candles whose last closed session is a red high of the series: a
    SHORT. *)
Definition short3 : DataFrame :=
  daily_utc 0 [mkOHLC 5 8 4 6; mkOHLC 9 10 5 7; mkOHLC 7 8 6 7].

(** Three candles whose last closed session is a green low of the series: a
    LONG. *)
Definition long3 : DataFrame :=
  daily_utc 0 [mkOHLC 7 8 6 7; mkOHLC 4 6 3 5; mkOHLC 5 6 4 5].

(** ** Rows of the report *)

(** Every flag of the row holds [v]. *)
Definition all_flags (v : string) (row : gmap string string) : bool :=
  forallb (λ k, bool_decide (row !! k = Some v)) FLAGS.

(** The three kinds of row: every flag a mark; every flag "No data" and no
    signal; every flag "Error". *)
Definition is_full_row (row : gmap string string) : bool :=
  forallb (λ k, bool_decide (row !! k = Some TICK) || bool_decide (row !! k = Some CROSS))
          FLAGS.
Definition is_no_data_row (row : gmap string string) : bool :=
  all_flags "No data" row && bool_decide (row !! "Signal" = Some NO_SIGNAL).
Definition is_error_row (row : gmap string string) : bool :=
  all_flags "Error" row.

(** The row an instrument ends with, by what happened to it. *)
Definition result_row
    (yf_download : string → string → string → result (option RawFrame))
    (select_ohlc : list string → RawFrame → result (list Row))
    (offset_resample : string → string → list Row → DataFrame)
    (group_name sym name : string) : gmap string string :=
  match preflight yf_download sym with
  | Raise _ => no_data_row name sym
  | Ok _ =>
      match analyze_symbol yf_download select_ohlc offset_resample sym
              (session_config group_name sym).2 (session_config group_name sym).1 with
      | Ok res => <["Asset" := name]> res
      | Raise _ => error_row name sym
      end
  end.

(** Two-level columns as the download labels them: the price field, then the
    ticker. *)
Definition ticker_columns : Columns :=
  MultiIndex [ ("Close", "CL=F"); ("High", "CL=F"); ("Low", "CL=F");
               ("Open", "CL=F"); ("Volume", "CL=F") ].

(** On two-level columns the collapse is the only rule that fires. *)
Definition only_collapse_fires : Prop :=
  ∀ labels, fired_rules (MultiIndex labels) = [Collapse].

(** A network whose pre-flight download succeeds and whose hourly download
    resamples to the daily frame [data]. *)
Definition download_ok : string → string → string → result (option RawFrame) :=
  λ _ _ _, Ok (Some (mkRaw (Index REQUIRED) [0%Z] [[1; 1; 1; 1]%Q])).
Definition select_frame (data : DataFrame) : list string → RawFrame → result (list Row) :=
  λ _ _, Ok (rows data).
Definition resample_id : string → string → list Row → DataFrame :=
  λ _ _ rs, mkFrame UTC rs.

(** On a series of 2 candles or more, the signal of [analyze_symbol] is
    SHORT exactly when high-of-month and first-red-day both hold, LONG exactly
    when low-of-month and first-green-day both hold, and no signal
    otherwise. *)
Definition signal_from_two_candles
    (yf_download : string → string → string → result (option RawFrame))
    (select_ohlc : list string → RawFrame → result (list Row))
    (offset_resample : string → string → list Row → DataFrame)
    (symbol offset tz : string) (data : DataFrame) : Prop :=
  get_data yf_download select_ohlc offset_resample symbol "3mo" offset tz = Ok data →
  2 ≤ len data →
  ∃ row signal,
    analyze_symbol yf_download select_ohlc offset_resample symbol offset tz = Ok row
    ∧ row !! "Signal" = Some signal
    ∧ (signal = SHORT ↔ is_high_of_month data = Ok true ∧ is_red_day data = Ok true)
    ∧ (signal = LONG ↔ is_low_of_month data = Ok true ∧ is_green_day data = Ok true)
    ∧ (signal = NO_SIGNAL ↔
         ¬ (is_high_of_month data = Ok true ∧ is_red_day data = Ok true)
         ∧ ¬ (is_low_of_month data = Ok true ∧ is_green_day data = Ok true)).

(** A series too short for a predicate is reported as a row of "No data". *)
Definition short_series_is_no_data : Prop :=
  ∀ yf_download select_ohlc offset_resample group_name sym name data,
    preflight yf_download sym = Ok () →
    get_data yf_download select_ohlc offset_resample sym "3mo"
      (session_config group_name sym).2 (session_config group_name sym).1 = Ok data →
    len data < 3 →
    ∃ row, process_symbol yf_download select_ohlc offset_resample group_name []
             (sym, name) = Ok [row]
         ∧ is_no_data_row row = true.

(** A sample network.  The daily pre-flight download times out for "CL=F",
    is an empty frame for "GC=F", and has one row for the others; the hourly
    download has canonical columns, and resamples to two sessions for "SI=F"
    and to three for the others. *)
Definition sample_raw (cs : list OHLC) : RawFrame :=
  mkRaw (Index REQUIRED)
        (imap (λ i _, (Z.of_nat i * DAY)%Z) cs)
        ((λ c, [Open c; High c; Low c; Close c]) <$> cs).

Definition sample_download (sym period interval : string)
    : result (option RawFrame) :=
  if bool_decide (interval = "1d") then
    if bool_decide (sym = "CL=F") then Raise (OtherException "timed out")
    else if bool_decide (sym = "GC=F") then Ok (Some (sample_raw []))
    else Ok (Some (sample_raw [mkOHLC 1 1 1 1]))
  else if bool_decide (sym = "SI=F") then Ok (Some (sample_raw [mkOHLC 5 6 3 4; mkOHLC 4 5 3 4]))
  else Ok (Some (sample_raw [mkOHLC 5 8 4 6; mkOHLC 9 10 5 7; mkOHLC 7 8 6 7])).

(** The four price columns of a frame with canonical labels, by position. *)
Definition select_positional (labels : list string) (raw : RawFrame)
    : result (list Row) :=
  Ok (zip_with (λ t v, (t, mkOHLC (nth 0 v 0%Q) (nth 1 v 0%Q) (nth 2 v 0%Q) (nth 3 v 0%Q)))
               (raw_index raw) (raw_values raw)).

Definition sample_symbols : list (string * string) :=
  [ ("CL=F", "WTI Crude Oil"); ("GC=F", "Gold"); ("SI=F", "Silver"); ("HG=F", "Copper") ].

(** ** The report *)

(** The columns [main] selects for the report of a group. *)
Definition REPORT_COLUMNS : list string :=
  [ "Asset"; "Symbol"; "Signal"; "Inside Week"; "Inside PW Range";
    "HOM"; "HOW"; "FRD"; "LOM"; "LOW"; "FGD"; "Inside Day" ].

(** The keys of the dictionary [analyze_symbol] returns. *)
Definition RESULT_KEYS : list string :=
  [ "Symbol"; "Signal"; "Inside Week"; "Inside PW Range";
    "HOM"; "HOW"; "FRD"; "LOM"; "LOW"; "FGD"; "Inside Day" ].

(** The last daily candle lies in the latest week of the series, and no
    earlier week of the series bears the same ISO week number. *)
Definition current_week_is_latest (data : DataFrame) : Prop :=
  ∀ final r, last (rows data) = Some final → r ∈ rows data →
    (week_bin (utcoffset data) r.1 ≤ week_bin (utcoffset data) final.1)%Z
    ∧ (isocalendar_week (utcoffset data) r.1 = isocalendar_week (utcoffset data) final.1 →
       week_bin (utcoffset data) r.1 = week_bin (utcoffset data) final.1).

(** A well-formed candle: the Open and the Close lie between the Low and the
    High. *)
Definition well_formed (c : OHLC) : Prop :=
  (Low c <= Open c)%Q ∧ (Low c <= Close c)%Q ∧ (Open c <= High c)%Q ∧ (Close c <= High c)%Q.

(** [pd.DataFrame(group_results)]: the columns of the frame are the keys of
    the rows. *)
Definition frame_columns (group_results : list (gmap string string)) : gset string :=
  ⋃ (dom <$> group_results).

(** The table of a group: nothing when the frame is empty; otherwise the
    selection [df[[...]]] of the report columns, which raises when the frame
    lacks one of them, and in which a row that lacks a key has an empty
    cell. *)
Definition report_table (group_results : list (gmap string string))
    : result (option (list (list (option string)))) :=
  if bool_decide (group_results = []) || bool_decide (frame_columns group_results = ∅)
  then Ok None
  else if forallb (λ c, bool_decide (c ∈ frame_columns group_results)) REPORT_COLUMNS
  then Ok (Some ((λ row, (λ c, row !! c) <$> REPORT_COLUMNS) <$> group_results))
  else Raise KeyError.

(** A network whose daily pre-flight download has one row, and whose hourly
    download has six columns under one label. *)
Definition six_columns_download (sym period interval : string)
    : result (option RawFrame) :=
  if bool_decide (interval = "1d") then Ok (Some (sample_raw [mkOHLC 1 1 1 1]))
  else Ok (Some (mkRaw (Index ["X"; "X"; "X"; "X"; "X"; "X"]) [0%Z]
                       [[1; 1; 1; 1; 1; 1]%Q])).

(** * Properties *)

(** ** Positions, windows and extrema *)

Section Series.
Context {A : Type}.
Implicit Types (s : list A) (k : nat).

Lemma iloc_neg_ok s k :
  0 < k ≤ length s →
  ∃ x, s !! (length s - k) = Some x ∧ iloc s (- Z.of_nat k) = Ok x.
Proof.
  intros [Hk Hlen].
  destruct (lookup_lt_is_Some_2 s (length s - k)) as [x Hx]; [lia|].
  exists x. split; [done|].
  unfold iloc; cbn zeta.
  replace (- Z.of_nat k <? 0)%Z with true by (symmetry; apply Z.ltb_lt; lia).
  replace (Z.of_nat (length s) + - Z.of_nat k)%Z with (Z.of_nat (length s - k)) by lia.
  replace (Z.of_nat (length s - k) <? 0)%Z with false by (symmetry; apply Z.ltb_ge; lia).
  replace (Z.of_nat (length s) <=? Z.of_nat (length s - k))%Z with false
    by (symmetry; apply Z.leb_gt; lia).
  by rewrite Nat2Z.id, Hx.
Qed.

Lemma iloc_neg_raise s k :
  length s < k → iloc s (- Z.of_nat k) = Raise IndexError.
Proof.
  intros Hlen. unfold iloc; cbn zeta.
  replace (- Z.of_nat k <? 0)%Z with true by (symmetry; apply Z.ltb_lt; lia).
  replace (Z.of_nat (length s) + - Z.of_nat k <? 0)%Z with true
    by (symmetry; apply Z.ltb_lt; lia).
  done.
Qed.

Lemma tail_all n s : length s ≤ n → tail n s = s.
Proof. intros H. unfold tail. by replace (length s - n) with 0 by lia. Qed.

Lemma length_tail n s : length (tail n s) = n `min` length s.
Proof. unfold tail. rewrite length_drop. lia. Qed.

Lemma lookup_tail n s i :
  tail n s !! i = s !! (length s - n + i).
Proof. unfold tail. apply lookup_drop. Qed.
End Series.

Lemma length_column col rs : length (column col rs) = length rs.
Proof. unfold column. by rewrite length_fmap. Qed.

Lemma lookup_column col rs i : column col rs !! i = (col ∘ snd) <$> rs !! i.
Proof. unfold column. apply list_lookup_fmap. Qed.

Lemma Qlt_bool_iff a b : Qlt_bool a b = true ↔ (a < b)%Q.
Proof.
  unfold Qlt_bool. rewrite negb_true_iff, <- not_true_iff_false, Qle_bool_iff.
  split; [apply Qnot_le_lt | apply Qlt_not_le].
Qed.

Lemma qmax_cases a b : (qmax a b = b ∧ (a <= b)%Q) ∨ (qmax a b = a ∧ (b <= a)%Q).
Proof.
  unfold qmax. destruct (Qle_bool a b) eqn:E.
  - left. split; [done|]. by apply Qle_bool_iff.
  - right. split; [done|]. apply Qlt_le_weak, Qnot_le_lt.
    rewrite <- Qle_bool_iff. congruence.
Qed.

Lemma qmin_cases a b : (qmin a b = a ∧ (a <= b)%Q) ∨ (qmin a b = b ∧ (b <= a)%Q).
Proof.
  unfold qmin. destruct (Qle_bool a b) eqn:E.
  - left. split; [done|]. by apply Qle_bool_iff.
  - right. split; [done|]. apply Qlt_le_weak, Qnot_le_lt.
    rewrite <- Qle_bool_iff. congruence.
Qed.


Lemma foldl_qmax_spec xs x : is_maximum (foldl qmax x xs) (x :: xs).
Proof.
  revert x. induction xs as [|y ys IH]; intros x; cbn [foldl].
  - split; [set_solver|]. intros z Hz. apply list_elem_of_singleton in Hz as ->.
    apply Qle_refl.
  - destruct (IH (qmax x y)) as [Hin Hub]. split.
    + apply elem_of_cons in Hin as [Hin|Hin]; [|set_solver].
      rewrite Hin. destruct (qmax_cases x y) as [[-> _]|[-> _]]; set_solver.
    + intros z Hz.
      assert (qmax x y <= foldl qmax (qmax x y) ys)%Q as Hm by (apply Hub; set_solver).
      apply elem_of_cons in Hz as [->|Hz].
      * destruct (qmax_cases x y) as [[E Hle]|[E Hle]]; rewrite E in *;
          [by eapply Qle_trans | done].
      * apply elem_of_cons in Hz as [->|Hz]; [|apply Hub; set_solver].
        destruct (qmax_cases x y) as [[E Hle]|[E Hle]]; rewrite E in *;
          [done | by eapply Qle_trans].
Qed.

Lemma foldl_qmin_spec xs x : is_minimum (foldl qmin x xs) (x :: xs).
Proof.
  revert x. induction xs as [|y ys IH]; intros x; cbn [foldl].
  - split; [set_solver|]. intros z Hz. apply list_elem_of_singleton in Hz as ->.
    apply Qle_refl.
  - destruct (IH (qmin x y)) as [Hin Hlb]. split.
    + apply elem_of_cons in Hin as [Hin|Hin]; [|set_solver].
      rewrite Hin. destruct (qmin_cases x y) as [[-> _]|[-> _]]; set_solver.
    + intros z Hz.
      assert (foldl qmin (qmin x y) ys <= qmin x y)%Q as Hm by (apply Hlb; set_solver).
      apply elem_of_cons in Hz as [->|Hz].
      * destruct (qmin_cases x y) as [[E Hle]|[E Hle]]; rewrite E in *;
          [done | by eapply Qle_trans].
      * apply elem_of_cons in Hz as [->|Hz]; [|apply Hlb; set_solver].
        destruct (qmin_cases x y) as [[E Hle]|[E Hle]]; rewrite E in *;
          [by eapply Qle_trans | done].
Qed.

Lemma series_max_spec s :
  s ≠ [] → ∃ m, series_max s = Some m ∧ is_maximum m s.
Proof. destruct s as [|x xs]; [done|]. intros _. eexists. split; [done|]. apply foldl_qmax_spec. Qed.

Lemma series_min_spec s :
  s ≠ [] → ∃ m, series_min s = Some m ∧ is_minimum m s.
Proof. destruct s as [|x xs]; [done|]. intros _. eexists. split; [done|]. apply foldl_qmin_spec. Qed.

(** A value of the series equals its maximum exactly when it bounds the series. *)
Lemma eq_maximum_iff h m s :
  h ∈ s → is_maximum m s → (h == m)%Q ↔ ∀ x, x ∈ s → (x <= h)%Q.
Proof.
  intros Hh [Hm Hub]. split.
  - intros E x Hx. rewrite E. by apply Hub.
  - intros Hall. apply Qle_antisym; [by apply Hub | by apply Hall].
Qed.

Lemma eq_minimum_iff l m s :
  l ∈ s → is_minimum m s → (l == m)%Q ↔ ∀ x, x ∈ s → (l <= x)%Q.
Proof.
  intros Hl [Hm Hlb]. split.
  - intros E x Hx. rewrite E. by apply Hlb.
  - intros Hall. apply Qle_antisym; [by apply Hall | by apply Hlb].
Qed.

(** ** Daily predicates *)


Lemma of_window_short extremum n (s : list Q) :
  length s < 2 → of_window extremum n s = Raise IndexError.
Proof.
  intros H. unfold of_window.
  change (-2)%Z with (- Z.of_nat 2)%Z. by rewrite iloc_neg_raise.
Qed.

(** With two values or more, the value at position -2 lies in the window. *)
Lemma window_member n (s : list Q) :
  2 ≤ n → 2 ≤ length s →
  ∃ v, s !! (length s - 2) = Some v ∧ iloc s (-2) = Ok v ∧ v ∈ tail n s.
Proof.
  intros Hn Hs.
  destruct (iloc_neg_ok s 2) as (v & Hv & Hi); [lia|].
  exists v. split_and!; [done..|].
  apply list_elem_of_lookup. exists (length s - 2 - (length s - n)).
  rewrite lookup_tail, <- Hv. f_equal. lia.
Qed.

Lemma of_window_max n (s : list Q) :
  2 ≤ n → 2 ≤ length s →
  ∃ v m, s !! (length s - 2) = Some v ∧ series_max (tail n s) = Some m
       ∧ is_maximum m (tail n s)
       ∧ of_window series_max n s = Ok (Qeq_bool v m)
       ∧ (of_window series_max n s = Ok true ↔ (v == m)%Q)
       ∧ (of_window series_max n s = Ok true ↔ ∀ x, x ∈ tail n s → (x <= v)%Q).
Proof.
  intros Hn Hs.
  destruct (window_member n s) as (v & Hv & Hi & Hin); [done..|].
  destruct (series_max_spec (tail n s)) as (m & Hm & Hmax).
  { intros E. rewrite E in Hin. by apply not_elem_of_nil in Hin. }
  assert (of_window series_max n s = Ok (Qeq_bool v m)) as Hw.
  { unfold of_window. by rewrite Hi, Hm. }
  assert (of_window series_max n s = Ok true ↔ (v == m)%Q) as Heq.
  { rewrite Hw, <- Qeq_bool_iff. split; [congruence | by intros ->]. }
  exists v, m. split_and!; [done..|].
  by rewrite Heq, eq_maximum_iff.
Qed.

Lemma of_window_min n (s : list Q) :
  2 ≤ n → 2 ≤ length s →
  ∃ v m, s !! (length s - 2) = Some v ∧ series_min (tail n s) = Some m
       ∧ is_minimum m (tail n s)
       ∧ of_window series_min n s = Ok (Qeq_bool v m)
       ∧ (of_window series_min n s = Ok true ↔ (v == m)%Q)
       ∧ (of_window series_min n s = Ok true ↔ ∀ x, x ∈ tail n s → (v <= x)%Q).
Proof.
  intros Hn Hs.
  destruct (window_member n s) as (v & Hv & Hi & Hin); [done..|].
  destruct (series_min_spec (tail n s)) as (m & Hm & Hmin).
  { intros E. rewrite E in Hin. by apply not_elem_of_nil in Hin. }
  assert (of_window series_min n s = Ok (Qeq_bool v m)) as Hw.
  { unfold of_window. by rewrite Hi, Hm. }
  assert (of_window series_min n s = Ok true ↔ (v == m)%Q) as Heq.
  { rewrite Hw, <- Qeq_bool_iff. split; [congruence | by intros ->]. }
  exists v, m. split_and!; [done..|].
  by rewrite Heq, eq_minimum_iff.
Qed.

Lemma is_high_of_month_window data :
  is_high_of_month data = of_window series_max 22 (column High (rows data)).
Proof. reflexivity. Qed.
Lemma is_high_of_week_window data :
  is_high_of_week data = of_window series_max 5 (column High (rows data)).
Proof. reflexivity. Qed.
Lemma is_low_of_month_window data :
  is_low_of_month data = of_window series_min 22 (column Low (rows data)).
Proof. reflexivity. Qed.
Lemma is_low_of_week_window data :
  is_low_of_week data = of_window series_min 5 (column Low (rows data)).
Proof. reflexivity. Qed.

Lemma column_set_high i v data :
  column High (rows (set_high i v data)) = <[i := v]> (column High (rows data)).
Proof.
  unfold set_high, column; cbn [rows]. rewrite list_insert_alter.
  apply list_fmap_alter, Forall_forall. by intros [t c].
Qed.

Lemma column_set_low i v data :
  column Low (rows (set_low i v data)) = <[i := v]> (column Low (rows data)).
Proof.
  unfold set_low, column; cbn [rows]. rewrite list_insert_alter.
  apply list_fmap_alter, Forall_forall. by intros [t c].
Qed.

(** Replacing a value of the window, other than the one at position -2, by a
    larger one than that makes the comparison with the maximum fail. *)
Lemma of_window_max_raise n (s : list Q) i v h :
  2 ≤ n → 2 ≤ length s →
  length s - n ≤ i < length s → i ≠ length s - 2 →
  s !! (length s - 2) = Some h → (h < v)%Q →
  of_window series_max n (<[i := v]> s) = Ok false.
Proof.
  intros Hn Hs Hi Hne Hh Hlt.
  destruct (of_window_max n (<[i := v]> s)) as (h' & m & Hh' & _ & [_ Hub] & Hw & _);
    [done | by rewrite length_insert |].
  rewrite length_insert, list_lookup_insert_ne, Hh in Hh' by done.
  injection Hh' as <-. rewrite Hw. f_equal.
  apply not_true_is_false. rewrite Qeq_bool_iff. intros E.
  assert (v <= m)%Q as Hv.
  { apply Hub, list_elem_of_lookup. exists (i - (length s - n)).
    rewrite lookup_tail, length_insert.
    replace (length s - n + (i - (length s - n))) with i by lia.
    apply list_lookup_insert_eq. lia. }
  rewrite <- E in Hv. by apply Qlt_not_le in Hlt.
Qed.

Lemma of_window_min_lower n (s : list Q) i v l :
  2 ≤ n → 2 ≤ length s →
  length s - n ≤ i < length s → i ≠ length s - 2 →
  s !! (length s - 2) = Some l → (v < l)%Q →
  of_window series_min n (<[i := v]> s) = Ok false.
Proof.
  intros Hn Hs Hi Hne Hl Hlt.
  destruct (of_window_min n (<[i := v]> s)) as (l' & m & Hl' & _ & [_ Hlb] & Hw & _);
    [done | by rewrite length_insert |].
  rewrite length_insert, list_lookup_insert_ne, Hl in Hl' by done.
  injection Hl' as <-. rewrite Hw. f_equal.
  apply not_true_is_false. rewrite Qeq_bool_iff. intros E.
  assert (m <= v)%Q as Hv.
  { apply Hlb, list_elem_of_lookup. exists (i - (length s - n)).
    rewrite lookup_tail, length_insert.
    replace (length s - n + (i - (length s - n))) with i by lia.
    apply list_lookup_insert_eq. lia. }
  rewrite <- E in Hv. by apply Qlt_not_le in Hlt.
Qed.

(** A value before the window does not enter the comparison. *)
Lemma of_window_before extremum n (s : list Q) i v :
  2 ≤ n → i < length s - n →
  of_window extremum n (<[i := v]> s) = of_window extremum n s.
Proof.
  intros Hn Hi.
  destruct (iloc_neg_ok s 2) as (x & Hx & Hs); [lia|].
  destruct (iloc_neg_ok (<[i := v]> s) 2) as (x' & Hx' & Hs'); [rewrite length_insert; lia|].
  rewrite length_insert, list_lookup_insert_ne, Hx in Hx' by lia. injection Hx' as <-.
  unfold of_window. change (-2)%Z with (- Z.of_nat 2)%Z. rewrite Hs, Hs'.
  unfold tail. by rewrite length_insert, drop_insert_lt.
Qed.

(** ** High and low of the month *)

(** C1 (as amended).  With 22 candles or more, [is_high_of_month] is true
    exactly when the High at position -2 equals the maximum High of the last
    22 candles, a window that holds the still-forming candle at position -1,
    and [is_low_of_month] is true exactly when the Low at position -2 equals
    the minimum Low of that window.  Raising the High of another candle of the
    window above the High at position -2 makes [is_high_of_month] false (and
    lowering a Low of the window below the Low at position -2 makes
    [is_low_of_month] false); a candle before the window has no effect. *)
Theorem high_low_of_month_spec (data : DataFrame) :
  22 ≤ len data →
  ∃ h l mh ml,
    column High (rows data) !! (len data - 2) = Some h
    ∧ column Low (rows data) !! (len data - 2) = Some l
    ∧ length (tail 22 (column High (rows data))) = 22
    ∧ length (tail 22 (column Low (rows data))) = 22
    ∧ is_maximum mh (tail 22 (column High (rows data)))
    ∧ is_minimum ml (tail 22 (column Low (rows data)))
    ∧ is_high_of_month data = Ok (Qeq_bool h mh)
    ∧ is_low_of_month data = Ok (Qeq_bool l ml)
    ∧ (is_high_of_month data = Ok true ↔ (h == mh)%Q)
    ∧ (is_low_of_month data = Ok true ↔ (l == ml)%Q)
    ∧ (∀ i v, len data - 22 ≤ i < len data → i ≠ len data - 2 → (h < v)%Q →
         is_high_of_month (set_high i v data) = Ok false)
    ∧ (∀ i v, len data - 22 ≤ i < len data → i ≠ len data - 2 → (v < l)%Q →
         is_low_of_month (set_low i v data) = Ok false)
    ∧ (∀ i v, i < len data - 22 →
         is_high_of_month (set_high i v data) = is_high_of_month data)
    ∧ (∀ i v, i < len data - 22 →
         is_low_of_month (set_low i v data) = is_low_of_month data).
Proof.
  intros Hlen. unfold len in *.
  pose proof (length_column High (rows data)) as LH.
  pose proof (length_column Low (rows data)) as LL.
  destruct (of_window_max 22 (column High (rows data)))
    as (h & mh & Hh & _ & Hmax & Hwh & Hih & _); [lia..|].
  destruct (of_window_min 22 (column Low (rows data)))
    as (l & ml & Hl & _ & Hmin & Hwl & Hil & _); [lia..|].
  rewrite LH in Hh. rewrite LL in Hl.
  exists h, l, mh, ml.
  rewrite !is_high_of_month_window, !is_low_of_month_window.
  split_and!; try done.
  - rewrite length_tail. lia.
  - rewrite length_tail. lia.
  - intros i v Hi Hne Hlt. rewrite is_high_of_month_window, column_set_high.
    apply (of_window_max_raise 22 _ i v h); rewrite ?LH; (done || lia).
  - intros i v Hi Hne Hlt. rewrite is_low_of_month_window, column_set_low.
    apply (of_window_min_lower 22 _ i v l); rewrite ?LL; (done || lia).
  - intros i v Hi. rewrite is_high_of_month_window, column_set_high.
    apply of_window_before; rewrite ?LH; lia.
  - intros i v Hi. rewrite is_low_of_month_window, column_set_low.
    apply of_window_before; rewrite ?LL; lia.
Qed.

Lemma high_low_of_month_spec_witness :
  22 ≤ len month30
  ∧ is_high_of_month month30 = Ok true
  ∧ is_high_of_month (set_high 8 3 month30) = Ok false
  ∧ is_high_of_month (set_high 29 3 month30) = Ok false
  ∧ is_high_of_month (set_high 7 3 month30) = Ok true.
Proof.
  assert (22 ≤ len month30) as Hlen by (vm_compute; lia).
  destruct (high_low_of_month_spec month30 Hlen)
    as (h & l & mh & ml & Hh & _ & _ & _ & _ & _ & _ & _ & _ & _ & Hraise & _ & Hbefore & _).
  assert (h = 2%Q) as -> by (vm_compute in Hh; congruence).
  split_and!; [done | reflexivity | | |].
  - apply Hraise; [vm_compute; lia | vm_compute; lia | reflexivity].
  - apply Hraise; [vm_compute; lia | vm_compute; lia | reflexivity].
  - rewrite Hbefore; [reflexivity | vm_compute; lia].
Defined.

(** C1, refuted as stated: in a 30-candle series whose candle at position -2
    has the maximum High of the last 22 candles, raising the High of the first
    candle, which lies before the window, leaves [is_high_of_month] true. *)
Lemma any_higher_candle_flips_fails :
  len month30 = 30
  ∧ is_high_of_month month30 = Ok true
  ∧ is_high_of_month (set_high 0 3 month30) = Ok true
  ∧ ¬ any_higher_candle_flips month30.
Proof.
  split_and!; [reflexivity..|].
  intros H. specialize (H 0 3%Q 2%Q).
  assert (is_high_of_month (set_high 0 3 month30) = Ok false) as Hf.
  { apply H; [vm_compute; lia | vm_compute; lia | reflexivity | reflexivity]. }
  vm_compute in Hf. discriminate.
Qed.

(** ** Red and green days *)

Lemma position_m2 (data : DataFrame) (col : OHLC → Q) :
  2 ≤ len data →
  ∃ r, rows data !! (len data - 2) = Some r
     ∧ iloc (column col (rows data)) (-2) = Ok (col r.2).
Proof.
  intros Hlen. unfold len in *.
  destruct (iloc_neg_ok (column col (rows data)) 2) as (x & Hx & Hi);
    [rewrite length_column; lia|].
  rewrite length_column, lookup_column in Hx.
  destruct (rows data !! (length (rows data) - 2)) as [r|] eqn:Hr; [|done].
  exists r. split; [done|]. injection Hx as <-. done.
Qed.

Lemma position_m3 (data : DataFrame) (col : OHLC → Q) :
  3 ≤ len data →
  ∃ r, rows data !! (len data - 3) = Some r
     ∧ iloc (column col (rows data)) (-3) = Ok (col r.2).
Proof.
  intros Hlen. unfold len in *.
  destruct (iloc_neg_ok (column col (rows data)) 3) as (x & Hx & Hi);
    [rewrite length_column; lia|].
  rewrite length_column, lookup_column in Hx.
  destruct (rows data !! (length (rows data) - 3)) as [r|] eqn:Hr; [|done].
  exists r. split; [done|]. injection Hx as <-. done.
Qed.

Lemma red_green_day_long (data : DataFrame) :
  2 ≤ len data →
  ∃ r, rows data !! (len data - 2) = Some r
     ∧ is_red_day data = Ok (Qlt_bool (Close r.2) (Open r.2))
     ∧ is_green_day data = Ok (Qlt_bool (Open r.2) (Close r.2)).
Proof.
  intros Hlen.
  destruct (position_m2 data Close Hlen) as (r & Hr & Hc).
  destruct (position_m2 data Open Hlen) as (r' & Hr' & Ho).
  rewrite Hr in Hr'. injection Hr' as <-.
  exists r. unfold is_red_day, is_green_day.
  replace (1 <? len data) with true by (symmetry; apply Nat.ltb_lt; lia).
  by rewrite Hc, Ho.
Qed.

Lemma red_green_day_short (data : DataFrame) :
  len data < 2 → is_red_day data = Ok false ∧ is_green_day data = Ok false.
Proof.
  intros Hlen. unfold is_red_day, is_green_day.
  by replace (1 <? len data) with false by (symmetry; apply Nat.ltb_ge; lia).
Qed.

(** C2 (as amended).  The guard of [is_red_day] and [is_green_day] covers the
    series with fewer than 2 candles: there both return false.  With 2 candles
    or more, and so with exactly 2, they do not raise either, and they compare
    the Close and the Open of the candle at position -2: [is_red_day] is true
    exactly when Close < Open, [is_green_day] exactly when Close > Open. *)
Theorem red_green_day_guard (data : DataFrame) :
  (len data < 2 → is_red_day data = Ok false ∧ is_green_day data = Ok false)
  ∧ (2 ≤ len data →
     ∃ r red green,
       rows data !! (len data - 2) = Some r
       ∧ is_red_day data = Ok red
       ∧ is_green_day data = Ok green
       ∧ (red = true ↔ (Close r.2 < Open r.2)%Q)
       ∧ (green = true ↔ (Open r.2 < Close r.2)%Q)).
Proof.
  split.
  - apply red_green_day_short.
  - intros Hlen. destruct (red_green_day_long data Hlen) as (r & Hr & Hred & Hgreen).
    exists r, (Qlt_bool (Close r.2) (Open r.2)), (Qlt_bool (Open r.2) (Close r.2)).
    split_and!; [done..| apply Qlt_bool_iff | apply Qlt_bool_iff].
Qed.

Lemma red_green_day_guard_witness :
  (len (daily_utc 0 [mkOHLC 5 6 3 4]) < 2
   ∧ is_red_day (daily_utc 0 [mkOHLC 5 6 3 4]) = Ok false
   ∧ is_green_day (daily_utc 0 [mkOHLC 5 6 3 4]) = Ok false)
  ∧ (2 ≤ len two_candles
     ∧ ∃ r red green,
         rows two_candles !! (len two_candles - 2) = Some r
         ∧ is_red_day two_candles = Ok red
         ∧ is_green_day two_candles = Ok green
         ∧ (red = true ↔ (Close r.2 < Open r.2)%Q)
         ∧ (green = true ↔ (Open r.2 < Close r.2)%Q)).
Proof.
  split.
  - assert (len (daily_utc 0 [mkOHLC 5 6 3 4]) < 2) as H by (vm_compute; lia).
    split; [done|].
    exact (proj1 (red_green_day_guard (daily_utc 0 [mkOHLC 5 6 3 4])) H).
  - assert (2 ≤ len two_candles) as H by (vm_compute; lia).
    split; [done|].
    exact (proj2 (red_green_day_guard two_candles) H).
Defined.

(** C2, refuted as stated: a series of exactly 2 candles whose first candle
    closed below its open makes [is_red_day] true. *)
Lemma two_candles_red_day :
  len two_candles = 2
  ∧ is_red_day two_candles = Ok true
  ∧ ¬ (∀ data, len data = 2 →
         is_red_day data = Ok false ∧ is_green_day data = Ok false).
Proof.
  split_and!; [reflexivity..|].
  intros H. destruct (H two_candles) as [Hred _]; [reflexivity|].
  vm_compute in Hred. discriminate.
Qed.

(** ** Inside day *)

Lemma is_inside_day_long (data : DataFrame) :
  3 ≤ len data →
  ∃ r2 r3 inside,
    rows data !! (len data - 2) = Some r2
    ∧ rows data !! (len data - 3) = Some r3
    ∧ is_inside_day data = Ok inside
    ∧ (inside = true ↔ (High r2.2 <= High r3.2)%Q ∧ (Low r3.2 <= Low r2.2)%Q).
Proof.
  intros Hlen.
  destruct (position_m2 data High) as (r2 & Hr2 & Hh2); [lia|].
  destruct (position_m3 data High) as (r3 & Hr3 & Hh3); [lia|].
  destruct (position_m2 data Low) as (r2' & Hr2' & Hl2); [lia|].
  destruct (position_m3 data Low) as (r3' & Hr3' & Hl3); [lia|].
  rewrite Hr2 in Hr2'. injection Hr2' as <-.
  rewrite Hr3 in Hr3'. injection Hr3' as <-.
  exists r2, r3, (Qle_bool (High r2.2) (High r3.2) && Qle_bool (Low r3.2) (Low r2.2)).
  split_and!; [done..| |].
  - unfold is_inside_day. rewrite Hh2, Hh3. cbn.
    destruct (Qle_bool (High r2.2) (High r3.2)); [|done].
    by rewrite Hl2, Hl3.
  - by rewrite andb_true_iff, !Qle_bool_iff.
Qed.

(** C3.  With 3 candles or more, [is_inside_day] returns, and it is true
    exactly when the High at position -2 is at most the High at position -3
    and the Low at position -2 is at least the Low at position -3.  On three
    candles with (High, Low) = (10, 1), (9, 2), (11, 0.5) it is true. *)
Theorem is_inside_day_spec (data : DataFrame) :
  (3 ≤ len data →
   ∃ r2 r3 inside,
     rows data !! (len data - 2) = Some r2
     ∧ rows data !! (len data - 3) = Some r3
     ∧ is_inside_day data = Ok inside
     ∧ (inside = true ↔ (High r2.2 <= High r3.2)%Q ∧ (Low r3.2 <= Low r2.2)%Q))
  ∧ (column High (rows data) = [10; 9; 11]%Q →
     column Low (rows data) = [1; 2; 0.5]%Q →
     is_inside_day data = Ok true).
Proof.
  split; [apply is_inside_day_long|].
  intros HH HL. unfold is_inside_day. by rewrite HH, HL.
Qed.

Lemma is_inside_day_spec_witness :
  (3 ≤ len inside3
   ∧ ∃ r2 r3 inside,
       rows inside3 !! (len inside3 - 2) = Some r2
       ∧ rows inside3 !! (len inside3 - 3) = Some r3
       ∧ is_inside_day inside3 = Ok inside
       ∧ (inside = true ↔ (High r2.2 <= High r3.2)%Q ∧ (Low r3.2 <= Low r2.2)%Q))
  ∧ is_inside_day inside3 = Ok true.
Proof.
  split.
  - assert (3 ≤ len inside3) as H by (vm_compute; lia).
    split; [done|]. exact (proj1 (is_inside_day_spec inside3) H).
  - apply (proj2 (is_inside_day_spec inside3)); reflexivity.
Defined.

(** ** Short histories *)

Lemma of_window_max_short n (s : list Q) :
  2 ≤ n → 2 ≤ length s ≤ n →
  tail n s = s
  ∧ ∃ v m, s !! (length s - 2) = Some v
         ∧ is_maximum m s
         ∧ of_window series_max n s = Ok (Qeq_bool v m)
         ∧ (of_window series_max n s = Ok true ↔ ∀ x, x ∈ s → (x <= v)%Q).
Proof.
  intros Hn Hs.
  destruct (of_window_max n s) as (v & m & Hv & _ & Hmax & Hw & _ & Hall); [lia..|].
  rewrite tail_all in * by lia. split; [done|]. by exists v, m.
Qed.

Lemma of_window_min_short n (s : list Q) :
  2 ≤ n → 2 ≤ length s ≤ n →
  tail n s = s
  ∧ ∃ v m, s !! (length s - 2) = Some v
         ∧ is_minimum m s
         ∧ of_window series_min n s = Ok (Qeq_bool v m)
         ∧ (of_window series_min n s = Ok true ↔ ∀ x, x ∈ s → (v <= x)%Q).
Proof.
  intros Hn Hs.
  destruct (of_window_min n s) as (v & m & Hv & _ & Hmin & Hw & _ & Hall); [lia..|].
  rewrite tail_all in * by lia. split; [done|]. by exists v, m.
Qed.

(** C10.  With at least 2 but fewer than 22 candles, the 22-candle window of
    [is_high_of_month] and [is_low_of_month] is the whole series: the
    predicates return, and compare the candle at position -2 with the maximum
    High, the minimum Low, of all the candles.  [is_high_of_week] and
    [is_low_of_week] do the same with fewer than 5 candles.  A series of 2
    candles can so be a high of the month. *)
Theorem short_history_window (data : DataFrame) :
  (2 ≤ len data < 22 →
   tail 22 (column High (rows data)) = column High (rows data)
   ∧ tail 22 (column Low (rows data)) = column Low (rows data)
   ∧ ∃ h l mh ml,
       column High (rows data) !! (len data - 2) = Some h
       ∧ column Low (rows data) !! (len data - 2) = Some l
       ∧ is_maximum mh (column High (rows data))
       ∧ is_minimum ml (column Low (rows data))
       ∧ is_high_of_month data = Ok (Qeq_bool h mh)
       ∧ is_low_of_month data = Ok (Qeq_bool l ml)
       ∧ (is_high_of_month data = Ok true ↔
            ∀ x, x ∈ column High (rows data) → (x <= h)%Q)
       ∧ (is_low_of_month data = Ok true ↔
            ∀ x, x ∈ column Low (rows data) → (l <= x)%Q))
  ∧ (2 ≤ len data < 5 →
     tail 5 (column High (rows data)) = column High (rows data)
     ∧ tail 5 (column Low (rows data)) = column Low (rows data)
     ∧ ∃ h l mh ml,
         column High (rows data) !! (len data - 2) = Some h
         ∧ column Low (rows data) !! (len data - 2) = Some l
         ∧ is_maximum mh (column High (rows data))
         ∧ is_minimum ml (column Low (rows data))
         ∧ is_high_of_week data = Ok (Qeq_bool h mh)
         ∧ is_low_of_week data = Ok (Qeq_bool l ml)
         ∧ (is_high_of_week data = Ok true ↔
              ∀ x, x ∈ column High (rows data) → (x <= h)%Q)
         ∧ (is_low_of_week data = Ok true ↔
              ∀ x, x ∈ column Low (rows data) → (l <= x)%Q))
  ∧ (len two_candles = 2
     ∧ is_high_of_month two_candles = Ok true
     ∧ is_high_of_week two_candles = Ok true
     ∧ is_low_of_month two_candles = Ok true
     ∧ is_low_of_week two_candles = Ok true).
Proof.
  pose proof (length_column High (rows data)) as LH.
  pose proof (length_column Low (rows data)) as LL.
  unfold len. split_and!; [| |reflexivity..].
  - intros Hlen.
    destruct (of_window_max_short 22 (column High (rows data)))
      as (TH & h & mh & Hh & Hmax & Hwh & Hih); [lia..|].
    destruct (of_window_min_short 22 (column Low (rows data)))
      as (TL & l & ml & Hl & Hmin & Hwl & Hil); [lia..|].
    rewrite LH in Hh. rewrite LL in Hl.
    split_and!; [done..|]. by exists h, l, mh, ml.
  - intros Hlen.
    destruct (of_window_max_short 5 (column High (rows data)))
      as (TH & h & mh & Hh & Hmax & Hwh & Hih); [lia..|].
    destruct (of_window_min_short 5 (column Low (rows data)))
      as (TL & l & ml & Hl & Hmin & Hwl & Hil); [lia..|].
    rewrite LH in Hh. rewrite LL in Hl.
    split_and!; [done..|]. by exists h, l, mh, ml.
Qed.

Lemma short_history_window_witness :
  2 ≤ len two_candles < 5
  ∧ tail 22 (column High (rows two_candles)) = column High (rows two_candles)
  ∧ tail 5 (column High (rows two_candles)) = column High (rows two_candles)
  ∧ (is_high_of_month two_candles = Ok true ↔
       ∀ x, x ∈ column High (rows two_candles) → (x <= 6)%Q)
  ∧ (is_high_of_week two_candles = Ok true ↔
       ∀ x, x ∈ column High (rows two_candles) → (x <= 6)%Q).
Proof.
  assert (2 ≤ len two_candles < 5) as H5 by (vm_compute; lia).
  assert (2 ≤ len two_candles < 22) as H22 by (vm_compute; lia).
  destruct (short_history_window two_candles) as (Hm & Hw & _).
  destruct (Hm H22) as (Tm & _ & h & l & mh & ml & Hh & _ & _ & _ & _ & _ & Him & _).
  destruct (Hw H5) as (Tw & _ & h' & l' & mh' & ml' & Hh' & _ & _ & _ & _ & _ & Hiw & _).
  assert (h = 6%Q) as -> by (vm_compute in Hh; congruence).
  assert (h' = 6%Q) as -> by (vm_compute in Hh'; congruence).
  split; [exact H5|]. by split_and!.
Defined.

(** ** Resampling *)

Lemma ascending_cons b bins :
  ascending (b :: bins) ↔ (∀ b', b' ∈ bins → (b.1 < b'.1)%Z) ∧ ascending bins.
Proof.
  unfold ascending. split.
  - intros H. apply StronglySorted_inv in H as [Hs Hall].
    split; [|done]. by apply Forall_forall.
  - intros [Hall Hs]. constructor; [done|]. by apply Forall_forall.
Qed.

Lemma agg_insert_keys k c bins b :
  b ∈ agg_insert k c bins → b.1 = k ∨ ∃ b', b' ∈ bins ∧ b'.1 = b.1.
Proof.
  induction bins as [|[k0 c0] rest IH]; cbn [agg_insert].
  - intros ->%list_elem_of_singleton. by left.
  - destruct (k <? k0)%Z eqn:Hlt; [|destruct (k =? k0)%Z eqn:Heq].
    + intros [->|Hin]%elem_of_cons; [by left|]. right. by exists b.
    + apply Z.eqb_eq in Heq as ->.
      intros [->|Hin]%elem_of_cons; [by left|]. right. exists b. set_solver.
    + intros [->|Hin]%elem_of_cons.
      * right. exists (k0, c0). set_solver.
      * destruct (IH Hin) as [?|(b' & Hb' & E)]; [by left|].
        right. exists b'. set_solver.
Qed.

Lemma agg_insert_ascending k c bins :
  ascending bins → ascending (agg_insert k c bins).
Proof.
  induction bins as [|[k0 c0] rest IH]; cbn [agg_insert]; intros Hs.
  - apply ascending_cons. split; [|done]. by intros b' ?%not_elem_of_nil.
  - apply ascending_cons in Hs as [Hall Hrest]. cbn [fst] in Hall.
    destruct (k <? k0)%Z eqn:Hlt; [|destruct (k =? k0)%Z eqn:Heq].
    + apply Z.ltb_lt in Hlt. apply ascending_cons. split.
      * intros b' [->|Hin]%elem_of_cons; cbn [fst]; [done|].
        specialize (Hall _ Hin). lia.
      * by apply ascending_cons.
    + by apply ascending_cons.
    + apply Z.ltb_ge in Hlt. apply Z.eqb_neq in Heq.
      apply ascending_cons. split; [|by apply IH].
      intros b' Hin. cbn [fst].
      destruct (agg_insert_keys _ _ _ _ Hin) as [->|(b'' & Hb'' & <-)]; [lia|].
      by apply Hall.
Qed.

(** What the bins hold after one more row: the row's bin is opened or
    merged into, the other bins are as before. *)
Lemma agg_insert_elem k c bins k' c' :
  ascending bins →
  (k', c') ∈ agg_insert k c bins ↔
    (k' ≠ k ∧ (k', c') ∈ bins)
    ∨ (k' = k ∧ ((∃ a, (k, a) ∈ bins ∧ c' = agg_merge a c)
                 ∨ ((∀ a, (k, a) ∉ bins) ∧ c' = c))).
Proof.
  induction bins as [|[k0 c0] rest IH]; cbn [agg_insert]; intros Hs.
  - rewrite list_elem_of_singleton. split.
    + intros [= -> ->]. right. split; [done|]. right. split; [|done].
      intros a. apply not_elem_of_nil.
    + intros [[_ []%not_elem_of_nil]|[-> [(a & []%not_elem_of_nil & _)|[_ ->]]]]. done.
  - apply ascending_cons in Hs as [Hall Hrest]. cbn [fst] in Hall.
    assert (∀ a, (k0, a) ∉ rest) as Hk0.
    { intros a Hin. specialize (Hall _ Hin). cbn in Hall. lia. }
    destruct (k <? k0)%Z eqn:Hlt; [|destruct (k =? k0)%Z eqn:Heq].
    + apply Z.ltb_lt in Hlt.
      assert (∀ a, (k, a) ∉ (k0, c0) :: rest) as Hk.
      { intros a [[= -> _]|Hin]%elem_of_cons; [lia|].
        specialize (Hall _ Hin). cbn in Hall. lia. }
      rewrite elem_of_cons. split.
      * intros [[= -> ->]|Hin].
        -- right. split; [done|]. by right.
        -- left. split; [|done]. intros ->. by apply (Hk c').
      * intros [[_ Hin]|[-> [(a & Hin & _)|[_ ->]]]]; [by right | | by left].
        by apply Hk in Hin.
    + apply Z.eqb_eq in Heq as ->. rewrite elem_of_cons. split.
      * intros [[= -> ->]|Hin].
        -- right. split; [done|]. left. exists c0. split; [|done]. set_solver.
        -- left. split; [|set_solver]. intros ->. by apply (Hk0 c').
      * intros [[Hne [[= ? _]|Hin]%elem_of_cons]|[-> [(a & Hin & ->)|[Hno _]]]];
          [done | by right | |].
        -- apply elem_of_cons in Hin as [[= ->]|Hin]; [by left|]. by apply Hk0 in Hin.
        -- exfalso. apply (Hno c0). set_solver.
    + apply Z.ltb_ge in Hlt. apply Z.eqb_neq in Heq.
      rewrite elem_of_cons, (IH Hrest). split.
      * intros [[= -> ->]|[[Hne Hin]|[-> Hk]]].
        -- left. split; [lia|set_solver].
        -- left. split; [done|set_solver].
        -- right. split; [done|].
           destruct Hk as [(a & Hin & ->)|[Hno ->]].
           ++ left. exists a. split; [set_solver|done].
           ++ right. split; [|done].
              intros a [[= -> _]|Hin]%elem_of_cons; [lia|]. by apply Hno in Hin.
      * intros [[Hne [[= -> ->]|Hin]%elem_of_cons]|[-> Hk]].
        -- by left.
        -- right. left. done.
        -- right. right. split; [done|].
           destruct Hk as [(a & [[= -> _]|Hin]%elem_of_cons & ->)|[Hno ->]].
           ++ lia.
           ++ left. by exists a.
           ++ right. split; [|done]. intros a Hin. apply (Hno a). set_solver.
Qed.

Lemma aggregate_snoc cs c :
  aggregate (cs ++ [c]) =
    Some (match aggregate cs with Some a => agg_merge a c | None => c end).
Proof. destruct cs as [|c0 rest]; [done|]. cbn. by rewrite foldl_snoc. Qed.

Lemma bin_rows_snoc key k rs r :
  bin_rows key k (rs ++ [r]) =
    bin_rows key k rs ++ (if decide (key r.1 = k) then [r.2] else []).
Proof.
  unfold bin_rows. rewrite filter_app, fmap_app. f_equal.
  rewrite filter_cons, filter_nil. by destruct (decide (key r.1 = k)).
Qed.

Lemma agg_rows_snoc key rs r :
  agg_rows key (rs ++ [r]) = agg_insert (key r.1) r.2 (agg_rows key rs).
Proof. unfold agg_rows. by rewrite foldl_snoc. Qed.

(** The candles of rows taken in order are in ascending order of their bins,
    one for every bin that has rows, aggregated from those rows. *)
Lemma agg_rows_spec key rs :
  ascending (agg_rows key rs)
  ∧ ∀ k c, (k, c) ∈ agg_rows key rs ↔ aggregate (bin_rows key k rs) = Some c.
Proof.
  induction rs as [|r rs [IHs IHe]] using rev_ind.
  - split; [constructor|]. intros k c. split; [by intros ?%not_elem_of_nil | done].
  - rewrite agg_rows_snoc. split; [by apply agg_insert_ascending|].
    intros k c. rewrite agg_insert_elem, bin_rows_snoc by done.
    destruct (decide (key r.1 = k)) as [<-|Hne].
    + rewrite aggregate_snoc. split.
      * intros [[? _]|[_ [(a & Hin & ->)|[Hno ->]]]]; [done| |].
        -- apply IHe in Hin. by rewrite Hin.
        -- destruct (aggregate (bin_rows key (key r.1) rs)) as [a|] eqn:E; [|done].
           apply IHe in E. by apply Hno in E.
      * intros [= <-]. right. split; [done|].
        destruct (aggregate (bin_rows key (key r.1) rs)) as [a|] eqn:E.
        -- left. exists a. split; [by apply IHe | done].
        -- right. split; [|done]. intros a Hin%IHe. congruence.
    + rewrite app_nil_r, <- IHe. split.
      * by intros [[_ ?]|[-> _]].
      * intros Hin. left. by split.
Qed.

(** The aggregate of a group: first Open, largest High, smallest Low, last
    Close. *)
Lemma aggregate_spec cs c :
  aggregate cs = Some c →
  ∃ first final,
    head cs = Some first ∧ last cs = Some final
    ∧ Open c = Open first
    ∧ Close c = Close final
    ∧ is_maximum (High c) (High <$> cs)
    ∧ is_minimum (Low c) (Low <$> cs).
Proof.
  destruct cs as [|c0 rest]; [done|]. intros [= <-].
  exists c0. revert c0. induction rest as [|c1 rest IH] using rev_ind; intros c0.
  - exists c0. cbn. split_and!; try done.
    + split; [set_solver|]. intros x ->%list_elem_of_singleton. apply Qle_refl.
    + split; [set_solver|]. intros x ->%list_elem_of_singleton. apply Qle_refl.
  - destruct (IH c0) as (final & _ & _ & HO & _ & [Hmi Hmu] & [Hli Hll]).
    exists c1. rewrite foldl_snoc. split_and!.
    + done.
    + by rewrite app_comm_cons, last_snoc.
    + done.
    + done.
    + rewrite app_comm_cons, fmap_app. cbn [agg_merge High fmap list_fmap].
      destruct (qmax_cases (High (foldl agg_merge c0 rest)) (High c1))
        as [[-> Hle]|[-> Hle]]; split.
      * set_solver.
      * intros x [Hx| ->%list_elem_of_singleton]%elem_of_app; [|apply Qle_refl].
        eapply Qle_trans; [by apply Hmu | done].
      * set_solver.
      * intros x [Hx| ->%list_elem_of_singleton]%elem_of_app; [by apply Hmu | done].
    + rewrite app_comm_cons, fmap_app. cbn [agg_merge Low fmap list_fmap].
      destruct (qmin_cases (Low (foldl agg_merge c0 rest)) (Low c1))
        as [[-> Hle]|[-> Hle]]; split.
      * set_solver.
      * intros x [Hx| ->%list_elem_of_singleton]%elem_of_app; [by apply Hll | done].
      * set_solver.
      * intros x [Hx| ->%list_elem_of_singleton]%elem_of_app; [|apply Qle_refl].
        eapply Qle_trans; [done | by apply Hll].
Qed.

Lemma agg_rows_shift key delta rs :
  agg_rows key (shift_index delta rs) = agg_rows (λ t, key (t + delta)%Z) rs.
Proof.
  unfold agg_rows, shift_index. generalize (@nil Row).
  induction rs as [|r rs IH]; intros acc; [done|]. cbn. apply IH.
Qed.

(** *** The stable sort by timestamp *)

Lemma sort_insert_perm r rs : sort_insert r rs ≡ₚ r :: rs.
Proof.
  induction rs as [|r' rs IH]; [done|]. cbn [sort_insert].
  destruct (r.1 <=? r'.1)%Z; [done|]. rewrite IH. apply Permutation_swap.
Qed.

Lemma sort_index_perm rs : sort_index rs ≡ₚ rs.
Proof.
  induction rs as [|r rs IH]; [done|].
  cbn [sort_index foldr]. fold (sort_index rs). by rewrite sort_insert_perm, IH.
Qed.

Lemma elem_of_sort_index rs r : r ∈ sort_index rs ↔ r ∈ rs.
Proof. by rewrite sort_index_perm. Qed.

Lemma length_sort_index rs : length (sort_index rs) = length rs.
Proof. by rewrite sort_index_perm. Qed.

Lemma sort_insert_in_time_order r rs :
  in_time_order rs → in_time_order (sort_insert r rs).
Proof.
  unfold in_time_order. induction 1 as [|r' rs Hs IH Hall]; cbn [sort_insert].
  - repeat constructor.
  - destruct (r.1 <=? r'.1)%Z eqn:Hle.
    + apply Z.leb_le in Hle. constructor; [by constructor|].
      constructor; [done|]. eapply Forall_impl; [done|]. intros b. cbn. lia.
    + apply Z.leb_gt in Hle. constructor; [done|].
      rewrite sort_insert_perm. constructor; [lia | done].
Qed.

Lemma sort_index_in_time_order rs : in_time_order (sort_index rs).
Proof.
  induction rs as [|r rs IH]; [constructor|].
  cbn [sort_index foldr]. by apply sort_insert_in_time_order.
Qed.

(** Rows that are in time order already stay as they are. *)
Lemma sort_index_fixed rs : in_time_order rs → sort_index rs = rs.
Proof.
  unfold in_time_order. induction 1 as [|r rs Hs IH Hall]; [done|].
  cbn [sort_index foldr]. fold (sort_index rs). rewrite IH.
  destruct rs as [|r' rs']; [done|]. cbn [sort_insert].
  apply Forall_cons in Hall as [Hle _].
  by replace (r.1 <=? r'.1)%Z with true by (symmetry; apply Z.leb_le; lia).
Qed.

Lemma ascending_in_time_order rs : ascending rs → in_time_order rs.
Proof.
  unfold ascending, in_time_order. induction 1 as [|r rs Hs IH Hall]; [constructor|].
  constructor; [done|]. eapply Forall_impl; [done|]. intros b. cbn. lia.
Qed.

Lemma sort_insert_shift delta r rs :
  sort_insert ((r.1 + delta)%Z, r.2) (shift_index delta rs)
  = shift_index delta (sort_insert r rs).
Proof.
  unfold shift_index. induction rs as [|r' rs IH]; [done|].
  cbn [sort_insert fmap list_fmap fst snd].
  replace (r.1 + delta <=? r'.1 + delta)%Z with (r.1 <=? r'.1)%Z
    by (destruct (Z.leb_spec r.1 r'.1); symmetry; [apply Z.leb_le | apply Z.leb_gt]; lia).
  destruct (r.1 <=? r'.1)%Z; [done|]. cbn [fmap list_fmap]. by rewrite IH.
Qed.

Lemma sort_index_shift delta rs :
  sort_index (shift_index delta rs) = shift_index delta (sort_index rs).
Proof.
  induction rs as [|r rs IH]; [done|].
  cbn [sort_index foldr shift_index fmap list_fmap].
  fold (shift_index delta rs). fold (sort_index (shift_index delta rs)).
  fold (sort_index rs). rewrite IH. apply sort_insert_shift.
Qed.

(** *** Resampling *)

Lemma resample_shift key delta rs :
  resample key (shift_index delta rs) = resample (λ t, key (t + delta)%Z) rs.
Proof. unfold resample. by rewrite sort_index_shift, agg_rows_shift. Qed.

(** The candles of a resampled frame are in ascending order of their bins,
    one for every bin that has rows, aggregated from those rows in time
    order. *)
Lemma resample_spec key rs :
  ascending (resample key rs)
  ∧ ∀ k c, (k, c) ∈ resample key rs ↔
           aggregate (bin_rows key k (sort_index rs)) = Some c.
Proof. apply agg_rows_spec. Qed.

Lemma bin_rows_sort_index key k rs b :
  b ∈ bin_rows key k (sort_index rs) ↔ b ∈ bin_rows key k rs.
Proof.
  unfold bin_rows. rewrite !list_elem_of_fmap.
  split; intros (r & -> & [Hk Hr]%list_elem_of_filter); exists r;
    (split; [done|]); apply list_elem_of_filter; (split; [done|]);
    by apply elem_of_sort_index.
Qed.

Lemma bin_rows_sorted_elem key k rs b :
  b ∈ bin_rows key k (sort_index rs) → b ∈ bin_rows key k rs.
Proof. apply bin_rows_sort_index. Qed.

Lemma bin_rows_elem_sorted key k rs b :
  b ∈ bin_rows key k rs → b ∈ bin_rows key k (sort_index rs).
Proof. apply bin_rows_sort_index. Qed.

Lemma is_maximum_ext m (s1 s2 : list Q) :
  (∀ x, x ∈ s1 ↔ x ∈ s2) → is_maximum m s1 → is_maximum m s2.
Proof.
  intros Hext [Hin Hub]. split; [by apply Hext|]. intros x Hx. by apply Hub, Hext.
Qed.

Lemma is_minimum_ext m (s1 s2 : list Q) :
  (∀ x, x ∈ s1 ↔ x ∈ s2) → is_minimum m s1 → is_minimum m s2.
Proof.
  intros Hext [Hin Hlb]. split; [by apply Hext|]. intros x Hx. by apply Hlb, Hext.
Qed.

Lemma fmap_bin_rows_sort_index (col : OHLC → Q) key k rs x :
  x ∈ col <$> bin_rows key k (sort_index rs) ↔ x ∈ col <$> bin_rows key k rs.
Proof.
  rewrite !list_elem_of_fmap.
  split; intros (b & -> & Hb); exists b; (split; [done|]); by apply bin_rows_sort_index.
Qed.

Lemma fmap_bin_rows_sorted_elem (col : OHLC → Q) key k rs x :
  x ∈ col <$> bin_rows key k (sort_index rs) → x ∈ col <$> bin_rows key k rs.
Proof. apply fmap_bin_rows_sort_index. Qed.

Lemma elem_of_shift_index delta rs t c :
  (t, c) ∈ shift_index delta rs ↔ ((t - delta)%Z, c) ∈ rs.
Proof.
  unfold shift_index. rewrite list_elem_of_fmap. split.
  - intros ([t' c'] & [= -> ->] & Hin). cbn. by replace (t' + delta - delta)%Z with t' by lia.
  - intros Hin. exists ((t - delta)%Z, c). split; [|done]. cbn. f_equal. lia.
Qed.

Lemma shift_index_ascending delta rs :
  ascending rs → ascending (shift_index delta rs).
Proof.
  unfold ascending, shift_index. induction 1 as [|b bins Hs IH Hall]; [constructor|].
  cbn. constructor; [done|]. rewrite Forall_fmap. eapply Forall_impl; [done|].
  intros b'. cbn. lia.
Qed.

(** ** Shifted mode *)

Lemma floor_day_session t : floor_day (ftse_session t) = floor_day (t - 2 * HOUR).
Proof.
  unfold ftse_session, floor_day, DAY, HOUR.
  rewrite Z.div_add_l by done. by rewrite Z.add_0_r.
Qed.

Lemma bin_rows_shifted L bars :
  bin_rows (λ t, floor_day (t + - (2 * HOUR))) (L - 2 * HOUR) bars
  = bin_rows ftse_session L bars.
Proof.
  unfold bin_rows. f_equal. apply list_filter_iff. intros [t c]. cbn.
  unfold ftse_session. replace (t + - (2 * HOUR))%Z with (t - 2 * HOUR)%Z by lia. lia.
Qed.

Lemma ftse_daily_elem bars L c :
  (L, c) ∈ ftse_daily bars ↔
  aggregate (bin_rows ftse_session L (sort_index bars)) = Some c.
Proof.
  unfold ftse_daily, resample_1D.
  rewrite elem_of_shift_index, resample_shift.
  rewrite (proj2 (resample_spec _ bars)). by rewrite bin_rows_shifted.
Qed.

Lemma ftse_daily_ascending bars : ascending (ftse_daily bars).
Proof. apply shift_index_ascending, resample_spec. Qed.

Lemma bin_rows_member key rs t b : (t, b) ∈ rs → b ∈ bin_rows key (key t) rs.
Proof.
  intros Hin. unfold bin_rows. apply list_elem_of_fmap.
  exists (t, b). split; [done|]. by apply list_elem_of_filter.
Qed.

(** A row is within the High and the Low of the candle of its bin. *)
Lemma aggregate_bounds cs c b :
  aggregate cs = Some c → b ∈ cs → (Low c <= Low b)%Q ∧ (High b <= High c)%Q.
Proof.
  intros (first & final & _ & _ & _ & _ & [_ Hmax] & [_ Hmin])%aggregate_spec Hin.
  split; [apply Hmin | apply Hmax]; by apply list_elem_of_fmap_2.
Qed.

Lemma aggregate_is_Some cs b : b ∈ cs → is_Some (aggregate cs).
Proof. destruct cs; [by intros ?%not_elem_of_nil | by eexists]. Qed.

(** The stable sort keeps rows with the same timestamp in the order they
    had. *)
Lemma sort_insert_stable t r rs :
  filter (λ x : Row, x.1 = t) (sort_insert r rs)
  = filter (λ x : Row, x.1 = t) (r :: rs).
Proof.
  induction rs as [|r' rs IH]; [done|]. cbn [sort_insert].
  destruct (r.1 <=? r'.1)%Z eqn:Hle; [done|]. apply Z.leb_gt in Hle.
  rewrite (filter_cons _ r'), IH, !(filter_cons _ r), (filter_cons _ r').
  destruct (decide (r'.1 = t)) as [E'|E'], (decide (r.1 = t)) as [E|E]; try done. lia.
Qed.

Lemma sort_index_stable t rs :
  filter (λ x : Row, x.1 = t) (sort_index rs) = filter (λ x : Row, x.1 = t) rs.
Proof.
  induction rs as [|r rs IH]; [done|].
  cbn [sort_index foldr]. fold (sort_index rs).
  by rewrite sort_insert_stable, !filter_cons, IH.
Qed.

(** C6 (as amended).  The shifted mode is taken exactly when the symbol is
    "^FTSE".  Its daily series subtracts 2 hours from every bar timestamp,
    resamples by UTC calendar day, and adds the 2 hours back to the daily
    index: the candles come in ascending order, one for every session that has
    bars, with the largest High and the smallest Low of the session's bars,
    the Open of its first bar and the Close of its last bar in time order
    (bars with one timestamp in the order of the download); for a download
    that is in time order, as the rows stand.  A bar at time [t] belongs to
    the session labelled 02:00 UTC of the day of [t] minus 2 hours; so a bar
    exactly 2 hours before midnight belongs to the session of its own UTC
    day, not to the one of the day of [t] plus 2 hours, which is the next
    day.  A bar at 02:00 UTC opens the session that bears its timestamp. *)
Theorem ftse_shifted_sessions
    (offset_resample : string → string → list Row → DataFrame)
    (symbol offset tz : string) (bars : list Row) :
  (symbol = "^FTSE" →
     session_resample offset_resample symbol offset tz bars = mkFrame UTC (ftse_daily bars))
  ∧ (symbol ≠ "^FTSE" →
     session_resample offset_resample symbol offset tz bars = offset_resample tz offset bars)
  ∧ ftse_daily bars
    = shift_index (2 * HOUR) (resample floor_day (shift_index (- (2 * HOUR)) bars))
  ∧ ascending (ftse_daily bars)
  ∧ (sort_index bars ≡ₚ bars
     ∧ in_time_order (sort_index bars)
     ∧ (∀ t, filter (λ r : Row, r.1 = t) (sort_index bars) = filter (λ r : Row, r.1 = t) bars)
     ∧ (in_time_order bars → sort_index bars = bars))
  ∧ (∀ L c, (L, c) ∈ ftse_daily bars ↔
       aggregate (bin_rows ftse_session L (sort_index bars)) = Some c)
  ∧ (∀ L c, (L, c) ∈ ftse_daily bars →
       ∃ first final,
         head (bin_rows ftse_session L (sort_index bars)) = Some first
         ∧ last (bin_rows ftse_session L (sort_index bars)) = Some final
         ∧ Open c = Open first
         ∧ Close c = Close final
         ∧ is_maximum (High c) (High <$> bin_rows ftse_session L bars)
         ∧ is_minimum (Low c) (Low <$> bin_rows ftse_session L bars))
  ∧ (∀ t b, (t, b) ∈ bars →
       ∃ c, (ftse_session t, c) ∈ ftse_daily bars
          ∧ b ∈ bin_rows ftse_session (ftse_session t) bars
          ∧ floor_day (ftse_session t) = floor_day (t - 2 * HOUR)
          ∧ (Low c <= Low b)%Q ∧ (High b <= High c)%Q)
  ∧ (∀ t, (t mod DAY = DAY - 2 * HOUR)%Z →
       floor_day (ftse_session t) = floor_day t
       ∧ floor_day (t + 2 * HOUR) = (floor_day t + DAY)%Z)
  ∧ (∀ t, (t mod DAY = 2 * HOUR)%Z →
       ftse_session t = t ∧ floor_day (t + 2 * HOUR) = floor_day t).
Proof.
  split_and!.
  - intros ->. unfold session_resample. by rewrite bool_decide_eq_true_2.
  - intros Hne. unfold session_resample. by rewrite bool_decide_eq_false_2.
  - done.
  - apply ftse_daily_ascending.
  - apply sort_index_perm.
  - apply sort_index_in_time_order.
  - intros t. apply sort_index_stable.
  - apply sort_index_fixed.
  - apply ftse_daily_elem.
  - intros L c Hin%ftse_daily_elem.
    destruct (aggregate_spec _ _ Hin) as (first & final & Hf & Hl & HO & HC & Hmax & Hmin).
    exists first, final. split_and!; [done..| |].
    + eapply is_maximum_ext; [|exact Hmax]. intros x. apply fmap_bin_rows_sort_index.
    + eapply is_minimum_ext; [|exact Hmin]. intros x. apply fmap_bin_rows_sort_index.
  - intros t b Hin.
    pose proof (bin_rows_member ftse_session bars t b Hin) as Hb.
    pose proof Hb as Hb'%bin_rows_elem_sorted.
    destruct (aggregate_is_Some _ _ Hb') as [c Hc].
    exists c. split_and!; [by apply ftse_daily_elem | done | apply floor_day_session | |];
      by eapply aggregate_bounds.
  - intros t Ht. rewrite floor_day_session.
    unfold floor_day, DAY, HOUR in *.
    pose proof (Z.div_mod t 86400) as Hdm. rewrite Ht in Hdm.
    split.
    + replace (t - 2 * 3600)%Z with (t / 86400 * 86400 + 72000)%Z by lia.
      rewrite Z.div_add_l by done. change (72000 / 86400)%Z with 0%Z. lia.
    + replace (t + 2 * 3600)%Z with ((t / 86400 + 1) * 86400 + 0)%Z by lia.
      rewrite Z.div_add_l by done. change (0 / 86400)%Z with 0%Z. lia.
  - intros t Ht. unfold ftse_session, floor_day, DAY, HOUR in *.
    pose proof (Z.div_mod t 86400) as Hdm. rewrite Ht in Hdm.
    split.
    + replace (t - 2 * 3600)%Z with (t / 86400 * 86400 + 0)%Z by lia.
      rewrite Z.div_add_l by done. change (0 / 86400)%Z with 0%Z. lia.
    + replace (t + 2 * 3600)%Z with (t / 86400 * 86400 + 14400)%Z by lia.
      rewrite Z.div_add_l by done. change (14400 / 86400)%Z with 0%Z. lia.
Qed.

Lemma ftse_shifted_sessions_witness :
  "^FTSE" = "^FTSE"
  ∧ "CL=F" ≠ "^FTSE"
  ∧ ((79200%Z, mkOHLC 10 12 9 11) ∈ night_bars ∧ (79200 mod DAY = DAY - 2 * HOUR)%Z)
  ∧ session_resample (λ _ _ rs, mkFrame UTC rs) "^FTSE" "0h" "UTC" night_bars
    = mkFrame UTC [ (7200%Z, mkOHLC 10 15 9 14);
                    (93600%Z, mkOHLC 14 16 13 15) ]
  ∧ session_resample (λ _ _ rs, mkFrame UTC rs) "CL=F" "16h30min" "America/New_York" night_bars
    = mkFrame UTC night_bars
  ∧ (in_time_order night_bars ∧ sort_index night_bars = night_bars)
  ∧ ((7200%Z, mkOHLC 3 5 0 2) ∈ ftse_daily late_bar_first
     ∧ ∃ first final,
         head (bin_rows ftse_session 7200 (sort_index late_bar_first)) = Some first
         ∧ last (bin_rows ftse_session 7200 (sort_index late_bar_first)) = Some final
         ∧ (Open first = 3)%Q ∧ (Close final = 2)%Q)
  ∧ ftse_session 79200%Z = 7200%Z
  ∧ floor_day (ftse_session 79200%Z) = floor_day 79200%Z
  ∧ floor_day (79200 + 2 * HOUR)%Z = (floor_day 79200 + DAY)%Z.
Proof.
  pose proof (ftse_shifted_sessions (λ _ _ rs, mkFrame UTC rs) "^FTSE" "0h" "UTC" night_bars)
    as (Hftse & _ & _ & _ & (_ & _ & _ & Hfix) & _ & _ & Hbar & Hmid & _).
  pose proof (ftse_shifted_sessions (λ _ _ rs, mkFrame UTC rs)
                "CL=F" "16h30min" "America/New_York" night_bars)
    as (_ & Hother & _).
  pose proof (ftse_shifted_sessions (λ _ _ rs, mkFrame UTC rs) "^FTSE" "0h" "UTC"
                late_bar_first)
    as (_ & _ & _ & _ & _ & _ & Hagg & _).
  assert ((79200%Z, mkOHLC 10 12 9 11) ∈ night_bars) as Hin by (apply list_elem_of_here).
  assert (79200 mod DAY = DAY - 2 * HOUR)%Z as Hmod by reflexivity.
  assert ("CL=F" ≠ "^FTSE") as Hne by discriminate.
  assert (in_time_order night_bars) as Hord.
  { unfold in_time_order, night_bars.
    repeat (constructor; [|repeat (constructor; [cbn; lia|]); constructor]). constructor. }
  assert ((7200%Z, mkOHLC 3 5 0 2) ∈ ftse_daily late_bar_first) as Hlate
    by (vm_compute; apply list_elem_of_here).
  destruct (Hbar _ _ Hin) as (c & _ & _ & _ & _ & _).
  destruct (Hmid _ Hmod) as [H1 H2].
  destruct (Hagg _ _ Hlate) as (first & final & Hf & Hl & HO & HC & _ & _).
  split_and!; [done | done | done | done | | by rewrite (Hother Hne) | done | by apply Hfix
              | done | | reflexivity | done | done].
  - rewrite (Hftse eq_refl). reflexivity.
  - exists first, final. by split_and!.
Defined.

(** C6, refuted as stated: the bar at 22:00 UTC on 1 January 1970, exactly 2
    hours before midnight, belongs to the session labelled 02:00 of the same
    day, while its timestamp plus 2 hours floors to 2 January. *)
Lemma boundary_bar_next_day_fails :
  ftse_daily [(79200%Z, mkOHLC 10 12 9 11)] = [(7200%Z, mkOHLC 10 12 9 11)]
  ∧ floor_day 7200%Z = 0%Z
  ∧ floor_day (79200 + 2 * HOUR)%Z = 86400%Z
  ∧ ¬ boundary_bar_next_day.
Proof.
  split_and!; [reflexivity..|].
  intros H. specialize (H 79200%Z (mkOHLC 10 12 9 11) 7200%Z (mkOHLC 10 12 9 11)).
  assert (floor_day 7200%Z = floor_day (79200 + 2 * HOUR)%Z) as Hf.
  { apply H; [reflexivity | apply list_elem_of_here]. }
  vm_compute in Hf. discriminate.
Qed.

(** ** Inside week *)

Lemma is_inside_week_cases (data : DataFrame) :
  (length (get_weekly_data data) < 2 → is_inside_week data = Ok false)
  ∧ (2 ≤ length (get_weekly_data data) →
     ∃ w1 w2 inside,
       get_weekly_data data !! (length (get_weekly_data data) - 1) = Some w1
       ∧ get_weekly_data data !! (length (get_weekly_data data) - 2) = Some w2
       ∧ is_inside_week data = Ok inside
       ∧ (inside = true ↔ (High w1.2 <= High w2.2)%Q ∧ (Low w2.2 <= Low w1.2)%Q)).
Proof.
  split.
  - intros Hlen. unfold is_inside_week.
    by replace (length (get_weekly_data data) <? 2) with true
      by (symmetry; apply Nat.ltb_lt; lia).
  - intros Hlen. unfold is_inside_week.
    replace (length (get_weekly_data data) <? 2) with false
      by (symmetry; apply Nat.ltb_ge; lia).
    set (weekly := get_weekly_data data) in *.
    destruct (iloc_neg_ok (column High weekly) 1) as (h1 & Hh1 & Ih1);
      [rewrite length_column; lia|].
    destruct (iloc_neg_ok (column High weekly) 2) as (h2 & Hh2 & Ih2);
      [rewrite length_column; lia|].
    destruct (iloc_neg_ok (column Low weekly) 1) as (l1 & Hl1 & Il1);
      [rewrite length_column; lia|].
    destruct (iloc_neg_ok (column Low weekly) 2) as (l2 & Hl2 & Il2);
      [rewrite length_column; lia|].
    rewrite length_column, lookup_column in Hh1, Hh2, Hl1, Hl2.
    destruct (weekly !! (length weekly - 1)) as [w1|] eqn:Hw1; [|done].
    destruct (weekly !! (length weekly - 2)) as [w2|] eqn:Hw2; [|done].
    injection Hh1 as <-. injection Hh2 as <-. injection Hl1 as <-. injection Hl2 as <-.
    exists w1, w2, (Qle_bool (High w1.2) (High w2.2) && Qle_bool (Low w2.2) (Low w1.2)).
    split_and!; [done..| |].
    + change (-1)%Z with (- Z.of_nat 1)%Z. change (-2)%Z with (- Z.of_nat 2)%Z.
      rewrite Ih1, Ih2. cbn.
      destruct (Qle_bool (High w1.2) (High w2.2)); [|done].
      by rewrite Il1, Il2.
    + by rewrite andb_true_iff, !Qle_bool_iff.
Qed.

Lemma resample_labels key rs b : b ∈ resample key rs → ∃ r, r ∈ rs ∧ key r.1 = b.1.
Proof.
  destruct b as [k c]. intros Hb%resample_spec.
  destruct (bin_rows key k (sort_index rs)) as [|x xs] eqn:E; [done|].
  assert (x ∈ bin_rows key k (sort_index rs)) as Hx by (rewrite E; set_solver).
  apply bin_rows_sorted_elem in Hx. unfold bin_rows in Hx.
  apply list_elem_of_fmap in Hx as (r & _ & [Hk Hr]%list_elem_of_filter). by exists r.
Qed.

Lemma resample_bin_of key rs r :
  r ∈ rs → ∃ c, (key r.1, c) ∈ resample key rs
              ∧ (Low c <= Low r.2)%Q ∧ (High r.2 <= High c)%Q.
Proof.
  intros Hr. destruct r as [t b].
  pose proof (bin_rows_member key rs t b Hr) as Hb%bin_rows_elem_sorted.
  destruct (aggregate_is_Some _ _ Hb) as [c Hc].
  exists c. split; [by apply resample_spec|]. by eapply aggregate_bounds.
Qed.

Lemma resample_candle_from key rs k c :
  (k, c) ∈ resample key rs →
  (∃ r, r ∈ rs ∧ key r.1 = k ∧ High r.2 = High c)
  ∧ (∃ r, r ∈ rs ∧ key r.1 = k ∧ Low r.2 = Low c).
Proof.
  intros (first & final & _ & _ & _ & _ & [Hmax _] & [Hmin _])%resample_spec%aggregate_spec.
  apply fmap_bin_rows_sorted_elem in Hmax, Hmin.
  unfold bin_rows in Hmax, Hmin. split.
  - apply list_elem_of_fmap in Hmax as (x & -> & Hx).
    apply list_elem_of_fmap in Hx as (r & -> & [Hk Hr]%list_elem_of_filter). by exists r.
  - apply list_elem_of_fmap in Hmin as (x & -> & Hx).
    apply list_elem_of_fmap in Hx as (r & -> & [Hk Hr]%list_elem_of_filter). by exists r.
Qed.

(** The last two candles of an ascending index: the last one is later than
    the one before it, and every other candle is no later than that one. *)
Lemma ascending_last_two (bins : list Row) w1 w2 :
  ascending bins → 2 ≤ length bins →
  bins !! (length bins - 1) = Some w1 → bins !! (length bins - 2) = Some w2 →
  (w2.1 < w1.1)%Z ∧ ∀ e, e ∈ bins → e.1 = w1.1 ∨ (e.1 <= w2.1)%Z.
Proof.
  intros Hasc Hlen H1 H2.
  assert (bins = take (length bins - 2) bins ++ [w2; w1]) as E.
  { rewrite <- (take_drop_middle _ _ _ H2) at 1. do 2 f_equal.
    replace (S (length bins - 2)) with (length bins - 1) by lia.
    rewrite (drop_S _ _ _ H1).
    replace (S (length bins - 1)) with (length bins) by lia. by rewrite drop_all. }
  rewrite E in Hasc. unfold ascending in Hasc.
  apply StronglySorted_app in Hasc as (Hlt & _ & Hs).
  apply StronglySorted_inv in Hs as [_ Hw]. apply Forall_cons in Hw as [Hw _].
  split; [done|]. intros e He. rewrite E in He.
  apply elem_of_app in He as [He|He].
  - right. apply Z.lt_le_incl. apply (Hlt e w2); [done | set_solver].
  - apply elem_of_cons in He as [->|He]; [right; lia|].
    apply list_elem_of_singleton in He as ->. by left.
Qed.

(** C5 (as amended).  [is_inside_week] returns false when the weekly series
    derived from the daily series has fewer than 2 candles.  Otherwise it
    returns, and is true exactly when the High of the last weekly candle is at
    most the High of the weekly candle before it and its Low is at least that
    candle's Low.  The last weekly candle is the candle of the latest week
    that has daily candles, which is the week of the latest session, still
    forming until its last session is in; the candle before it is the candle
    of the latest earlier week that has daily candles.  Each of the two has
    the largest High and the smallest Low of the daily candles of its week.
    The weekly candles are the aggregates of the daily candles of each
    calendar week, in ascending order. *)
Theorem is_inside_week_spec (data : DataFrame) :
  (length (get_weekly_data data) < 2 → is_inside_week data = Ok false)
  ∧ (2 ≤ length (get_weekly_data data) →
     ∃ w1 w2 inside,
       get_weekly_data data !! (length (get_weekly_data data) - 1) = Some w1
       ∧ get_weekly_data data !! (length (get_weekly_data data) - 2) = Some w2
       ∧ is_inside_week data = Ok inside
       ∧ (inside = true ↔ (High w1.2 <= High w2.2)%Q ∧ (Low w2.2 <= Low w1.2)%Q)
       ∧ (w2.1 < w1.1)%Z
       ∧ (∀ r, r ∈ rows data →
            week_bin (utcoffset data) r.1 = w1.1
            ∨ (week_bin (utcoffset data) r.1 <= w2.1)%Z)
       ∧ is_maximum (High w1.2) (High <$> bin_rows (week_bin (utcoffset data)) w1.1 (rows data))
       ∧ is_minimum (Low w1.2) (Low <$> bin_rows (week_bin (utcoffset data)) w1.1 (rows data))
       ∧ is_maximum (High w2.2) (High <$> bin_rows (week_bin (utcoffset data)) w2.1 (rows data))
       ∧ is_minimum (Low w2.2) (Low <$> bin_rows (week_bin (utcoffset data)) w2.1 (rows data)))
  ∧ ascending (get_weekly_data data)
  ∧ (∀ k c, (k, c) ∈ get_weekly_data data ↔
       aggregate (bin_rows (week_bin (utcoffset data)) k (sort_index (rows data))) = Some c).
Proof.
  destruct (is_inside_week_cases data) as [Hshort Hlong].
  destruct (resample_spec (week_bin (utcoffset data)) (rows data)) as [Hasc Helem].
  fold (get_weekly_data data) in Hasc, Helem.
  split_and!; [done | | done | done].
  intros Hlen. destruct (Hlong Hlen) as (w1 & w2 & inside & Hw1 & Hw2 & Hi & Hiff).
  destruct (ascending_last_two _ w1 w2 Hasc Hlen Hw1 Hw2) as [Hlt Hall].
  assert (∀ w, w ∈ get_weekly_data data →
            is_maximum (High w.2) (High <$> bin_rows (week_bin (utcoffset data)) w.1 (rows data))
            ∧ is_minimum (Low w.2) (Low <$> bin_rows (week_bin (utcoffset data)) w.1 (rows data)))
    as Hext.
  { intros [k c] (first & final & _ & _ & _ & _ & Hmax & Hmin)%Helem%aggregate_spec.
    cbn [fst snd]. split.
    - eapply is_maximum_ext; [|exact Hmax]. intros x. apply fmap_bin_rows_sort_index.
    - eapply is_minimum_ext; [|exact Hmin]. intros x. apply fmap_bin_rows_sort_index. }
  destruct (Hext w1) as [Hmax1 Hmin1]; [by eapply list_elem_of_lookup_2|].
  destruct (Hext w2) as [Hmax2 Hmin2]; [by eapply list_elem_of_lookup_2|].
  exists w1, w2, inside. split_and!; [done..| |done|done|done|done].
  intros r Hr.
  destruct (resample_bin_of (week_bin (utcoffset data)) (rows data) r Hr) as (c & Hc & _).
  apply (Hall (week_bin (utcoffset data) r.1, c) Hc).
Qed.

Lemma is_inside_week_spec_witness :
  (length (get_weekly_data two_candles) < 2 ∧ is_inside_week two_candles = Ok false)
  ∧ (2 ≤ length (get_weekly_data two_weeks)
     ∧ get_weekly_data two_weeks = [(1%Z, mkOHLC 10 15 7 10); (2%Z, mkOHLC 10 14 9 13)]
     ∧ is_inside_week two_weeks = Ok true)
  ∧ (2 ≤ length (get_weekly_data three_weeks)
     ∧ get_weekly_data three_weeks
       = [(1%Z, mkOHLC 10 20 5 11); (2%Z, mkOHLC 11 15 7 13); (3%Z, mkOHLC 13 30 1 20)]
     ∧ is_inside_week three_weeks = Ok false).
Proof.
  destruct (is_inside_week_spec two_candles) as (Hshort & _).
  destruct (is_inside_week_spec two_weeks) as (_ & Hlong & _).
  destruct (is_inside_week_spec three_weeks) as (_ & Hlong3 & _).
  assert (length (get_weekly_data two_candles) < 2) as H1 by (vm_compute; lia).
  assert (2 ≤ length (get_weekly_data two_weeks)) as H2 by (vm_compute; lia).
  assert (2 ≤ length (get_weekly_data three_weeks)) as H3 by (vm_compute; lia).
  split; [by split; [|apply Hshort]|].
  destruct (Hlong H2) as (w1 & w2 & inside & Hw1 & Hw2 & Hi & Hiff & _).
  destruct (Hlong3 H3) as (v1 & v2 & inside3 & Hv1 & Hv2 & Hi3 & Hiff3 & _).
  split; (split_and!; [done | reflexivity |]).
  - rewrite Hi. f_equal. apply Hiff.
    vm_compute in Hw1, Hw2. injection Hw1 as <-. injection Hw2 as <-.
    split; vm_compute; discriminate.
  - rewrite Hi3. f_equal. destruct inside3; [|done].
    vm_compute in Hv1, Hv2. injection Hv1 as <-. injection Hv2 as <-.
    destruct (proj1 Hiff3 eq_refl) as [Hh _]. vm_compute in Hh. by destruct Hh.
Defined.

(** C5, refuted as stated: in three weeks of candles that end on the Monday
    of the third week, the most recent completed week, the second, lies
    inside the week before it, and [is_inside_week] is false, because the
    Monday of the third week breaks out of the second week. *)
Lemma inside_completed_week_fails :
  get_weekly_data three_weeks
  = [(1%Z, mkOHLC 10 20 5 11); (2%Z, mkOHLC 11 15 7 13); (3%Z, mkOHLC 13 30 1 20)]
  ∧ is_inside_week three_weeks = Ok false
  ∧ ¬ inside_completed_week three_weeks.
Proof.
  split_and!; [reflexivity..|].
  intros H.
  destruct (H (2%Z, mkOHLC 11 15 7 13) (1%Z, mkOHLC 10 20 5 11)) as (inside & Hi & Hiff);
    [vm_compute; lia | reflexivity | reflexivity |].
  assert (is_inside_week three_weeks = Ok false) as Hf by reflexivity.
  rewrite Hf in Hi. injection Hi as <-.
  assert (false = true) as Habs; [|done].
  apply Hiff. split; vm_compute; discriminate.
Qed.

(** ** The derived signal *)

Lemma of_window_max_total n (s : list Q) :
  2 ≤ n → 2 ≤ length s → ∃ b, of_window series_max n s = Ok b.
Proof.
  intros Hn Hs. destruct (of_window_max n s) as (v & m & _ & _ & _ & Hw & _); eauto.
Qed.

Lemma of_window_min_total n (s : list Q) :
  2 ≤ n → 2 ≤ length s → ∃ b, of_window series_min n s = Ok b.
Proof.
  intros Hn Hs. destruct (of_window_min n s) as (v & m & _ & _ & _ & Hw & _); eauto.
Qed.

Lemma is_inside_week_total data : ∃ b, is_inside_week data = Ok b.
Proof.
  destruct (is_inside_week_cases data) as (Hshort & Hlong).
  destruct (decide (length (get_weekly_data data) < 2)) as [H|H].
  - exists false. by apply Hshort.
  - destruct Hlong as (_ & _ & inside & _ & _ & Hi & _); [lia|]. by exists inside.
Qed.

Lemma resample_nil key : resample key [] = [].
Proof. done. Qed.

Lemma in_previous_week_range_total data : ∃ b, in_previous_week_range data = Ok b.
Proof.
  unfold in_previous_week_range.
  destruct (length (get_weekly_data data) <? 2) eqn:Hlen; [by eexists|].
  apply Nat.ltb_ge in Hlen.
  set (weekly := get_weekly_data data) in *.
  destruct (iloc_neg_ok (column High weekly) 2) as (h2 & _ & Ih2);
    [rewrite length_column; lia|].
  destruct (iloc_neg_ok (column Low weekly) 2) as (l2 & _ & Il2);
    [rewrite length_column; lia|].
  assert (0 < length (rows data)) as Hrows.
  { destruct (rows data) as [|r rs] eqn:E; [|cbn; lia].
    subst weekly. unfold get_weekly_data in Hlen. rewrite E in Hlen. cbn in Hlen. lia. }
  destruct (iloc_neg_ok (fst <$> rows data) 1) as (t & _ & It);
    [rewrite length_fmap; lia|].
  change (-1)%Z with (- Z.of_nat 1)%Z. change (-2)%Z with (- Z.of_nat 2)%Z.
  rewrite Ih2, Il2, It. cbn.
  case_bool_decide; by eexists.
Qed.

Lemma is_inside_day_total data : 3 ≤ len data → ∃ b, is_inside_day data = Ok b.
Proof.
  intros Hlen.
  destruct (is_inside_day_long data Hlen) as (_ & _ & inside & _ & _ & Hi & _).
  by exists inside.
Qed.

Lemma red_green_exclusive c o : ¬ (Qlt_bool c o = true ∧ Qlt_bool o c = true).
Proof.
  rewrite !Qlt_bool_iff. intros [H1 H2].
  apply (Qlt_irrefl c). by eapply Qlt_trans.
Qed.

Lemma signal_of_flags_spec hom lom frd fgd :
  ¬ (frd = true ∧ fgd = true) →
  (signal_of_flags hom lom frd fgd = SHORT ↔ hom = true ∧ frd = true)
  ∧ (signal_of_flags hom lom frd fgd = LONG ↔ lom = true ∧ fgd = true)
  ∧ (signal_of_flags hom lom frd fgd = NO_SIGNAL ↔
       ¬ (hom = true ∧ frd = true) ∧ ¬ (lom = true ∧ fgd = true))
  ∧ ¬ ((hom = true ∧ frd = true) ∧ (lom = true ∧ fgd = true)).
Proof.
  intros Hex.
  destruct hom, lom, frd, fgd; try (exfalso; by apply Hex);
    vm_compute; split_and!; (split || idtac); intros; try discriminate;
    intuition discriminate.
Qed.

(** C7 (as amended).  For every daily series of 3 candles or more that
    [get_data] returns, [analyze_symbol] returns its row, and the Signal of
    the row is SHORT exactly when high-of-month and first-red-day both hold,
    LONG exactly when low-of-month and first-green-day both hold, and no
    signal otherwise; the two conditions never hold together, a session being
    never both red and green, so the signal is determined by the flags. *)
Theorem signal_spec
    (yf_download : string → string → string → result (option RawFrame))
    (select_ohlc : list string → RawFrame → result (list Row))
    (offset_resample : string → string → list Row → DataFrame)
    (symbol offset tz : string) (data : DataFrame) :
  get_data yf_download select_ohlc offset_resample symbol "3mo" offset tz = Ok data →
  3 ≤ len data →
  ∃ hom lom frd fgd row signal,
    is_high_of_month data = Ok hom
    ∧ is_low_of_month data = Ok lom
    ∧ is_red_day data = Ok frd
    ∧ is_green_day data = Ok fgd
    ∧ compute_signal data = Ok (hom, lom, frd, fgd, signal)
    ∧ analyze_symbol yf_download select_ohlc offset_resample symbol offset tz = Ok row
    ∧ row !! "Signal" = Some signal
    ∧ (signal = SHORT ↔ hom = true ∧ frd = true)
    ∧ (signal = LONG ↔ lom = true ∧ fgd = true)
    ∧ (signal = NO_SIGNAL ↔ ¬ (hom = true ∧ frd = true) ∧ ¬ (lom = true ∧ fgd = true))
    ∧ ¬ ((hom = true ∧ frd = true) ∧ (lom = true ∧ fgd = true)).
Proof.
  intros Hget Hlen3.
  assert (2 ≤ len data) as Hlen by lia.
  destruct (of_window_max_total 22 (column High (rows data))) as [hom Hhom];
    [lia | by rewrite length_column |].
  destruct (of_window_min_total 22 (column Low (rows data))) as [lom Hlom];
    [lia | by rewrite length_column |].
  destruct (red_green_day_long data Hlen) as (r & _ & Hfrd & Hfgd).
  rewrite <- is_high_of_month_window in Hhom. rewrite <- is_low_of_month_window in Hlom.
  set (frd := Qlt_bool (Close r.2) (Open r.2)) in *.
  set (fgd := Qlt_bool (Open r.2) (Close r.2)) in *.
  assert (compute_signal data = Ok (hom, lom, frd, fgd, signal_of_flags hom lom frd fgd))
    as Hsig.
  { unfold compute_signal. by rewrite Hhom, Hlom, Hfrd, Hfgd. }
  destruct (signal_of_flags_spec hom lom frd fgd) as (HS & HL & HN & HX).
  { apply red_green_exclusive. }
  destruct (is_inside_week_total data) as [iw Hiw].
  destruct (in_previous_week_range_total data) as [pw Hpw].
  destruct (of_window_max_total 5 (column High (rows data))) as [how Hhow];
    [lia | by rewrite length_column |].
  destruct (of_window_min_total 5 (column Low (rows data))) as [low Hlow];
    [lia | by rewrite length_column |].
  rewrite <- is_high_of_week_window in Hhow. rewrite <- is_low_of_week_window in Hlow.
  destruct (is_inside_day_total data Hlen3) as [idy Hidy].
  exists hom, lom, frd, fgd. eexists. exists (signal_of_flags hom lom frd fgd).
  split_and!; [done | done | done | done | done | | | done | done | done | done].
  - unfold analyze_symbol. rewrite Hget. cbn [mbind result_bind].
    unfold analyze_frame. rewrite Hsig. cbn [mbind result_bind].
    rewrite Hiw, Hpw, Hhow, Hlow, Hidy. cbn [mbind result_bind]. reflexivity.
  - rewrite lookup_insert_ne by done. by rewrite lookup_insert_eq.
Qed.

Lemma signal_spec_witness :
  (3 ≤ len short3
   ∧ ∃ row, analyze_symbol download_ok (select_frame short3) resample_id
              "CL=F" "16h30min" "America/New_York" = Ok row
          ∧ row !! "Signal" = Some SHORT)
  ∧ (3 ≤ len long3
     ∧ ∃ row, analyze_symbol download_ok (select_frame long3) resample_id
                "CL=F" "16h30min" "America/New_York" = Ok row
            ∧ row !! "Signal" = Some LONG)
  ∧ (3 ≤ len inside3
     ∧ ∃ row, analyze_symbol download_ok (select_frame inside3) resample_id
                "CL=F" "16h30min" "America/New_York" = Ok row
            ∧ row !! "Signal" = Some NO_SIGNAL).
Proof.
  assert (3 ≤ len short3) as Hs by (vm_compute; lia).
  assert (3 ≤ len long3) as Hl by (vm_compute; lia).
  assert (3 ≤ len inside3) as Hn by (vm_compute; lia).
  destruct (signal_spec download_ok (select_frame short3) resample_id
              "CL=F" "16h30min" "America/New_York" short3 eq_refl Hs)
    as (hs & ls & rs & gs & rows & sigs & _ & _ & _ & _ & Hcs & Hrs & Hss & _).
  destruct (signal_spec download_ok (select_frame long3) resample_id
              "CL=F" "16h30min" "America/New_York" long3 eq_refl Hl)
    as (hl & ll & rl & gl & rowl & sigl & _ & _ & _ & _ & Hcl & Hrl & Hsl & _).
  destruct (signal_spec download_ok (select_frame inside3) resample_id
              "CL=F" "16h30min" "America/New_York" inside3 eq_refl Hn)
    as (hn & ln & rn & gn & rown & sign & _ & _ & _ & _ & Hcn & Hrn & Hsn & _).
  assert (compute_signal short3 = Ok (true, false, true, false, SHORT)) as Es by reflexivity.
  assert (compute_signal long3 = Ok (false, true, false, true, LONG)) as El by reflexivity.
  assert (compute_signal inside3 = Ok (false, false, false, false, NO_SIGNAL)) as En
    by reflexivity.
  rewrite Es in Hcs. rewrite El in Hcl. rewrite En in Hcn.
  injection Hcs as _ _ _ _ <-. injection Hcl as _ _ _ _ <-. injection Hcn as _ _ _ _ <-.
  split_and!; [done | by exists rows | done | by exists rowl | done | by exists rown].
Defined.

(** C7, refuted as stated: on the series of two candles the flags give a
    SHORT, and [analyze_symbol] returns no row: it raises [IndexError] in
    [is_inside_day], which needs three candles. *)
Lemma signal_from_two_candles_fails :
  len two_candles = 2
  ∧ compute_signal two_candles = Ok (true, true, true, false, SHORT)
  ∧ analyze_symbol download_ok (select_frame two_candles) resample_id
      "CL=F" "16h30min" "America/New_York" = Raise IndexError
  ∧ ¬ signal_from_two_candles download_ok (select_frame two_candles) resample_id
        "CL=F" "16h30min" "America/New_York" two_candles.
Proof.
  split_and!; [reflexivity..|].
  intros H. destruct H as (row & signal & Hrow & _); [reflexivity | vm_compute; lia |].
  assert (analyze_symbol download_ok (select_frame two_candles) resample_id
            "CL=F" "16h30min" "America/New_York" = Raise IndexError) as Hraise by reflexivity.
  rewrite Hraise in Hrow. discriminate.
Qed.

(** ** Column repair *)

Lemma fired_rules_flat flat :
  fired_rules (Index flat)
  = match chain_rule flat with Some r => [r] | None => [] end.
Proof. done. Qed.

Lemma chain_rule_not_collapse flat : chain_rule flat ≠ Some Collapse.
Proof.
  unfold chain_rule.
  destruct (identical_labels flat), (separator_labels flat), (missing_required flat); done.
Qed.

(** C8 (as amended).  The collapse of two-level columns is a step of its own:
    it is applied to every two-level input, and the later rules are then
    tried on the collapsed labels as on a flat input.  Among those later
    rules the first that matches wins, so at most one of them fires, after
    the collapse when there was one; the renaming of the adjusted close
    comes last in every case. *)
Theorem column_repair_rules (labels : list (string * string)) (flat : list string) :
  fix_columns (MultiIndex labels) = fix_columns (Index (snd <$> labels))
  ∧ fired_rules (MultiIndex labels) = Collapse :: fired_rules (Index (snd <$> labels))
  ∧ length (fired_rules (Index flat)) ≤ 1
  ∧ (Collapse ∉ fired_rules (Index flat))
  ∧ (identical_labels flat = true → fired_rules (Index flat) = [Positional5])
  ∧ (identical_labels flat = false → separator_labels flat = true →
       fired_rules (Index flat) = [StripPrefix])
  ∧ (identical_labels flat = false → separator_labels flat = false →
       missing_required flat = true → fired_rules (Index flat) = [PositionalFirst])
  ∧ (identical_labels flat = false → separator_labels flat = false →
       missing_required flat = false →
       fired_rules (Index flat) = [] ∧ fix_columns (Index flat) = Ok (rename_adj_close flat))
  ∧ (∀ cols out, fix_columns cols = Ok out →
       ∃ mid, apply_rule (chain_rule (collapse cols)) (collapse cols) = Ok mid
            ∧ out = rename_adj_close mid).
Proof.
  split_and!.
  - done.
  - done.
  - rewrite fired_rules_flat. destruct (chain_rule flat); cbn; lia.
  - rewrite fired_rules_flat. pose proof (chain_rule_not_collapse flat) as H.
    destruct (chain_rule flat) as [r|]; [|apply not_elem_of_nil].
    intros <-%list_elem_of_singleton. done.
  - intros H. rewrite fired_rules_flat. unfold chain_rule. by rewrite H.
  - intros H1 H2. rewrite fired_rules_flat. unfold chain_rule. by rewrite H1, H2.
  - intros H1 H2 H3. rewrite fired_rules_flat. unfold chain_rule. by rewrite H1, H2, H3.
  - intros H1 H2 H3. rewrite fired_rules_flat.
    unfold fix_columns, chain_rule. cbn [collapse]. by rewrite H1, H2, H3.
  - intros cols out. unfold fix_columns.
    destruct (apply_rule _ _) as [mid|e]; cbn; [|done].
    intros [= <-]. by exists mid.
Qed.

Lemma column_repair_rules_witness :
  fix_columns ticker_columns = Ok CANONICAL
  ∧ fired_rules ticker_columns = [Collapse; Positional5]
  ∧ fix_columns (Index ["Price"; "Price"; "Price"; "Price"; "Price"]) = Ok CANONICAL
  ∧ fired_rules (Index ["cl_open"; "cl_high"; "cl_low"; "cl_adj close"]) = [StripPrefix]
  ∧ fix_columns (Index ["cl_open"; "cl_high"; "cl_low"; "cl_adj close"]) = Ok REQUIRED
  ∧ fired_rules (Index ["a"; "b"; "c"]) = [PositionalFirst]
  ∧ fix_columns (Index ["Open"; "High"; "Low"; "AdjClose"])
    = Ok (rename_adj_close ["Open"; "High"; "Low"; "Close"]).
Proof.
  destruct (column_repair_rules
              [("Close", "CL=F"); ("High", "CL=F"); ("Low", "CL=F");
               ("Open", "CL=F"); ("Volume", "CL=F")]
              ["Price"; "Price"; "Price"; "Price"; "Price"])
    as (Hfix & Hfired & _ & _ & H5 & _).
  destruct (column_repair_rules [] ["cl_open"; "cl_high"; "cl_low"; "cl_adj close"])
    as (_ & _ & _ & _ & _ & Hstrip & _).
  destruct (column_repair_rules [] ["a"; "b"; "c"])
    as (_ & _ & _ & _ & _ & _ & Hfirst & _).
  destruct (column_repair_rules [] ["Open"; "High"; "Low"; "Close"])
    as (_ & _ & _ & _ & _ & _ & _ & Hnone & _).
  split_and!.
  - unfold ticker_columns. rewrite Hfix. reflexivity.
  - unfold ticker_columns. rewrite Hfired. reflexivity.
  - reflexivity.
  - apply Hstrip; reflexivity.
  - reflexivity.
  - apply Hfirst; reflexivity.
  - reflexivity.
Defined.

(** C8, refuted as stated: on the two-level columns of a download, five
    fields of one ticker, the collapse leaves five identical labels and the
    positional renaming fires as well. *)
Lemma only_collapse_fires_fails :
  fired_rules ticker_columns = [Collapse; Positional5]
  ∧ fix_columns ticker_columns = Ok ["Open"; "High"; "Low"; "Close"; "Volume"]
  ∧ collapse ticker_columns = ["CL=F"; "CL=F"; "CL=F"; "CL=F"; "CL=F"]
  ∧ ¬ only_collapse_fires.
Proof.
  split_and!; [reflexivity..|].
  intros H. specialize (H [ ("Close", "CL=F"); ("High", "CL=F"); ("Low", "CL=F");
                             ("Open", "CL=F"); ("Volume", "CL=F") ]).
  vm_compute in H. discriminate.
Qed.

(** ** The batch loop *)

Section Batch.
Variable yf_download : string → string → string → result (option RawFrame).
Variable select_ohlc : list string → RawFrame → result (list Row).
Variable offset_resample : string → string → list Row → DataFrame.

#[local] Abbreviation pre_flight := (preflight yf_download).
#[local] Abbreviation analyze := (analyze_symbol yf_download select_ohlc offset_resample).
#[local] Abbreviation process_one := (process_symbol yf_download select_ohlc offset_resample).
#[local] Abbreviation process_all := (process_group yf_download select_ohlc offset_resample).
#[local] Abbreviation row_for := (result_row yf_download select_ohlc offset_resample).

Lemma process_symbol_row group_name results sym name :
  process_one group_name results (sym, name)
  = Ok (results ++ [row_for group_name sym name]).
Proof.
  unfold process_symbol, result_row.
  destruct (session_config group_name sym) as [tz offset]. cbn [fst snd].
  destruct pre_flight as [[]|e]; [|done].
  by destruct analyze as [res|e].
Qed.

Lemma process_group_from group_name results symbols :
  foldl (λ acc entry, rs ← acc; process_one group_name rs entry) (Ok results) symbols
  = Ok (results ++ ((λ e, row_for group_name e.1 e.2) <$> symbols)).
Proof.
  revert results. induction symbols as [|[sym name] symbols IH]; intros results.
  - by rewrite app_nil_r.
  - cbn [foldl mbind result_bind]. rewrite process_symbol_row, IH.
    by rewrite <- app_assoc.
Qed.

Lemma process_group_rows group_name symbols :
  process_all group_name symbols
  = Ok ((λ e, row_for group_name e.1 e.2) <$> symbols).
Proof. apply process_group_from. Qed.

Lemma preflight_fails sym :
  (∃ e, pre_flight sym = Raise e) ↔
    (∃ e, yf_download sym "5d" "1d" = Raise e)
    ∨ yf_download sym "5d" "1d" = Ok None
    ∨ (∃ f, yf_download sym "5d" "1d" = Ok (Some f) ∧ raw_empty f = true).
Proof.
  unfold preflight.
  destruct (yf_download sym "5d" "1d") as [[f|]|e]; cbn.
  - destruct (raw_empty f) eqn:E; split.
    + intros _. right. right. by exists f.
    + intros _. by eexists.
    + by intros [e ?].
    + intros [[e ?]|[?|(f' & [= <-] & ?)]]; congruence.
  - split; [by right; left | by eexists].
  - split; [left; by eexists | by eexists].
Qed.
End Batch.

(** *** The three kinds of row *)

Lemma no_data_row_kind name sym :
  no_data_row name sym !! "Symbol" = Some sym
  ∧ no_data_row name sym !! "Asset" = Some name
  ∧ no_data_row name sym !! "Signal" = Some NO_SIGNAL
  ∧ is_no_data_row (no_data_row name sym) = true
  ∧ is_error_row (no_data_row name sym) = false
  ∧ is_full_row (no_data_row name sym) = false.
Proof. vm_compute. done. Qed.

Lemma error_row_kind name sym :
  error_row name sym !! "Symbol" = Some sym
  ∧ error_row name sym !! "Asset" = Some name
  ∧ error_row name sym !! "Signal" = Some "Error"
  ∧ is_error_row (error_row name sym) = true
  ∧ is_no_data_row (error_row name sym) = false
  ∧ is_full_row (error_row name sym) = false.
Proof. vm_compute. done. Qed.

Lemma analyze_frame_row symbol data res :
  analyze_frame symbol data = Ok res →
  res !! "Symbol" = Some symbol
  ∧ is_full_row res = true
  ∧ is_no_data_row res = false
  ∧ is_error_row res = false.
Proof.
  unfold analyze_frame.
  destruct (compute_signal data) as [[[[[hom lom] frd] fgd] signal]|]; [|done].
  cbn [mbind result_bind].
  destruct (is_inside_week data) as [iw|]; [|done]; cbn [mbind result_bind].
  destruct (in_previous_week_range data) as [pw|]; [|done]; cbn [mbind result_bind].
  destruct (is_high_of_week data) as [how|]; [|done]; cbn [mbind result_bind].
  destruct (is_low_of_week data) as [low|]; [|done]; cbn [mbind result_bind].
  destruct (is_inside_day data) as [idy|]; [|done]; cbn [mbind result_bind].
  intros [= <-].
  destruct hom, lom, frd, fgd, iw, pw, how, low, idy; vm_compute; done.
Qed.

(** The kinds look at the flags only, which [res["Asset"] = name] leaves. *)
Lemma kinds_insert_asset name (res : gmap string string) :
  is_full_row (<["Asset" := name]> res) = is_full_row res
  ∧ is_no_data_row (<["Asset" := name]> res) = is_no_data_row res
  ∧ is_error_row (<["Asset" := name]> res) = is_error_row res.
Proof.
  unfold is_full_row, is_no_data_row, is_error_row, all_flags, FLAGS.
  cbn [forallb]. by rewrite !lookup_insert_ne by done.
Qed.

Lemma all_flags_hom v (row : gmap string string) :
  all_flags v row = true → row !! "HOM" = Some v.
Proof.
  unfold all_flags, FLAGS. cbn [forallb]. rewrite !andb_true_iff, !bool_decide_eq_true.
  tauto.
Qed.

Lemma is_full_row_hom (row : gmap string string) :
  is_full_row row = true → row !! "HOM" = Some TICK ∨ row !! "HOM" = Some CROSS.
Proof.
  unfold is_full_row, FLAGS. cbn [forallb].
  rewrite !andb_true_iff, !orb_true_iff, !bool_decide_eq_true. tauto.
Qed.

(** No row is of two kinds: the flag "HOM" tells them apart. *)
Lemma row_kinds_exclusive (row : gmap string string) :
  ¬ (is_full_row row = true ∧ is_no_data_row row = true)
  ∧ ¬ (is_full_row row = true ∧ is_error_row row = true)
  ∧ ¬ (is_no_data_row row = true ∧ is_error_row row = true).
Proof.
  unfold is_no_data_row, is_error_row. split_and!.
  - intros [Hf [Hn _]%andb_true_iff]. apply all_flags_hom in Hn.
    destruct (is_full_row_hom _ Hf) as [H|H]; rewrite H in Hn; discriminate.
  - intros [Hf He]. apply all_flags_hom in He.
    destruct (is_full_row_hom _ Hf) as [H|H]; rewrite H in He; discriminate.
  - intros [[Hn _]%andb_true_iff He]. apply all_flags_hom in Hn, He.
    rewrite Hn in He. discriminate.
Qed.

Section BatchRows.
Variable yf_download : string → string → string → result (option RawFrame).
Variable select_ohlc : list string → RawFrame → result (list Row).
Variable offset_resample : string → string → list Row → DataFrame.

#[local] Abbreviation analyze_cfg group_name sym :=
  (analyze_symbol yf_download select_ohlc offset_resample sym
     (session_config group_name sym).2 (session_config group_name sym).1).
#[local] Abbreviation row_of := (result_row yf_download select_ohlc offset_resample).

Lemma analyze_symbol_row symbol offset tz res :
  analyze_symbol yf_download select_ohlc offset_resample symbol offset tz = Ok res →
  res !! "Symbol" = Some symbol
  ∧ is_full_row res = true ∧ is_no_data_row res = false ∧ is_error_row res = false.
Proof.
  unfold analyze_symbol.
  destruct (get_data _ _ _ _ _ _ _) as [data|e]; [|done]. cbn [mbind result_bind].
  apply analyze_frame_row.
Qed.

(** The row of an instrument, by what happened to it. *)
Lemma result_row_cases group_name sym name :
  row_of group_name sym name !! "Symbol" = Some sym
  ∧ row_of group_name sym name !! "Asset" = Some name
  ∧ (∀ e, preflight yf_download sym = Raise e →
       row_of group_name sym name = no_data_row name sym
       ∧ is_no_data_row (row_of group_name sym name) = true)
  ∧ (preflight yf_download sym = Ok () → ∀ e, analyze_cfg group_name sym = Raise e →
       row_of group_name sym name = error_row name sym
       ∧ is_error_row (row_of group_name sym name) = true)
  ∧ (preflight yf_download sym = Ok () → ∀ res, analyze_cfg group_name sym = Ok res →
       row_of group_name sym name = <["Asset" := name]> res
       ∧ is_full_row (row_of group_name sym name) = true)
  ∧ ((is_full_row (row_of group_name sym name) = true
      ∧ is_no_data_row (row_of group_name sym name) = false
      ∧ is_error_row (row_of group_name sym name) = false)
     ∨ (is_full_row (row_of group_name sym name) = false
        ∧ is_no_data_row (row_of group_name sym name) = true
        ∧ is_error_row (row_of group_name sym name) = false)
     ∨ (is_full_row (row_of group_name sym name) = false
        ∧ is_no_data_row (row_of group_name sym name) = false
        ∧ is_error_row (row_of group_name sym name) = true)).
Proof.
  unfold result_row.
  destruct (no_data_row_kind name sym) as (NS & NA & _ & NN & NE & NF).
  destruct (error_row_kind name sym) as (ES & EA & _ & EE & EN & EF).
  destruct (preflight yf_download sym) as [[]|e0].
  - destruct (analyze_cfg group_name sym) as [res|e1] eqn:Ha.
    + destruct (analyze_symbol_row _ _ _ _ Ha) as (RS & RF & RN & RE).
      destruct (kinds_insert_asset name res) as (KF & KN & KE).
      rewrite KF, KN, KE, RF, RN, RE.
      split_and!.
      * rewrite lookup_insert_ne by discriminate. exact RS.
      * apply lookup_insert_eq.
      * intros e [=].
      * intros _ e [=].
      * intros _ res' [= <-]. split; reflexivity.
      * left. split_and!; reflexivity.
    + rewrite EE, EN, EF. split_and!.
      * exact ES.
      * exact EA.
      * intros e [=].
      * intros _ e _. split; reflexivity.
      * intros _ res [=].
      * right. right. split_and!; reflexivity.
  - rewrite NN, NE, NF. split_and!.
    + exact NS.
    + exact NA.
    + intros e _. split; reflexivity.
    + intros [=].
    + intros [=].
    + right. left. split_and!; reflexivity.
Qed.
End BatchRows.

(** C9.  The loop over a group never raises, and appends exactly one row for
    every instrument, in order.  The row names the instrument and is of
    exactly one kind: every flag "No data" when the pre-flight fetch raised or
    was empty, every flag "Error" when the pre-flight passed and the analysis
    raised, the row of the analysis, every flag a mark, when the analysis
    returned.  The loop over the configured groups returns a table for every
    group. *)
Theorem batch_one_row_each
    (yf_download : string → string → string → result (option RawFrame))
    (select_ohlc : list string → RawFrame → result (list Row))
    (offset_resample : string → string → list Row → DataFrame)
    (group_name : string) (symbols : list (string * string)) :
  (∃ rows,
     process_group yf_download select_ohlc offset_resample group_name symbols = Ok rows
     ∧ length rows = length symbols
     ∧ ∀ i sym name, symbols !! i = Some (sym, name) →
         ∃ row,
           rows !! i = Some row
           ∧ row !! "Symbol" = Some sym
           ∧ row !! "Asset" = Some name
           ∧ (∀ e, preflight yf_download sym = Raise e →
                row = no_data_row name sym ∧ is_no_data_row row = true)
           ∧ (preflight yf_download sym = Ok () →
              ∀ e, analyze_symbol yf_download select_ohlc offset_resample sym
                     (session_config group_name sym).2 (session_config group_name sym).1
                   = Raise e →
                row = error_row name sym ∧ is_error_row row = true)
           ∧ (preflight yf_download sym = Ok () →
              ∀ res, analyze_symbol yf_download select_ohlc offset_resample sym
                       (session_config group_name sym).2 (session_config group_name sym).1
                     = Ok res →
                row = <["Asset" := name]> res ∧ is_full_row row = true)
           ∧ ((is_full_row row = true ∧ is_no_data_row row = false
               ∧ is_error_row row = false)
              ∨ (is_full_row row = false ∧ is_no_data_row row = true
                 ∧ is_error_row row = false)
              ∨ (is_full_row row = false ∧ is_no_data_row row = false
                 ∧ is_error_row row = true)))
  ∧ (∀ sym, (∃ e, preflight yf_download sym = Raise e) ↔
       (∃ e, yf_download sym "5d" "1d" = Raise e)
       ∨ yf_download sym "5d" "1d" = Ok None
       ∨ (∃ f, yf_download sym "5d" "1d" = Ok (Some f) ∧ raw_empty f = true))
  ∧ (∃ tables,
       main_results yf_download select_ohlc offset_resample = Ok tables
       ∧ tables.*1 = groups.*1
       ∧ Forall2 (λ g t,
                    process_group yf_download select_ohlc offset_resample g.1 g.2 = Ok t.2
                    ∧ length t.2 = length g.2)
                 groups tables).
Proof.
  split_and!.
  - eexists. split; [apply process_group_rows|]. split; [by rewrite length_fmap|].
    intros i sym name Hi. eexists. split.
    { rewrite list_lookup_fmap, Hi. reflexivity. }
    cbn [fst snd]. apply result_row_cases.
  - apply preflight_fails.
  - unfold main_results, groups. cbn [foldl fst snd mbind result_bind].
    rewrite !process_group_rows. cbn [mbind result_bind fmap list_fmap].
    rewrite !bool_decide_eq_false_2 by discriminate.
    eexists. split; [reflexivity|]. split; [reflexivity|].
    repeat (constructor; [by rewrite process_group_rows|]). constructor.
Qed.

Lemma batch_one_row_each_witness :
  ∃ full,
    process_group sample_download select_positional resample_id "Commodities" sample_symbols
    = Ok [ no_data_row "WTI Crude Oil" "CL=F"; no_data_row "Gold" "GC=F";
           error_row "Silver" "SI=F"; full ]
    ∧ full !! "Symbol" = Some "HG=F"
    ∧ full !! "Asset" = Some "Copper"
    ∧ full !! "Signal" = Some SHORT
    ∧ is_full_row full = true
    ∧ is_no_data_row full = false
    ∧ is_error_row full = false.
Proof.
  destruct (batch_one_row_each sample_download select_positional resample_id
              "Commodities" sample_symbols)
    as ((rows & Hrows & Hlen & Hrow) & Hpre & _).
  destruct (Hrow 0 "CL=F" "WTI Crude Oil" eq_refl) as (r0 & H0 & _ & _ & N0 & _).
  destruct (Hrow 1 "GC=F" "Gold" eq_refl) as (r1 & H1 & _ & _ & N1 & _).
  destruct (Hrow 2 "SI=F" "Silver" eq_refl) as (r2 & H2 & _ & _ & _ & E2 & _).
  destruct (Hrow 3 "HG=F" "Copper" eq_refl) as (r3 & H3 & S3 & A3 & _ & _ & F3 & K3).
  destruct (N0 (OtherException "timed out") eq_refl) as [-> _].
  destruct (N1 ValueError eq_refl) as [-> _].
  destruct (E2 eq_refl IndexError eq_refl) as [-> _].
  destruct (F3 eq_refl _ eq_refl) as [E3 F3'].
  destruct rows as [|? [|? [|? [|? [|? ?]]]]]; try discriminate Hlen.
  cbn in H0, H1, H2, H3. injection H0 as ->. injection H1 as ->. injection H2 as ->.
  injection H3 as ->.
  exists r3. split; [exact Hrows|]. split; [exact S3|]. split; [exact A3|].
  split; [rewrite E3; reflexivity|]. split; [exact F3'|].
  destruct K3 as [(_ & ? & ?)|[(K & _)|(K & _)]]; [done|congruence..].
Defined.

(** ** Too short a series *)

Lemma of_month_week_short data :
  len data < 2 →
  is_high_of_month data = Raise IndexError
  ∧ is_low_of_month data = Raise IndexError
  ∧ is_high_of_week data = Raise IndexError
  ∧ is_low_of_week data = Raise IndexError.
Proof.
  intros Hlen. unfold len in Hlen.
  rewrite is_high_of_month_window, is_low_of_month_window,
    is_high_of_week_window, is_low_of_week_window.
  split_and!; apply of_window_short; by rewrite length_column.
Qed.

Lemma is_inside_day_short data :
  len data < 3 → is_inside_day data = Raise IndexError.
Proof.
  intros Hlen. unfold len in Hlen. unfold is_inside_day.
  change (-3)%Z with (- Z.of_nat 3)%Z.
  rewrite (iloc_neg_raise (column High (rows data)) 3) by (by rewrite length_column).
  change (-2)%Z with (- Z.of_nat 2)%Z.
  destruct (decide (length (rows data) < 2)) as [H2|H2].
  - by rewrite (iloc_neg_raise (column High (rows data)) 2) by (by rewrite length_column).
  - destruct (iloc_neg_ok (column High (rows data)) 2) as (h & _ & ->);
      [rewrite length_column; lia | done].
Qed.

(** C4 (as amended).  On a series with fewer than 2 candles [is_red_day] and
    [is_green_day] return false.  When the pre-flight passed and a predicate
    raises during the analysis, the loop does not raise: it appends the row
    with every flag "Error", which is not a row of "No data"; a row of
    "No data" comes from a failed pre-flight only. *)
Theorem short_series_outcome
    (yf_download : string → string → string → result (option RawFrame))
    (select_ohlc : list string → RawFrame → result (list Row))
    (offset_resample : string → string → list Row → DataFrame)
    (group_name sym name : string) (results : list (gmap string string))
    (data : DataFrame) :
  (len data < 2 → is_red_day data = Ok false ∧ is_green_day data = Ok false)
  ∧ (preflight yf_download sym = Ok () →
     ∀ e, analyze_symbol yf_download select_ohlc offset_resample sym
            (session_config group_name sym).2 (session_config group_name sym).1 = Raise e →
       process_symbol yf_download select_ohlc offset_resample group_name results (sym, name)
       = Ok (results ++ [error_row name sym])
       ∧ is_error_row (error_row name sym) = true
       ∧ is_no_data_row (error_row name sym) = false)
  ∧ (∃ row,
       process_symbol yf_download select_ohlc offset_resample group_name results (sym, name)
       = Ok (results ++ [row])
       ∧ (is_no_data_row row = true → ∃ e, preflight yf_download sym = Raise e)).
Proof.
  split_and!.
  - apply red_green_day_short.
  - intros Hpre e Ha. rewrite process_symbol_row.
    destruct (result_row_cases yf_download select_ohlc offset_resample group_name sym name)
      as (_ & _ & _ & HE & _).
    destruct (HE Hpre e Ha) as [-> _].
    destruct (error_row_kind name sym) as (_ & _ & _ & ? & ? & _). done.
  - eexists. split; [apply process_symbol_row|].
    destruct (result_row_cases yf_download select_ohlc offset_resample group_name sym name)
      as (_ & _ & _ & HE & HF & _).
    intros Hn. destruct (preflight yf_download sym) as [[]|e0] eqn:Hpre; [|by exists e0].
    exfalso.
    destruct (row_kinds_exclusive
                (result_row yf_download select_ohlc offset_resample group_name sym name))
      as (Xfn & _ & Xne).
    destruct (analyze_symbol yf_download select_ohlc offset_resample sym
                (session_config group_name sym).2 (session_config group_name sym).1)
      as [res|e1] eqn:Ha.
    + destruct (HF eq_refl res eq_refl) as [_ Hf]. apply Xfn. by split.
    + destruct (HE eq_refl e1 eq_refl) as [_ He]. apply Xne. by split.
Qed.

Lemma short_series_outcome_witness :
  (len (daily_utc 0 [mkOHLC 5 6 3 4]) < 2
   ∧ is_red_day (daily_utc 0 [mkOHLC 5 6 3 4]) = Ok false
   ∧ is_green_day (daily_utc 0 [mkOHLC 5 6 3 4]) = Ok false)
  ∧ (preflight sample_download "SI=F" = Ok ()
     ∧ analyze_symbol sample_download select_positional resample_id "SI=F"
         "16h30min" "America/New_York" = Raise IndexError
     ∧ process_symbol sample_download select_positional resample_id "Commodities" []
         ("SI=F", "Silver") = Ok [error_row "Silver" "SI=F"]
     ∧ is_error_row (error_row "Silver" "SI=F") = true
     ∧ is_no_data_row (error_row "Silver" "SI=F") = false).
Proof.
  destruct (short_series_outcome sample_download select_positional resample_id
              "Commodities" "SI=F" "Silver" [] (daily_utc 0 [mkOHLC 5 6 3 4]))
    as (Hshort & Herr & _).
  split.
  - assert (len (daily_utc 0 [mkOHLC 5 6 3 4]) < 2) as H by (vm_compute; lia).
    split; [done|]. by apply Hshort.
  - split; [reflexivity|]. split; [reflexivity|].
    exact (Herr eq_refl IndexError eq_refl).
Defined.

(** C4, refuted as stated: with a passing pre-flight and a daily series of 2
    candles, [is_inside_day] raises an index error, and the row the loop
    appends has every flag "Error", not "No data". *)
Lemma short_series_is_no_data_fails :
  len two_candles = 2
  ∧ is_inside_day two_candles = Raise IndexError
  ∧ process_symbol download_ok (select_frame two_candles) resample_id "Commodities" []
      ("CL=F", "WTI Crude Oil") = Ok [error_row "WTI Crude Oil" "CL=F"]
  ∧ is_no_data_row (error_row "WTI Crude Oil" "CL=F") = false
  ∧ ¬ short_series_is_no_data.
Proof.
  assert (process_symbol download_ok (select_frame two_candles) resample_id "Commodities" []
            ("CL=F", "WTI Crude Oil") = Ok [error_row "WTI Crude Oil" "CL=F"]) as Hloop
    by reflexivity.
  assert (is_no_data_row (error_row "WTI Crude Oil" "CL=F") = false) as Hkind
    by reflexivity.
  split_and!; [reflexivity | reflexivity | exact Hloop | exact Hkind |].
  intros H.
  destruct (H download_ok (select_frame two_candles) resample_id "Commodities"
              "CL=F" "WTI Crude Oil" two_candles)
    as (row & Hrow & Hrowkind); [reflexivity | reflexivity | vm_compute; lia |].
  rewrite Hloop in Hrow. injection Hrow as <-.
  rewrite Hkind in Hrowkind. discriminate.
Qed.

(** * Further properties of the code *)

(** ** When the daily predicates return *)

Lemma of_window_max_returns n (s : list Q) :
  2 ≤ n → (∃ b, of_window series_max n s = Ok b) ↔ 2 ≤ length s.
Proof.
  intros Hn. split.
  - intros [b Hb]. destruct (decide (2 ≤ length s)) as [|Hs]; [done|].
    rewrite of_window_short in Hb by lia. discriminate.
  - by apply of_window_max_total.
Qed.

Lemma of_window_min_returns n (s : list Q) :
  2 ≤ n → (∃ b, of_window series_min n s = Ok b) ↔ 2 ≤ length s.
Proof.
  intros Hn. split.
  - intros [b Hb]. destruct (decide (2 ≤ length s)) as [|Hs]; [done|].
    rewrite of_window_short in Hb by lia. discriminate.
  - by apply of_window_min_total.
Qed.

(** X1.  The of-month and of-week predicates return exactly when the series
    has 2 candles or more, and [is_inside_day] exactly when it has 3 or more;
    below that they raise an index error.  [is_red_day] and [is_green_day]
    return on every series. *)
Theorem daily_predicates_return_iff (data : DataFrame) :
  ((∃ b, is_high_of_month data = Ok b) ↔ 2 ≤ len data)
  ∧ ((∃ b, is_low_of_month data = Ok b) ↔ 2 ≤ len data)
  ∧ ((∃ b, is_high_of_week data = Ok b) ↔ 2 ≤ len data)
  ∧ ((∃ b, is_low_of_week data = Ok b) ↔ 2 ≤ len data)
  ∧ ((∃ b, is_inside_day data = Ok b) ↔ 3 ≤ len data)
  ∧ (len data < 2 →
       is_high_of_month data = Raise IndexError
       ∧ is_low_of_month data = Raise IndexError
       ∧ is_high_of_week data = Raise IndexError
       ∧ is_low_of_week data = Raise IndexError)
  ∧ (len data < 3 → is_inside_day data = Raise IndexError)
  ∧ (∃ b, is_red_day data = Ok b)
  ∧ (∃ b, is_green_day data = Ok b).
Proof.
  rewrite is_high_of_month_window, is_low_of_month_window,
    is_high_of_week_window, is_low_of_week_window.
  unfold len. split_and!.
  - rewrite <- (length_column High (rows data)). apply of_window_max_returns; lia.
  - rewrite <- (length_column Low (rows data)). apply of_window_min_returns; lia.
  - rewrite <- (length_column High (rows data)). apply of_window_max_returns; lia.
  - rewrite <- (length_column Low (rows data)). apply of_window_min_returns; lia.
  - split.
    + intros [b Hb]. destruct (decide (3 ≤ length (rows data))) as [|Hs]; [done|].
      rewrite is_inside_day_short in Hb by (unfold len; lia). discriminate.
    + apply is_inside_day_total.
  - intros Hlen. split_and!; apply of_window_short; by rewrite length_column.
  - apply is_inside_day_short.
  - destruct (decide (length (rows data) < 2)) as [H|H].
    + exists false. by apply red_green_day_short.
    + destruct (red_green_day_long data) as (r & _ & Hr & _); [unfold len; lia|]. eauto.
  - destruct (decide (length (rows data) < 2)) as [H|H].
    + exists false. by apply red_green_day_short.
    + destruct (red_green_day_long data) as (r & _ & _ & Hg); [unfold len; lia|]. eauto.
Qed.

Lemma daily_predicates_return_iff_witness :
  (len two_candles < 3 ∧ is_inside_day two_candles = Raise IndexError)
  ∧ (len (daily_utc 0 [mkOHLC 5 6 3 4]) < 2
     ∧ is_high_of_month (daily_utc 0 [mkOHLC 5 6 3 4]) = Raise IndexError
     ∧ is_low_of_week (daily_utc 0 [mkOHLC 5 6 3 4]) = Raise IndexError)
  ∧ (3 ≤ len inside3 ∧ ∃ b, is_inside_day inside3 = Ok b)
  ∧ (2 ≤ len two_candles ∧ ∃ b, is_high_of_month two_candles = Ok b).
Proof.
  destruct (daily_predicates_return_iff two_candles)
    as (Hm2 & _ & _ & _ & _ & _ & Hd2 & _).
  destruct (daily_predicates_return_iff (daily_utc 0 [mkOHLC 5 6 3 4]))
    as (_ & _ & _ & _ & _ & Hs1 & _).
  destruct (daily_predicates_return_iff inside3) as (_ & _ & _ & _ & Hd3 & _).
  assert (len two_candles < 3) as H2 by (vm_compute; lia).
  assert (len (daily_utc 0 [mkOHLC 5 6 3 4]) < 2) as H1 by (vm_compute; lia).
  assert (3 ≤ len inside3) as H3 by (vm_compute; lia).
  assert (2 ≤ len two_candles) as H2' by (vm_compute; lia).
  destruct (Hs1 H1) as (E1 & _ & _ & E4).
  split_and!; [done | by apply Hd2 | done | done | done | done | by apply Hd3 | done
              | by apply Hm2].
Defined.

(** ** Red, green and flat sessions *)

(** X2.  With 2 candles or more, [is_red_day] and [is_green_day] are never
    both true, and both are false exactly when the last closed session
    closed at its open. *)
Theorem red_green_flat (data : DataFrame) :
  2 ≤ len data →
  ∃ r red green,
    rows data !! (len data - 2) = Some r
    ∧ is_red_day data = Ok red
    ∧ is_green_day data = Ok green
    ∧ ¬ (red = true ∧ green = true)
    ∧ (red = false ∧ green = false ↔ (Close r.2 == Open r.2)%Q).
Proof.
  intros Hlen. destruct (red_green_day_long data Hlen) as (r & Hr & Hred & Hgreen).
  exists r, (Qlt_bool (Close r.2) (Open r.2)), (Qlt_bool (Open r.2) (Close r.2)).
  split_and!; [done..| apply red_green_exclusive |].
  rewrite <- !not_true_iff_false, !Qlt_bool_iff. split.
  - intros [H1 H2]. apply Qle_antisym; by apply Qnot_lt_le.
  - intros E. rewrite E. split; apply Qlt_irrefl.
Qed.

Lemma red_green_flat_witness :
  2 ≤ len inside3
  ∧ is_red_day inside3 = Ok false
  ∧ is_green_day inside3 = Ok false.
Proof.
  assert (2 ≤ len inside3) as Hlen by (vm_compute; lia).
  destruct (red_green_flat inside3 Hlen) as (r & red & green & Hr & Hred & Hgreen & _ & Hflat).
  assert (red = false ∧ green = false) as [-> ->].
  { apply Hflat. vm_compute in Hr. injection Hr as <-. reflexivity. }
  done.
Defined.

(** ** The lookback of the daily predicates *)

Lemma iloc_neg_app {A} (older s : list A) (k : nat) :
  0 < k ≤ length s → iloc (older ++ s) (- Z.of_nat k) = iloc s (- Z.of_nat k).
Proof.
  intros Hk.
  destruct (iloc_neg_ok s k Hk) as (x & Hx & ->).
  destruct (iloc_neg_ok (older ++ s) k) as (y & Hy & ->); [rewrite length_app; lia|].
  rewrite length_app, lookup_app_r in Hy by lia.
  replace (length older + length s - k - length older) with (length s - k) in Hy by lia.
  congruence.
Qed.

Lemma tail_app {A} (older s : list A) (n : nat) :
  n ≤ length s → tail n (older ++ s) = tail n s.
Proof.
  intros Hn. unfold tail. rewrite length_app, drop_app_ge by lia.
  f_equal. lia.
Qed.

Lemma of_window_app extremum n (older s : list Q) :
  2 ≤ n ≤ length s → of_window extremum n (older ++ s) = of_window extremum n s.
Proof.
  intros Hn. unfold of_window. change (-2)%Z with (- Z.of_nat 2)%Z.
  rewrite iloc_neg_app by lia. by rewrite tail_app by lia.
Qed.

Lemma column_app col (older rs : list Row) :
  column col (older ++ rs) = column col older ++ column col rs.
Proof. unfold column. apply fmap_app. Qed.

(** X3.  The daily predicates look back over a bounded number of candles:
    older history put before a series of 22 candles or more changes neither
    [is_high_of_month] nor [is_low_of_month]; 5 candles are enough for the
    of-week predicates, 3 for [is_inside_day] and 2 for [is_red_day] and
    [is_green_day]. *)
Theorem lookback_bounded (older : list Row) (data : DataFrame) :
  (22 ≤ len data →
     is_high_of_month (mkFrame (utcoffset data) (older ++ rows data)) = is_high_of_month data
     ∧ is_low_of_month (mkFrame (utcoffset data) (older ++ rows data)) = is_low_of_month data)
  ∧ (5 ≤ len data →
     is_high_of_week (mkFrame (utcoffset data) (older ++ rows data)) = is_high_of_week data
     ∧ is_low_of_week (mkFrame (utcoffset data) (older ++ rows data)) = is_low_of_week data)
  ∧ (3 ≤ len data →
     is_inside_day (mkFrame (utcoffset data) (older ++ rows data)) = is_inside_day data)
  ∧ (2 ≤ len data →
     is_red_day (mkFrame (utcoffset data) (older ++ rows data)) = is_red_day data
     ∧ is_green_day (mkFrame (utcoffset data) (older ++ rows data)) = is_green_day data).
Proof.
  unfold len.
  rewrite !is_high_of_month_window, !is_low_of_month_window,
    !is_high_of_week_window, !is_low_of_week_window.
  cbn [rows]. rewrite !column_app.
  split_and!.
  - intros Hlen. split; apply of_window_app; rewrite length_column; lia.
  - intros Hlen. split; apply of_window_app; rewrite length_column; lia.
  - intros Hlen. unfold is_inside_day. cbn [rows]. rewrite !column_app.
    change (-2)%Z with (- Z.of_nat 2)%Z. change (-3)%Z with (- Z.of_nat 3)%Z.
    by rewrite !iloc_neg_app by (rewrite length_column; lia).
  - intros Hlen. unfold is_red_day, is_green_day, len. cbn [rows].
    rewrite !column_app, length_app.
    replace (1 <? length older + length (rows data)) with true
      by (symmetry; apply Nat.ltb_lt; lia).
    replace (1 <? length (rows data)) with true by (symmetry; apply Nat.ltb_lt; lia).
    change (-2)%Z with (- Z.of_nat 2)%Z.
    by rewrite !iloc_neg_app by (rewrite length_column; lia).
Qed.

Lemma lookback_bounded_witness :
  22 ≤ len month30
  ∧ is_high_of_month
      (mkFrame UTC ([(-86400, mkOHLC 9 9 9 9)%Z] ++ rows month30)) = Ok true
  ∧ is_inside_day
      (mkFrame UTC ([(-86400, mkOHLC 9 9 9 9)%Z] ++ rows month30)) = is_inside_day month30
  ∧ is_red_day
      (mkFrame UTC ([(-86400, mkOHLC 9 9 9 9)%Z] ++ rows month30)) = is_red_day month30.
Proof.
  assert (22 ≤ len month30) as Hlen by (vm_compute; lia).
  destruct (lookback_bounded [(-86400, mkOHLC 9 9 9 9)%Z] month30)
    as (Hm & _ & Hd & Hr).
  destruct (Hm Hlen) as [Hh _].
  split_and!; [done | | apply Hd; lia | apply Hr; lia].
  change UTC with (utcoffset month30). rewrite Hh. reflexivity.
Defined.

(** ** When the analysis returns *)

Lemma analyze_frame_short symbol data :
  len data < 3 → analyze_frame symbol data = Raise IndexError.
Proof.
  intros Hlen. unfold analyze_frame.
  destruct (decide (len data < 2)) as [H2|H2].
  - unfold compute_signal.
    destruct (of_month_week_short data H2) as (-> & _). done.
  - destruct (of_window_max_total 22 (column High (rows data))) as [hom Hhom];
      [lia | rewrite length_column; unfold len in *; lia |].
    destruct (of_window_min_total 22 (column Low (rows data))) as [lom Hlom];
      [lia | rewrite length_column; unfold len in *; lia |].
    destruct (red_green_day_long data) as (r & _ & Hfrd & Hfgd); [lia|].
    destruct (is_inside_week_total data) as [iw Hiw].
    destruct (in_previous_week_range_total data) as [pw Hpw].
    destruct (of_window_max_total 5 (column High (rows data))) as [how Hhow];
      [lia | rewrite length_column; unfold len in *; lia |].
    destruct (of_window_min_total 5 (column Low (rows data))) as [low Hlow];
      [lia | rewrite length_column; unfold len in *; lia |].
    unfold compute_signal.
    rewrite is_high_of_month_window, is_low_of_month_window, Hhom, Hlom, Hfrd, Hfgd.
    cbn [mbind result_bind].
    rewrite Hiw, Hpw, is_high_of_week_window, is_low_of_week_window, Hhow, Hlow.
    cbn [mbind result_bind].
    by rewrite is_inside_day_short.
Qed.

Lemma analyze_frame_long symbol data :
  3 ≤ len data →
  ∃ row, analyze_frame symbol data = Ok row
       ∧ dom row = list_to_set RESULT_KEYS
       ∧ row !! "Symbol" = Some symbol.
Proof.
  intros Hlen.
  destruct (of_window_max_total 22 (column High (rows data))) as [hom Hhom];
    [lia | rewrite length_column; unfold len in *; lia |].
  destruct (of_window_min_total 22 (column Low (rows data))) as [lom Hlom];
    [lia | rewrite length_column; unfold len in *; lia |].
  destruct (red_green_day_long data) as (r & _ & Hfrd & Hfgd); [lia|].
  destruct (is_inside_week_total data) as [iw Hiw].
  destruct (in_previous_week_range_total data) as [pw Hpw].
  destruct (of_window_max_total 5 (column High (rows data))) as [how Hhow];
    [lia | rewrite length_column; unfold len in *; lia |].
  destruct (of_window_min_total 5 (column Low (rows data))) as [low Hlow];
    [lia | rewrite length_column; unfold len in *; lia |].
  destruct (is_inside_day_total data Hlen) as [idy Hidy].
  unfold analyze_frame, compute_signal.
  rewrite is_high_of_month_window, is_low_of_month_window, Hhom, Hlom, Hfrd, Hfgd.
  cbn [mbind result_bind].
  rewrite Hiw, Hpw, is_high_of_week_window, is_low_of_week_window, Hhow, Hlow, Hidy.
  cbn [mbind result_bind].
  eexists. split; [reflexivity|]. split; [|apply lookup_insert_eq].
  rewrite !dom_insert_L, dom_empty_L. unfold RESULT_KEYS. cbn [list_to_set foldr].
  set_solver.
Qed.

(** X4.  [analyze_symbol] returns a row exactly when [get_data] returns a
    daily series of 3 candles or more; the row then has the eleven keys of
    the result, and names the symbol.  On a shorter series it raises an index
    error, and it passes on the exception of [get_data]. *)
Theorem analyze_symbol_outcome
    (yf_download : string → string → string → result (option RawFrame))
    (select_ohlc : list string → RawFrame → result (list Row))
    (offset_resample : string → string → list Row → DataFrame)
    (symbol offset tz : string) :
  (∀ data, get_data yf_download select_ohlc offset_resample symbol "3mo" offset tz = Ok data →
     (3 ≤ len data →
        ∃ row, analyze_symbol yf_download select_ohlc offset_resample symbol offset tz = Ok row
             ∧ dom row = list_to_set RESULT_KEYS
             ∧ row !! "Symbol" = Some symbol)
     ∧ (len data < 3 →
        analyze_symbol yf_download select_ohlc offset_resample symbol offset tz
        = Raise IndexError))
  ∧ (∀ e, get_data yf_download select_ohlc offset_resample symbol "3mo" offset tz = Raise e →
       analyze_symbol yf_download select_ohlc offset_resample symbol offset tz = Raise e)
  ∧ ((∃ row, analyze_symbol yf_download select_ohlc offset_resample symbol offset tz = Ok row)
     ↔ ∃ data, get_data yf_download select_ohlc offset_resample symbol "3mo" offset tz = Ok data
             ∧ 3 ≤ len data).
Proof.
  unfold analyze_symbol.
  destruct (get_data _ _ _ _ _ _ _) as [data|e]; cbn [mbind result_bind].
  - split_and!.
    + intros ? [= <-]. split; [apply analyze_frame_long | apply analyze_frame_short].
    + intros ? [=].
    + split.
      * intros [row Hrow]. exists data. split; [done|].
        destruct (decide (3 ≤ len data)) as [|H]; [done|].
        rewrite analyze_frame_short in Hrow by lia. discriminate.
      * intros (? & [= <-] & Hlen).
        destruct (analyze_frame_long symbol data Hlen) as (row & ? & _). by exists row.
  - split_and!.
    + intros ? [=].
    + by intros ? [= <-].
    + split; [by intros [? ?] | by intros (? & ? & _)].
Qed.

Lemma analyze_symbol_outcome_witness :
  (get_data download_ok (select_frame short3) resample_id "HG=F" "3mo" "16h30min"
     "America/New_York" = Ok short3
   ∧ 3 ≤ len short3
   ∧ ∃ row, analyze_symbol download_ok (select_frame short3) resample_id "HG=F"
              "16h30min" "America/New_York" = Ok row
          ∧ dom row = list_to_set RESULT_KEYS)
  ∧ (get_data download_ok (select_frame two_candles) resample_id "HG=F" "3mo" "16h30min"
       "America/New_York" = Ok two_candles
     ∧ len two_candles < 3
     ∧ analyze_symbol download_ok (select_frame two_candles) resample_id "HG=F"
         "16h30min" "America/New_York" = Raise IndexError)
  ∧ (get_data (λ _ _ _, Raise (OtherException "timed out")) select_positional resample_id
       "HG=F" "3mo" "16h30min" "America/New_York" = Raise (OtherException "timed out")
     ∧ analyze_symbol (λ _ _ _, Raise (OtherException "timed out")) select_positional
         resample_id "HG=F" "16h30min" "America/New_York"
       = Raise (OtherException "timed out")).
Proof.
  destruct (analyze_symbol_outcome download_ok (select_frame short3) resample_id
              "HG=F" "16h30min" "America/New_York") as (Hlong & _).
  destruct (analyze_symbol_outcome download_ok (select_frame two_candles) resample_id
              "HG=F" "16h30min" "America/New_York") as (Hshort & _).
  destruct (analyze_symbol_outcome (λ _ _ _, Raise (OtherException "timed out"))
              select_positional resample_id "HG=F" "16h30min" "America/New_York")
    as (_ & Hraise & _).
  assert (3 ≤ len short3) as H3 by (vm_compute; lia).
  assert (len two_candles < 3) as H2 by (vm_compute; lia).
  destruct (Hlong short3 eq_refl) as [Hl _].
  destruct (Hl H3) as (row & Hrow & Hdom & _).
  destruct (Hshort two_candles eq_refl) as [_ Hs].
  split_and!; [reflexivity | done | by exists row | reflexivity | done | by apply Hs
              | reflexivity | by apply Hraise].
Defined.

(** ** The weekly predicates *)

Lemma iloc_column_neg (rs : list Row) (k : nat) :
  0 < k ≤ length rs →
  ∃ r, rs !! (length rs - k) = Some r
     ∧ ∀ col, iloc (column col rs) (- Z.of_nat k) = Ok (col r.2).
Proof.
  intros Hk. destruct (lookup_lt_is_Some_2 rs (length rs - k)) as [r Hr]; [lia|].
  exists r. split; [done|]. intros col.
  destruct (iloc_neg_ok (column col rs) k) as (x & Hx & ->); [by rewrite length_column|].
  rewrite length_column, lookup_column, Hr in Hx. by injection Hx as <-.
Qed.

Lemma series_max_le (s : list Q) (m bound : Q) :
  series_max s = Some m → (m <= bound)%Q ↔ ∀ x, x ∈ s → (x <= bound)%Q.
Proof.
  intros Hm. destruct (series_max_spec s) as (m' & Hm' & Hin & Hub).
  { by destruct s. }
  rewrite Hm in Hm'. injection Hm' as <-. split.
  - intros Hle x Hx. eapply Qle_trans; [by apply Hub | done].
  - intros Hall. by apply Hall.
Qed.

Lemma series_min_ge (s : list Q) (m bound : Q) :
  series_min s = Some m → (bound <= m)%Q ↔ ∀ x, x ∈ s → (bound <= x)%Q.
Proof.
  intros Hm. destruct (series_min_spec s) as (m' & Hm' & Hin & Hlb).
  { by destruct s. }
  rewrite Hm in Hm'. injection Hm' as <-. split.
  - intros Hle x Hx. eapply Qle_trans; [done | by apply Hlb].
  - intros Hall. by apply Hall.
Qed.

(** X5.  [in_previous_week_range] returns on every series.  It is false when
    there are fewer than 2 weekly candles; otherwise it is true exactly when
    every daily candle that bears the ISO week number of the last candle has
    its High at most the High, and its Low at least the Low, of the weekly
    candle before the last. *)
Theorem in_previous_week_range_spec (data : DataFrame) :
  (∃ b, in_previous_week_range data = Ok b)
  ∧ (length (get_weekly_data data) < 2 → in_previous_week_range data = Ok false)
  ∧ (2 ≤ length (get_weekly_data data) →
     ∃ previous final inrange,
       get_weekly_data data !! (length (get_weekly_data data) - 2) = Some previous
       ∧ rows data !! (len data - 1) = Some final
       ∧ in_previous_week_range data = Ok inrange
       ∧ (inrange = true ↔
            ∀ r, r ∈ rows data →
              isocalendar_week (utcoffset data) r.1
              = isocalendar_week (utcoffset data) final.1 →
              (High r.2 <= High previous.2)%Q ∧ (Low previous.2 <= Low r.2)%Q)).
Proof.
  split; [apply in_previous_week_range_total|].
  unfold in_previous_week_range. split.
  - intros Hlen.
    by replace (length (get_weekly_data data) <? 2) with true
      by (symmetry; apply Nat.ltb_lt; lia).
  - intros Hlen.
    replace (length (get_weekly_data data) <? 2) with false
      by (symmetry; apply Nat.ltb_ge; lia).
    set (weekly := get_weekly_data data) in *.
    destruct (iloc_column_neg weekly 2) as (previous & Hprev & Iprev); [lia|].
    assert (0 < length (rows data)) as Hrows.
    { destruct (rows data) as [|r rs] eqn:E; [|cbn; lia].
      subst weekly. unfold get_weekly_data in Hlen. rewrite E in Hlen. cbn in Hlen. lia. }
    destruct (iloc_neg_ok (fst <$> rows data) 1) as (t & Ht & It);
      [rewrite length_fmap; lia|].
    rewrite length_fmap, list_lookup_fmap in Ht.
    destruct (rows data !! (length (rows data) - 1)) as [final|] eqn:Hfinal; [|done].
    injection Ht as <-.
    change (-1)%Z with (- Z.of_nat 1)%Z. change (-2)%Z with (- Z.of_nat 2)%Z.
    rewrite !Iprev, It. cbn [mbind result_bind].
    set (this_week := filter _ (rows data)).
    assert (final ∈ this_week) as Hin.
    { apply list_elem_of_filter. split; [done|]. by eapply list_elem_of_lookup_2. }
    rewrite bool_decide_eq_false_2 by (intros E; rewrite E in Hin; by apply not_elem_of_nil in Hin).
    destruct (series_max (column High this_week)) as [mh|] eqn:Hmh.
    2:{ destruct this_week; [by apply not_elem_of_nil in Hin | done]. }
    destruct (series_min (column Low this_week)) as [ml|] eqn:Hml.
    2:{ destruct this_week; [by apply not_elem_of_nil in Hin | done]. }
    exists previous, final. eexists. split_and!; [done | done | reflexivity |].
    cbn [float_le float_ge].
    rewrite andb_true_iff, !Qle_bool_iff.
    rewrite (series_max_le _ _ _ Hmh), (series_min_ge _ _ _ Hml).
    split.
    + intros [Hh Hl] r Hr Hiso. split.
      * apply Hh. unfold column. apply list_elem_of_fmap. exists r.
        split; [done|]. by apply list_elem_of_filter.
      * apply Hl. unfold column. apply list_elem_of_fmap. exists r.
        split; [done|]. by apply list_elem_of_filter.
    + intros Hall. split.
      * intros x (r & -> & [Hiso Hr]%list_elem_of_filter)%list_elem_of_fmap.
        by apply Hall.
      * intros x (r & -> & [Hiso Hr]%list_elem_of_filter)%list_elem_of_fmap.
        by apply Hall.
Qed.

Lemma in_previous_week_range_spec_witness :
  (length (get_weekly_data two_candles) < 2 ∧ in_previous_week_range two_candles = Ok false)
  ∧ (2 ≤ length (get_weekly_data two_weeks) ∧ in_previous_week_range two_weeks = Ok true)
  ∧ in_previous_week_range (mkFrame UTC []) = Ok false.
Proof.
  destruct (in_previous_week_range_spec two_candles) as (_ & Hshort & _).
  destruct (in_previous_week_range_spec two_weeks) as (_ & _ & Hlong).
  destruct (in_previous_week_range_spec (mkFrame UTC [])) as (_ & Hempty & _).
  assert (length (get_weekly_data two_candles) < 2) as H1 by (vm_compute; lia).
  assert (2 ≤ length (get_weekly_data two_weeks)) as H2 by (vm_compute; lia).
  assert (length (get_weekly_data (mkFrame UTC [])) < 2) as H0 by (vm_compute; lia).
  destruct (Hlong H2) as (previous & final & inrange & _ & _ & Hr & _).
  split_and!; [done | by apply Hshort | done | | by apply Hempty].
  rewrite Hr. vm_compute in Hr. by injection Hr as <-.
Defined.

(** The ISO week number of a timestamp depends only on its calendar week. *)
Lemma thursday_of_week d : (d - weekday d + 3 = 7 * ((d + 3) / 7))%Z.
Proof. unfold weekday. pose proof (Z.div_mod (d + 3) 7). lia. Qed.

Lemma iso_week_same_bin off t1 t2 :
  week_bin off t1 = week_bin off t2 → isocalendar_week off t1 = isocalendar_week off t2.
Proof.
  unfold isocalendar_week, iso_week_of_day, week_bin. intros E. cbn zeta.
  by rewrite !thursday_of_week, E.
Qed.

Lemma ascending_last_max (bins : list Row) w e :
  ascending bins → last bins = Some w → e ∈ bins → (e.1 <= w.1)%Z.
Proof.
  intros Hs. revert w e. induction Hs as [|b bins Hs IH Hall]; intros w e Hw He.
  - by apply not_elem_of_nil in He.
  - destruct bins as [|b' bins'].
    + cbn in Hw. injection Hw as <-. apply list_elem_of_singleton in He as ->. lia.
    + rewrite last_cons_cons in Hw.
      apply elem_of_cons in He as [->|He]; [|by apply IH].
      rewrite Forall_forall in Hall.
      assert (w ∈ b' :: bins') as Hin.
      { apply last_Some in Hw as [l' ->]. set_solver. }
      specialize (Hall w Hin). lia.
Qed.

Lemma filter_ext_elem {A} (P Q : A → Prop) `{∀ x, Decision (P x)} `{∀ x, Decision (Q x)}
    (l : list A) :
  (∀ x, x ∈ l → P x ↔ Q x) → filter P l = filter Q l.
Proof.
  induction l as [|x l IH]; intros Hext; [done|].
  rewrite !filter_cons.
  rewrite IH by (intros y Hy; apply Hext; set_solver).
  destruct (decide (P x)) as [HP|HP], (decide (Q x)) as [HQ|HQ]; try done.
  - exfalso. apply HQ, Hext; [set_solver | done].
  - exfalso. apply HP, Hext; [set_solver | done].
Qed.

Lemma foldl_agg_merge_extremes c0 rest :
  High (foldl agg_merge c0 rest) = foldl qmax (High c0) (High <$> rest)
  ∧ Low (foldl agg_merge c0 rest) = foldl qmin (Low c0) (Low <$> rest).
Proof.
  revert c0. induction rest as [|c rest IH]; intros c0; [done|].
  cbn [foldl fmap list_fmap]. destruct (IH (agg_merge c0 c)) as [-> ->]. done.
Qed.

Lemma aggregate_extremes cs c :
  aggregate cs = Some c →
  series_max (High <$> cs) = Some (High c) ∧ series_min (Low <$> cs) = Some (Low c).
Proof.
  destruct cs as [|c0 rest]; [done|]. intros [= <-].
  destruct (foldl_agg_merge_extremes c0 rest) as [-> ->]. done.
Qed.

Lemma column_bin_rows col key k (rs : list Row) :
  column col (filter (λ r, key r.1 = k) rs) = col <$> bin_rows key k rs.
Proof. unfold column, bin_rows. by rewrite <- list_fmap_compose. Qed.

(** The comparisons of the largest and of the smallest value of a series
    with a bound. *)
Lemma float_le_maximum (s : list Q) (m bound : Q) :
  is_maximum m s → float_le (series_max s) bound = Qle_bool m bound.
Proof.
  intros [Hin Hub]. destruct (series_max_spec s) as (m' & -> & Hin' & Hub').
  { intros ->. by apply not_elem_of_nil in Hin. }
  cbn [float_le]. specialize (Hub _ Hin'). specialize (Hub' _ Hin).
  destruct (Qle_bool m' bound) eqn:E1, (Qle_bool m bound) eqn:E2; try done.
  - apply Qle_bool_iff in E1. assert (Qle_bool m bound = true) as E; [|congruence].
    apply Qle_bool_iff. by eapply Qle_trans.
  - apply Qle_bool_iff in E2. assert (Qle_bool m' bound = true) as E; [|congruence].
    apply Qle_bool_iff. by eapply Qle_trans.
Qed.

Lemma float_ge_minimum (s : list Q) (m bound : Q) :
  is_minimum m s → float_ge (series_min s) bound = Qle_bool bound m.
Proof.
  intros [Hin Hlb]. destruct (series_min_spec s) as (m' & -> & Hin' & Hlb').
  { intros ->. by apply not_elem_of_nil in Hin. }
  cbn [float_ge]. specialize (Hlb _ Hin'). specialize (Hlb' _ Hin).
  destruct (Qle_bool bound m') eqn:E1, (Qle_bool bound m) eqn:E2; try done.
  - apply Qle_bool_iff in E1. assert (Qle_bool bound m = true) as E; [|congruence].
    apply Qle_bool_iff. by eapply Qle_trans.
  - apply Qle_bool_iff in E2. assert (Qle_bool bound m' = true) as E; [|congruence].
    apply Qle_bool_iff. by eapply Qle_trans.
Qed.

(** X6.  On a series whose last candle lies in the latest week, and in which
    no earlier week bears the ISO week number of that week, the flags
    "Inside PW Range" and "Inside Week" are the same: [in_previous_week_range]
    and [is_inside_week] return the same result. *)
Theorem weekly_flags_coincide (data : DataFrame) :
  current_week_is_latest data →
  in_previous_week_range data = is_inside_week data.
Proof.
  intros Hcur. unfold in_previous_week_range, is_inside_week.
  destruct (length (get_weekly_data data) <? 2) eqn:Hlen; [done|].
  apply Nat.ltb_ge in Hlen.
  destruct (resample_spec (week_bin (utcoffset data)) (rows data)) as [Hasc Helem].
  fold (get_weekly_data data) in Hasc, Helem.
  set (weekly := get_weekly_data data) in *.
  destruct (iloc_column_neg weekly 1) as (current & Hcurrent & Icur); [lia|].
  destruct (iloc_column_neg weekly 2) as (previous & Hprev & Iprev); [lia|].
  assert (0 < length (rows data)) as Hrows.
  { destruct (rows data) as [|r rs] eqn:E; [|cbn; lia].
    subst weekly. unfold get_weekly_data in Hlen. rewrite E in Hlen. cbn in Hlen. lia. }
  destruct (iloc_neg_ok (fst <$> rows data) 1) as (t & Ht & It);
    [rewrite length_fmap; lia|].
  rewrite length_fmap, list_lookup_fmap in Ht.
  destruct (rows data !! (length (rows data) - 1)) as [final|] eqn:Hfinal; [|done].
  injection Ht as <-.
  assert (last (rows data) = Some final) as Hlast.
  { rewrite last_lookup. rewrite <- Hfinal. f_equal. lia. }
  assert (final ∈ rows data) as Hfin by (by eapply list_elem_of_lookup_2).
  assert (last weekly = Some current) as Hlastw.
  { rewrite last_lookup. rewrite <- Hcurrent. f_equal. lia. }
  (* the last weekly candle is the candle of the week of the last daily candle *)
  set (kf := week_bin (utcoffset data) final.1).
  assert (current ∈ weekly) as Hcw by (by eapply list_elem_of_lookup_2).
  assert (current.1 = kf) as Hkey.
  { apply Z.le_antisymm.
    - destruct (resample_labels _ _ _ Hcw) as (r & Hr & <-). by apply (Hcur final r).
    - destruct (resample_bin_of (week_bin (utcoffset data)) (rows data) final Hfin)
        as (c & Hc & _).
      by apply (ascending_last_max weekly current (kf, c)). }
  assert (is_maximum (High current.2)
            (High <$> bin_rows (week_bin (utcoffset data)) kf (rows data))
          ∧ is_minimum (Low current.2)
              (Low <$> bin_rows (week_bin (utcoffset data)) kf (rows data)))
    as [Hmax Hmin].
  { destruct current as [k c]. cbn [fst snd] in *. subst k.
    apply Helem, aggregate_spec in Hcw as (first & last & _ & _ & _ & _ & Hmax & Hmin).
    split.
    - eapply is_maximum_ext; [|exact Hmax]. intros x. apply fmap_bin_rows_sort_index.
    - eapply is_minimum_ext; [|exact Hmin]. intros x. apply fmap_bin_rows_sort_index. }
  change (-1)%Z with (- Z.of_nat 1)%Z. change (-2)%Z with (- Z.of_nat 2)%Z.
  rewrite !Icur, !Iprev, It. cbn [mbind result_bind].
  rewrite (filter_ext_elem _ (λ r, week_bin (utcoffset data) r.1 = kf)).
  2:{ intros r Hr. split; [by apply (Hcur final r) | apply iso_week_same_bin]. }
  rewrite bool_decide_eq_false_2.
  2:{ intros E. assert (final ∈ filter (λ r, week_bin (utcoffset data) r.1 = kf) (rows data))
        as Hin by (by apply list_elem_of_filter).
      rewrite E in Hin. by apply not_elem_of_nil in Hin. }
  rewrite !column_bin_rows.
  rewrite (float_le_maximum _ _ _ Hmax), (float_ge_minimum _ _ _ Hmin).
  by destruct (Qle_bool (High current.2) (High previous.2)).
Qed.

Lemma weekly_flags_coincide_witness :
  current_week_is_latest two_weeks
  ∧ in_previous_week_range two_weeks = is_inside_week two_weeks
  ∧ is_inside_week two_weeks = Ok true.
Proof.
  assert (current_week_is_latest two_weeks) as Hcur.
  { intros final r Hfinal Hr. vm_compute in Hfinal. injection Hfinal as <-.
    unfold two_weeks in Hr. cbn [rows] in Hr.
    repeat (apply elem_of_cons in Hr as [->|Hr]);
      [..|by apply not_elem_of_nil in Hr];
      vm_compute; (split; [discriminate | intros E; first [reflexivity | discriminate E]]). }
  split; [exact Hcur|]. split; [exact (weekly_flags_coincide two_weeks Hcur) | reflexivity].
Defined.

(** ** Invariants of resampling *)

Lemma agg_insert_length k c bins :
  length (agg_insert k c bins) ≤ S (length bins) ∧ agg_insert k c bins ≠ [].
Proof.
  induction bins as [|[k0 c0] rest [IH _]]; cbn [agg_insert]; [by split; [cbn; lia|]|].
  destruct (k <? k0)%Z; [by split; [cbn; lia|]|].
  destruct (k =? k0)%Z; (split; [cbn; lia | done]).
Qed.

Lemma agg_rows_length key rs :
  length (agg_rows key rs) ≤ length rs ∧ (agg_rows key rs = [] ↔ rs = []).
Proof.
  induction rs as [|r rs [IH _]] using rev_ind; [done|].
  rewrite agg_rows_snoc, length_app.
  destruct (agg_insert_length (key r.1) r.2 (agg_rows key rs)) as [Hl Hne].
  split; [cbn; lia|]. split; [done|]. by destruct rs.
Qed.

Lemma resample_length key rs :
  length (resample key rs) ≤ length rs ∧ (resample key rs = [] ↔ rs = []).
Proof.
  unfold resample. destruct (agg_rows_length key (sort_index rs)) as [Hl Hnil].
  rewrite length_sort_index in Hl. split; [done|]. rewrite Hnil. split.
  - intros E. apply Permutation_nil_r. by rewrite <- E, sort_index_perm.
  - by intros ->.
Qed.

Lemma length_shift_index delta rs : length (shift_index delta rs) = length rs.
Proof. unfold shift_index. by rewrite length_fmap. Qed.

(** X7.  Resampling never makes candles: a resampled frame has at most as
    many candles as the frame it comes from, and it is empty only when that
    frame is.  So it is for the weekly candles of a daily series and for the
    FTSE sessions of hourly bars. *)
Theorem resample_never_grows (key : Z → Z) (rs : list Row) (data : DataFrame) :
  length (resample key rs) ≤ length rs
  ∧ (resample key rs = [] ↔ rs = [])
  ∧ length (get_weekly_data data) ≤ len data
  ∧ (get_weekly_data data = [] ↔ rows data = [])
  ∧ length (ftse_daily rs) ≤ length rs
  ∧ (ftse_daily rs = [] ↔ rs = []).
Proof.
  destruct (resample_length key rs) as [H1 H2].
  destruct (resample_length (week_bin (utcoffset data)) (rows data)) as [H3 H4].
  destruct (resample_length floor_day (shift_index (- (2 * HOUR)) rs)) as [H5 H6].
  rewrite length_shift_index in H5.
  split_and!; [done..| |].
  - unfold ftse_daily, resample_1D. by rewrite length_shift_index.
  - unfold ftse_daily, resample_1D, shift_index in *. split.
    + intros E%fmap_nil_inv. apply H6 in E. by apply fmap_nil_inv in E.
    + by intros ->.
Qed.

Lemma head_elem {A} (l : list A) x : head l = Some x → x ∈ l.
Proof. destruct l; [done|]. intros [= ->]. set_solver. Qed.

Lemma last_elem {A} (l : list A) x : last l = Some x → x ∈ l.
Proof. intros [l' ->]%last_Some. set_solver. Qed.

Lemma aggregate_well_formed cs c :
  aggregate cs = Some c → (∀ x, x ∈ cs → well_formed x) → well_formed c.
Proof.
  intros (first & final & Hf%head_elem & Hl%last_elem & HO & HC & [_ Hmax] & [_ Hmin])%aggregate_spec
    Hwf.
  destruct (Hwf _ Hf) as (F1 & _ & F3 & _). destruct (Hwf _ Hl) as (_ & L2 & _ & L4).
  unfold well_formed. rewrite HO, HC. split_and!.
  - apply Qle_trans with (Low first); [|done].
    by apply Hmin, list_elem_of_fmap_2.
  - apply Qle_trans with (Low final); [|done].
    by apply Hmin, list_elem_of_fmap_2.
  - apply Qle_trans with (High first); [done|].
    by apply Hmax, list_elem_of_fmap_2.
  - apply Qle_trans with (High final); [done|].
    by apply Hmax, list_elem_of_fmap_2.
Qed.

Lemma resample_well_formed key rs :
  (∀ r, r ∈ rs → well_formed r.2) → ∀ b, b ∈ resample key rs → well_formed b.2.
Proof.
  intros Hwf [k c] Hb. apply resample_spec in Hb.
  apply (aggregate_well_formed _ _ Hb).
  intros x Hx%bin_rows_sorted_elem. unfold bin_rows in Hx.
  apply list_elem_of_fmap in Hx as (r & -> & [_ Hr]%list_elem_of_filter).
  by apply Hwf.
Qed.

(** X8.  Resampling keeps candles well formed: when the Open and the Close
    of every row lie between its Low and its High, the same holds of every
    candle of the resampled frame, of the weekly candles of a daily series
    and of the FTSE sessions. *)
Theorem resample_keeps_well_formed (key : Z → Z) (rs : list Row) (data : DataFrame) :
  ((∀ r, r ∈ rs → well_formed r.2) → ∀ b, b ∈ resample key rs → well_formed b.2)
  ∧ ((∀ r, r ∈ rs → well_formed r.2) → ∀ b, b ∈ ftse_daily rs → well_formed b.2)
  ∧ ((∀ r, r ∈ rows data → well_formed r.2) →
     ∀ w, w ∈ get_weekly_data data → well_formed w.2).
Proof.
  split_and!.
  - apply resample_well_formed.
  - intros Hwf [L c] Hb. unfold ftse_daily, resample_1D in Hb.
    apply elem_of_shift_index in Hb.
    apply (resample_well_formed floor_day (shift_index (- (2 * HOUR)) rs)) in Hb; [done|].
    intros [t b] Hr%elem_of_shift_index. by apply Hwf in Hr.
  - apply resample_well_formed.
Qed.

Lemma resample_keeps_well_formed_witness :
  (∀ r, r ∈ rows two_weeks → well_formed r.2)
  ∧ (∀ w, w ∈ get_weekly_data two_weeks → well_formed w.2)
  ∧ (∀ r, r ∈ night_bars → well_formed r.2)
  ∧ (∀ b, b ∈ ftse_daily night_bars → well_formed b.2).
Proof.
  assert (∀ r, r ∈ rows two_weeks → well_formed r.2) as Hd.
  { intros r Hr. unfold two_weeks in Hr. cbn [rows] in Hr.
    repeat (apply elem_of_cons in Hr as [->|Hr]); [..|by apply not_elem_of_nil in Hr];
      vm_compute; split_and!; discriminate. }
  assert (∀ r, r ∈ night_bars → well_formed r.2) as Hn.
  { intros r Hr. unfold night_bars in Hr.
    repeat (apply elem_of_cons in Hr as [->|Hr]); [..|by apply not_elem_of_nil in Hr];
      vm_compute; split_and!; discriminate. }
  destruct (resample_keeps_well_formed floor_day night_bars two_weeks) as (_ & Hf & Hw).
  split_and!; [done | by apply Hw | done | by apply Hf].
Defined.

Lemma resample_never_grows_witness :
  length (get_weekly_data two_weeks) ≤ len two_weeks
  ∧ get_weekly_data (mkFrame UTC []) = []
  ∧ length (ftse_daily night_bars) ≤ length night_bars
  ∧ ftse_daily [] = [].
Proof.
  destruct (resample_never_grows floor_day night_bars two_weeks) as (_ & _ & Hw & _ & Hf & _).
  destruct (resample_never_grows floor_day [] (mkFrame UTC [])) as (_ & _ & _ & Hwe & _ & Hfe).
  split_and!; [done | by apply Hwe | done | by apply Hfe].
Defined.

Lemma agg_insert_last k c bins :
  (∀ b, b ∈ bins → (b.1 < k)%Z) → agg_insert k c bins = bins ++ [(k, c)].
Proof.
  induction bins as [|[k0 c0] rest IH]; intros Hlt; [done|].
  cbn [agg_insert].
  assert (k0 < k)%Z as H0 by (apply (Hlt (k0, c0)); set_solver).
  replace (k <? k0)%Z with false by (symmetry; apply Z.ltb_ge; lia).
  replace (k =? k0)%Z with false by (symmetry; apply Z.eqb_neq; lia).
  rewrite IH by (intros b Hb; apply Hlt; set_solver). done.
Qed.

Lemma agg_rows_fixed key bins :
  ascending bins → (∀ b, b ∈ bins → key b.1 = b.1) → agg_rows key bins = bins.
Proof.
  induction bins as [|[k c] bins IH] using rev_ind; intros Hasc Hkey; [done|].
  apply StronglySorted_app in Hasc as (Hlt & Hasc & _).
  rewrite agg_rows_snoc, IH by (done || (intros b Hb; apply Hkey; set_solver)).
  assert (key k = k) as Hk by (apply (Hkey (k, c)); set_solver).
  cbn [fst snd]. rewrite Hk.
  apply agg_insert_last. intros b Hb. apply (Hlt b (k, c)); set_solver.
Qed.

Lemma resample_fixed key bins :
  ascending bins → (∀ b, b ∈ bins → key b.1 = b.1) → resample key bins = bins.
Proof.
  intros Hasc Hkey. unfold resample.
  rewrite sort_index_fixed by (by apply ascending_in_time_order).
  by apply agg_rows_fixed.
Qed.

Lemma floor_day_idemp t : floor_day (floor_day t) = floor_day t.
Proof. unfold floor_day, DAY. by rewrite Z.div_mul. Qed.

(** X9.  Resampling twice is resampling once: when the bins are labelled so
    that a label falls into its own bin, a resampled frame resampled again is
    unchanged; so a frame resampled by day and resampled by day again. *)
Theorem resample_idempotent (key : Z → Z) (rs : list Row) :
  ((∀ t, key (key t) = key t) → resample key (resample key rs) = resample key rs)
  ∧ resample_1D (resample_1D rs) = resample_1D rs.
Proof.
  assert (∀ key' , (∀ t, key' (key' t) = key' t) →
            resample key' (resample key' rs) = resample key' rs) as H.
  { intros key' Hkey. apply resample_fixed; [apply resample_spec|].
    intros b (r & _ & <-)%resample_labels. apply Hkey. }
  split; [apply H|]. apply H, floor_day_idemp.
Qed.

Lemma resample_idempotent_witness :
  (∀ t, floor_day (floor_day t) = floor_day t)
  ∧ resample floor_day (resample floor_day night_bars) = resample floor_day night_bars
  ∧ resample floor_day night_bars
    = [ (0%Z, mkOHLC 10 12 9 11); (86400%Z, mkOHLC 11 16 10 15) ].
Proof.
  split; [apply floor_day_idemp|]. split; [|reflexivity].
  exact (proj1 (resample_idempotent floor_day night_bars) floor_day_idemp).
Defined.

(** ** Extremes across resampling *)

(** X10.  Resampling keeps the extremes: a largest High of the resampled
    candles is a largest High of the rows, and a smallest Low of the
    resampled candles is a smallest Low of the rows.  So the highest High and
    the lowest Low of the weekly candles are those of the daily series. *)
Theorem resample_keeps_extremes (key : Z → Z) (rs : list Row) (data : DataFrame) (m : Q) :
  (is_maximum m (column High (resample key rs)) → is_maximum m (column High rs))
  ∧ (is_minimum m (column Low (resample key rs)) → is_minimum m (column Low rs))
  ∧ (is_maximum m (column High (get_weekly_data data)) →
     is_maximum m (column High (rows data)))
  ∧ (is_minimum m (column Low (get_weekly_data data)) →
     is_minimum m (column Low (rows data))).
Proof.
  assert (∀ key' rs', is_maximum m (column High (resample key' rs')) →
            is_maximum m (column High rs')) as Hmax.
  { intros key' rs' [Hin Hub]. unfold column in *. split.
    - apply list_elem_of_fmap in Hin as ([k c] & -> & Hb).
      destruct (resample_candle_from _ _ _ _ Hb) as [(r & Hr & _ & E) _].
      cbn. rewrite <- E. by apply (list_elem_of_fmap_2 (High ∘ snd)).
    - intros x (r & -> & Hr)%list_elem_of_fmap.
      destruct (resample_bin_of key' rs' r Hr) as (c & Hc & _ & Hle).
      eapply Qle_trans; [exact Hle|].
      apply Hub. by apply (list_elem_of_fmap_2 (High ∘ snd) _ (key' r.1, c)). }
  assert (∀ key' rs', is_minimum m (column Low (resample key' rs')) →
            is_minimum m (column Low rs')) as Hmin.
  { intros key' rs' [Hin Hlb]. unfold column in *. split.
    - apply list_elem_of_fmap in Hin as ([k c] & -> & Hb).
      destruct (resample_candle_from _ _ _ _ Hb) as [_ (r & Hr & _ & E)].
      cbn. rewrite <- E. by apply (list_elem_of_fmap_2 (Low ∘ snd)).
    - intros x (r & -> & Hr)%list_elem_of_fmap.
      destruct (resample_bin_of key' rs' r Hr) as (c & Hc & Hle & _).
      eapply Qle_trans; [|exact Hle].
      apply Hlb. by apply (list_elem_of_fmap_2 (Low ∘ snd) _ (key' r.1, c)). }
  split_and!; [apply Hmax | apply Hmin | apply Hmax | apply Hmin].
Qed.

Lemma resample_keeps_extremes_witness :
  is_maximum 15 (column High (get_weekly_data two_weeks))
  ∧ is_maximum 15 (column High (rows two_weeks))
  ∧ is_minimum 7 (column Low (get_weekly_data two_weeks))
  ∧ is_minimum 7 (column Low (rows two_weeks)).
Proof.
  assert (is_maximum 15 (column High (get_weekly_data two_weeks))) as Hmax.
  { split; [vm_compute; set_solver|]. intros x Hx. vm_compute in Hx.
    repeat (apply elem_of_cons in Hx as [->|Hx]); [..|by apply not_elem_of_nil in Hx];
      vm_compute; discriminate. }
  assert (is_minimum 7 (column Low (get_weekly_data two_weeks))) as Hmin.
  { split; [vm_compute; set_solver|]. intros x Hx. vm_compute in Hx.
    repeat (apply elem_of_cons in Hx as [->|Hx]); [..|by apply not_elem_of_nil in Hx];
      vm_compute; discriminate. }
  destruct (resample_keeps_extremes floor_day [] two_weeks 15) as (_ & _ & H15 & _).
  destruct (resample_keeps_extremes floor_day [] two_weeks 7) as (_ & _ & _ & H7).
  split_and!; [done | by apply H15 | done | by apply H7].
Defined.

(** ** Weekly candles over sessions *)

Lemma resample_over_bins key1 key2 (rs D : list Row) k c :
  (∀ L d, (L, d) ∈ D ↔ aggregate (bin_rows key1 L (sort_index rs)) = Some d) →
  (k, c) ∈ resample key2 D →
  is_maximum (High c) (High <$> bin_rows (λ t, key2 (key1 t)) k rs)
  ∧ is_minimum (Low c) (Low <$> bin_rows (λ t, key2 (key1 t)) k rs).
Proof.
  intros HD Hc.
  assert (∀ r, r ∈ rs → key2 (key1 r.1) = k →
            (Low c <= Low r.2)%Q ∧ (High r.2 <= High c)%Q) as Hbound.
  { intros [t b] Hr Hk. cbn [fst snd] in *.
    pose proof (bin_rows_member key1 rs t b Hr) as Hb%bin_rows_elem_sorted.
    destruct (aggregate_is_Some _ _ Hb) as [d Hd].
    destruct (aggregate_bounds _ _ _ Hd Hb) as [Hl Hh].
    apply HD in Hd.
    destruct (resample_bin_of key2 D (key1 t, d) Hd) as (c' & Hc' & Hl' & Hh').
    cbn [fst snd] in *. rewrite Hk in Hc'.
    apply resample_spec in Hc, Hc'. rewrite Hc in Hc'. injection Hc' as <-.
    split; eapply Qle_trans; eauto. }
  destruct (resample_candle_from _ _ _ _ Hc) as [([L d] & Hd & HkL & Hhd) ([L' d'] & Hd' & HkL' & Hld)].
  cbn [fst snd] in *.
  apply HD in Hd, Hd'.
  apply aggregate_spec in Hd as (_ & _ & _ & _ & _ & _ & [Hmax _] & _).
  apply aggregate_spec in Hd' as (_ & _ & _ & _ & _ & _ & _ & [Hmin _]).
  apply fmap_bin_rows_sorted_elem in Hmax, Hmin.
  unfold bin_rows in *. split; split.
  - rewrite <- Hhd.
    apply list_elem_of_fmap in Hmax as (x & -> & Hx).
    apply list_elem_of_fmap in Hx as (r & -> & [Hk Hr]%list_elem_of_filter).
    apply list_elem_of_fmap_2, (list_elem_of_fmap_2 snd), list_elem_of_filter.
    split; [|done]. by rewrite Hk.
  - intros x (y & -> & Hy)%list_elem_of_fmap.
    apply list_elem_of_fmap in Hy as (r & -> & [Hk Hr]%list_elem_of_filter).
    by apply Hbound.
  - rewrite <- Hld.
    apply list_elem_of_fmap in Hmin as (x & -> & Hx).
    apply list_elem_of_fmap in Hx as (r & -> & [Hk Hr]%list_elem_of_filter).
    apply list_elem_of_fmap_2, (list_elem_of_fmap_2 snd), list_elem_of_filter.
    split; [|done]. by rewrite Hk.
  - intros x (y & -> & Hy)%list_elem_of_fmap.
    apply list_elem_of_fmap in Hy as (r & -> & [Hk Hr]%list_elem_of_filter).
    by apply Hbound.
Qed.

(** X11.  The weekly candles taken over resampled candles have the extremes
    of the underlying rows: the High of the weekly candle of a week is the
    largest High, and its Low the smallest Low, of the rows whose bin falls in
    that week.  So the weekly candles of the FTSE daily series carry the
    extremes of the hourly bars of the sessions of the week. *)
Theorem weekly_extremes_of_bars (key1 key2 : Z → Z) (bars : list Row) (k : Z) (c : OHLC) :
  ((k, c) ∈ resample key2 (resample key1 bars) →
     is_maximum (High c) (High <$> bin_rows (λ t, key2 (key1 t)) k bars)
     ∧ is_minimum (Low c) (Low <$> bin_rows (λ t, key2 (key1 t)) k bars))
  ∧ ((k, c) ∈ get_weekly_data (mkFrame UTC (ftse_daily bars)) →
     is_maximum (High c) (High <$> bin_rows (λ t, week_bin UTC (ftse_session t)) k bars)
     ∧ is_minimum (Low c) (Low <$> bin_rows (λ t, week_bin UTC (ftse_session t)) k bars)).
Proof.
  split.
  - apply resample_over_bins. apply resample_spec.
  - apply (resample_over_bins ftse_session (week_bin UTC) bars (ftse_daily bars)).
    apply ftse_daily_elem.
Qed.

Lemma weekly_extremes_of_bars_witness :
  get_weekly_data (mkFrame UTC (ftse_daily night_bars)) = [(0%Z, mkOHLC 10 16 9 15)]
  ∧ is_maximum 16 (High <$> bin_rows (λ t, week_bin UTC (ftse_session t)) 0 night_bars)
  ∧ is_minimum 9 (Low <$> bin_rows (λ t, week_bin UTC (ftse_session t)) 0 night_bars).
Proof.
  split; [reflexivity|].
  apply (proj2 (weekly_extremes_of_bars floor_day floor_day night_bars 0
                  (mkOHLC 10 16 9 15))).
  vm_compute. apply list_elem_of_here.
Defined.

(** ** The FTSE sessions *)

Lemma ftse_daily_label (bars : list Row) (L : Z) (c : OHLC) :
  (L, c) ∈ ftse_daily bars →
  (L mod DAY = 2 * HOUR)%Z
  ∧ ∃ t b, (t, b) ∈ bars ∧ L = ftse_session t ∧ (L <= t < L + DAY)%Z.
Proof.
  intros Hc%ftse_daily_elem.
  destruct (bin_rows ftse_session L (sort_index bars)) as [|x xs] eqn:E; [done|].
  assert (x ∈ bin_rows ftse_session L (sort_index bars)) as Hx by (rewrite E; set_solver).
  apply bin_rows_sorted_elem in Hx. unfold bin_rows in Hx.
  apply list_elem_of_fmap in Hx as ([t b] & -> & [Hk Hr]%list_elem_of_filter).
  cbn [fst snd] in *. subst L.
  unfold ftse_session, floor_day, DAY, HOUR.
  pose proof (Z.div_mod (t - 2 * 3600) 86400) as Hdm.
  pose proof (Z.mod_pos_bound (t - 2 * 3600) 86400) as Hb.
  split.
  - rewrite Z.add_comm, Z.mod_add by done. done.
  - exists t, b. split; [done|]. split; [done|]. lia.
Qed.

(** X12.  Every candle of the FTSE daily series is labelled 02:00 UTC, and is
    the session of a bar of the download: its label is that bar's timestamp
    less 2 hours, floored to the day, plus 2 hours. *)
Theorem ftse_labels (bars : list Row) (L : Z) (c : OHLC) :
  (L, c) ∈ ftse_daily bars →
  (L mod DAY = 2 * HOUR)%Z
  ∧ ∃ t b, (t, b) ∈ bars ∧ L = ftse_session t ∧ (L <= t < L + DAY)%Z.
Proof. apply ftse_daily_label. Qed.

Lemma ftse_labels_witness :
  (7200%Z, mkOHLC 10 15 9 14) ∈ ftse_daily night_bars
  ∧ (7200 mod DAY = 2 * HOUR)%Z
  ∧ ∃ t b, (t, b) ∈ night_bars ∧ 7200%Z = ftse_session t ∧ (7200 <= t < 7200 + DAY)%Z.
Proof.
  assert ((7200%Z, mkOHLC 10 15 9 14) ∈ ftse_daily night_bars) as Hin
    by (vm_compute; apply list_elem_of_here).
  split; [exact Hin|]. exact (ftse_labels night_bars 7200 (mkOHLC 10 15 9 14) Hin).
Defined.

(** ** Outcome of the column repair *)

Lemma length_rename_adj_close labels :
  length (rename_adj_close labels) = length labels.
Proof. unfold rename_adj_close. apply length_map. Qed.

Lemma set_columns_ok old new out :
  set_columns old new = Ok out → out = new ∧ length new = length old.
Proof. unfold set_columns. case_bool_decide; [by intros [= <-] | done]. Qed.

Lemma apply_rule_outcome r labels :
  (∀ out, apply_rule r labels = Ok out → length out = length labels)
  ∧ ((∃ e, apply_rule r labels = Raise e) ↔ r = Some Positional5 ∧ 5 < length labels)
  ∧ (∀ e, apply_rule r labels = Raise e → e = ValueError).
Proof.
  destruct r as [[]|]; cbn [apply_rule].
  - split_and!; [by intros ? [= <-] | | done].
    split; [by intros [? ?] | by intros [? _]].
  - unfold set_columns. rewrite length_take. cbn [CANONICAL length].
    case_bool_decide as Hlen.
    + split_and!; [intros ? [= <-]; rewrite length_take; cbn; lia | | done].
      split; [by intros [? ?] | intros [_ ?]; lia].
    + split_and!; [done | | by intros ? [= <-]].
      split; [intros _; split; [done|lia] | by eexists].
  - unfold set_columns. rewrite length_map, bool_decide_eq_true_2 by done.
    split_and!; [intros ? [= <-]; by rewrite length_map | | done].
    split; [by intros [? ?] | by intros [? _]].
  - assert (length (take (length labels) REQUIRED
                    ++ drop (length (take (length labels) REQUIRED)) labels)
            = length labels) as Hlen.
    { rewrite length_app, length_drop, length_take. cbn [REQUIRED length]. lia. }
    unfold set_columns. rewrite bool_decide_eq_true_2 by done.
    split_and!; [by intros ? [= <-] | | done].
    split; [by intros [? ?] | by intros [? _]].
  - split_and!; [by intros ? [= <-] | | done].
    split; [by intros [? ?] | by intros [? _]].
Qed.

Lemma chain_rule_positional5 labels :
  chain_rule labels = Some Positional5 ↔ identical_labels labels = true.
Proof.
  unfold chain_rule.
  destruct (identical_labels labels), (separator_labels labels), (missing_required labels);
    split; congruence.
Qed.

Lemma fix_columns_cases (cols : Columns) :
  (∀ out, fix_columns cols = Ok out → length out = length (collapse cols))
  ∧ ((∃ e, fix_columns cols = Raise e) ↔
       identical_labels (collapse cols) = true ∧ 5 < length (collapse cols))
  ∧ (∀ e, fix_columns cols = Raise e → e = ValueError).
Proof.
  unfold fix_columns. cbn zeta.
  destruct (apply_rule_outcome (chain_rule (collapse cols)) (collapse cols))
    as (Hlen & Hraise & Hexn).
  rewrite chain_rule_positional5 in Hraise.
  destruct (apply_rule _ _) as [mid|e]; cbn [mbind result_bind].
  - split_and!.
    + intros ? [= <-]. rewrite length_rename_adj_close. by apply Hlen.
    + rewrite <- Hraise. split; [by intros [? ?] | by intros [? ?]].
    + done.
  - split_and!; [done | | intros ? [= <-]; by apply Hexn].
    rewrite <- Hraise. split; by eexists.
Qed.

(** X13.  The column repair keeps the number of columns.  It raises exactly
    when 6 columns or more bear one and the same label, the five canonical
    names being too few for them, and the exception is then a value error. *)
Theorem fix_columns_outcome (cols : Columns) :
  (∀ out, fix_columns cols = Ok out → length out = length (collapse cols))
  ∧ ((∃ e, fix_columns cols = Raise e) ↔
       identical_labels (collapse cols) = true ∧ 5 < length (collapse cols))
  ∧ (∀ e, fix_columns cols = Raise e → e = ValueError).
Proof. apply fix_columns_cases. Qed.

Lemma fix_columns_outcome_witness :
  (fix_columns ticker_columns = Ok CANONICAL ∧ length CANONICAL = length (collapse ticker_columns))
  ∧ (identical_labels ["X"; "X"; "X"; "X"; "X"; "X"] = true
     ∧ 5 < length ["X"; "X"; "X"; "X"; "X"; "X"]
     ∧ fix_columns (Index ["X"; "X"; "X"; "X"; "X"; "X"]) = Raise ValueError).
Proof.
  destruct (fix_columns_outcome ticker_columns) as (Hlen & _).
  destruct (fix_columns_outcome (Index ["X"; "X"; "X"; "X"; "X"; "X"])) as (_ & Hraise & Hexn).
  split.
  - split; [reflexivity|]. by apply Hlen.
  - assert (identical_labels ["X"; "X"; "X"; "X"; "X"; "X"] = true) as Hid by reflexivity.
    assert (5 < length ["X"; "X"; "X"; "X"; "X"; "X"]) as H6 by (cbn; lia).
    split_and!; [done..|].
    destruct (proj2 Hraise (conj Hid H6)) as [e He].
    rewrite He. f_equal. by apply Hexn.
Defined.

(** ** Canonical columns *)



Lemma missing_required_false labels :
  missing_required labels = false ↔ ∀ r, r ∈ REQUIRED → r ∈ labels.
Proof.
  unfold missing_required. rewrite negb_false_iff, forallb_forall. split.
  - intros Hall r Hr. apply list_elem_of_In in Hr. by apply Hall, bool_decide_eq_true in Hr.
  - intros Hall r Hr. apply bool_decide_eq_true, Hall. by apply list_elem_of_In.
Qed.

Lemma rename_adj_close_required labels r :
  r ∈ REQUIRED → r ∈ labels → r ∈ rename_adj_close labels.
Proof.
  intros Hr Hl. unfold rename_adj_close. apply list_elem_of_In, in_map_iff.
  exists r. split; [|by apply list_elem_of_In].
  unfold REQUIRED in Hr.
  repeat (apply elem_of_cons in Hr as [->|Hr]); [done..|by apply not_elem_of_nil in Hr].
Qed.




(** X15.  When the repair returns on 4 columns or more and the rule taken is
    not the stripping of prefixes, the result holds Open, High, Low and
    Close. *)
Theorem repaired_columns_required (cols : Columns) (out : list string) :
  fix_columns cols = Ok out →
  chain_rule (collapse cols) ≠ Some StripPrefix →
  4 ≤ length (collapse cols) →
  ∀ r, r ∈ REQUIRED → r ∈ out.
Proof.
  unfold fix_columns. cbn zeta. intros Hfix Hrule Hlen r Hr.
  destruct (apply_rule _ _) as [mid|e] eqn:Hmid; [|done]. cbn in Hfix.
  injection Hfix as <-. apply rename_adj_close_required; [done|].
  pose proof (chain_rule_not_collapse (collapse cols)) as Hnc.
  destruct (chain_rule (collapse cols)) as [[]|] eqn:Hchain; try done; cbn [apply_rule] in Hmid.
  - apply set_columns_ok in Hmid as [-> Hl]. rewrite length_take in Hl.
    cbn [CANONICAL length] in Hl.
    apply chain_rule_positional5 in Hchain. unfold identical_labels in Hchain.
    apply andb_true_iff in Hchain as [H5%Nat.leb_le _].
    replace (length (collapse cols)) with 5 by lia. cbn [take CANONICAL].
    unfold REQUIRED in Hr. set_solver.
  - apply set_columns_ok in Hmid as [-> _].
    apply elem_of_app. left.
    rewrite take_ge by (cbn [REQUIRED length]; lia). done.
  - injection Hmid as <-. unfold chain_rule in Hchain.
    destruct (identical_labels _); [done|]. destruct (separator_labels _); [done|].
    destruct (missing_required _) eqn:Hm; [done|].
    by apply (proj1 (missing_required_false _) Hm).
Qed.

Lemma repaired_columns_required_witness :
  fix_columns ticker_columns = Ok CANONICAL
  ∧ chain_rule (collapse ticker_columns) ≠ Some StripPrefix
  ∧ 4 ≤ length (collapse ticker_columns)
  ∧ "Close" ∈ CANONICAL.
Proof.
  assert (fix_columns ticker_columns = Ok CANONICAL) as Hfix by reflexivity.
  assert (chain_rule (collapse ticker_columns) ≠ Some StripPrefix) as Hrule by discriminate.
  assert (4 ≤ length (collapse ticker_columns)) as Hlen by (cbn; lia).
  split_and!; [done..|].
  apply (repaired_columns_required ticker_columns CANONICAL Hfix Hrule Hlen).
  unfold REQUIRED. set_solver.
Defined.

(** ** Stripped labels *)

Lemma letter_not_underscore c :
  is_lower c || is_upper c = true →
  c ≠ UNDERSCORE ∧ to_lower c ≠ UNDERSCORE ∧ to_upper c ≠ UNDERSCORE.
Proof.
  destruct c as [[] [] [] [] [] [] [] []]; vm_compute; intros H;
    first [discriminate H | split_and!; discriminate].
Qed.

Lemma contains_title_from prev s :
  contains UNDERSCORE (title_from prev s) = contains UNDERSCORE s.
Proof.
  revert prev. induction s as [|c s IH]; intros prev; [done|].
  cbn [title_from]. destruct (is_lower c || is_upper c) eqn:Hc.
  - destruct (letter_not_underscore c Hc) as (H0 & H1 & H2).
    cbn [contains]. rewrite IH.
    rewrite (bool_decide_eq_false_2 (c = UNDERSCORE)) by done.
    destruct prev; by rewrite bool_decide_eq_false_2.
  - cbn [contains]. by rewrite IH.
Qed.

Lemma split_parts_plain sep s p : p ∈ split sep s → contains sep p = false.
Proof.
  revert p. induction s as [|c s IH]; intros p; cbn [split].
  - by intros ->%list_elem_of_singleton.
  - case_bool_decide as Hc.
    + intros [->|Hp]%elem_of_cons; [done | by apply IH].
    + destruct (split sep s) as [|q qs] eqn:E.
      * intros ->%list_elem_of_singleton. cbn. by rewrite bool_decide_eq_false_2.
      * intros [->|Hp]%elem_of_cons.
        -- cbn. rewrite bool_decide_eq_false_2 by done. apply IH. set_solver.
        -- apply IH. set_solver.
Qed.

Lemma list_last_elem {A} (l : list A) d : l ≠ [] → List.last l d ∈ l.
Proof.
  induction l as [|x [|y l] IH]; [done | set_solver |].
  intros _. apply list_elem_of_further. by apply IH.
Qed.

Lemma split_nonempty sep s : split sep s ≠ [].
Proof.
  destruct s as [|c s]; [done|]. cbn [split].
  case_bool_decide; [done|]. by destruct (split sep s).
Qed.

(** X16.  When the rule taken is the stripping of prefixes, the repair
    returns, with as many labels as before, and no label of the result holds
    an underscore. *)
Theorem stripped_labels_plain (labels : list string) :
  chain_rule labels = Some StripPrefix →
  ∃ out, fix_columns (Index labels) = Ok out
       ∧ length out = length labels
       ∧ ∀ c, c ∈ out → contains UNDERSCORE c = false.
Proof.
  intros Hrule. unfold fix_columns. cbn [collapse]. rewrite Hrule. cbn [apply_rule].
  unfold set_columns. rewrite bool_decide_eq_true_2 by (by rewrite length_map).
  cbn [mbind result_bind]. eexists. split; [reflexivity|].
  split; [by rewrite length_rename_adj_close, length_map|].
  intros c Hc. unfold rename_adj_close in Hc.
  apply list_elem_of_In, in_map_iff in Hc as (x & <- & Hx).
  destruct (bool_decide (x = "Adj Close") || bool_decide (x = "AdjClose")); [done|].
  apply in_map_iff in Hx as (l & <- & _).
  unfold title. rewrite contains_title_from.
  apply (split_parts_plain UNDERSCORE l), list_last_elem, split_nonempty.
Qed.

Lemma stripped_labels_plain_witness :
  chain_rule ["cl_open"; "cl_high"; "cl_f_low"; "cl_adj close"] = Some StripPrefix
  ∧ fix_columns (Index ["cl_open"; "cl_high"; "cl_f_low"; "cl_adj close"])
    = Ok ["Open"; "High"; "Low"; "Close"]
  ∧ ∃ out, fix_columns (Index ["cl_open"; "cl_high"; "cl_f_low"; "cl_adj close"]) = Ok out
         ∧ length out = 4
         ∧ ∀ c, c ∈ out → contains UNDERSCORE c = false.
Proof.
  assert (chain_rule ["cl_open"; "cl_high"; "cl_f_low"; "cl_adj close"] = Some StripPrefix)
    as Hrule by reflexivity.
  split; [exact Hrule|]. split; [reflexivity|].
  exact (stripped_labels_plain _ Hrule).
Defined.

(** ** The table of a group *)

Lemma analyze_frame_dom symbol data res :
  analyze_frame symbol data = Ok res → dom res = list_to_set RESULT_KEYS.
Proof.
  unfold analyze_frame.
  destruct (compute_signal data) as [[[[[hom lom] frd] fgd] signal]|]; [|done].
  cbn [mbind result_bind].
  destruct (is_inside_week data) as [iw|]; [|done]; cbn [mbind result_bind].
  destruct (in_previous_week_range data) as [pw|]; [|done]; cbn [mbind result_bind].
  destruct (is_high_of_week data) as [how|]; [|done]; cbn [mbind result_bind].
  destruct (is_low_of_week data) as [low|]; [|done]; cbn [mbind result_bind].
  destruct (is_inside_day data) as [idy|]; [|done]; cbn [mbind result_bind].
  intros [= <-].
  rewrite !dom_insert_L, dom_empty_L. unfold RESULT_KEYS. cbn [list_to_set foldr].
  set_solver.
Qed.

Lemma degraded_rows_dom name sym :
  dom (no_data_row name sym) = list_to_set REPORT_COLUMNS
  ∧ dom (error_row name sym) = list_to_set REPORT_COLUMNS.
Proof.
  assert (dom no_data_template = list_to_set ("Signal" :: FLAGS)) as Ht.
  { unfold no_data_template. rewrite dom_insert_L, dom_list_to_map_L.
    unfold FLAGS. cbn [map fmap list_fmap fst list_to_set foldr]. done. }
  unfold no_data_row, error_row.
  rewrite !dom_union_L, dom_fmap_L, !dom_insert_L, dom_singleton_L, Ht.
  unfold FLAGS, REPORT_COLUMNS. cbn [list_to_set foldr]. set_solver.
Qed.

Section Report.
Variable yf_download : string → string → string → result (option RawFrame).
Variable select_ohlc : list string → RawFrame → result (list Row).
Variable offset_resample : string → string → list Row → DataFrame.

Lemma result_row_dom group_name sym name :
  dom (result_row yf_download select_ohlc offset_resample group_name sym name)
  = list_to_set REPORT_COLUMNS.
Proof.
  destruct (degraded_rows_dom name sym) as [Hn He].
  unfold result_row.
  destruct (preflight yf_download sym) as [[]|e0]; [|done].
  destruct (analyze_symbol _ _ _ _ _ _) as [res|e1] eqn:Ha; [|done].
  unfold analyze_symbol in Ha.
  destruct (get_data _ _ _ _ _ _ _) as [data|e]; [|done]. cbn [mbind result_bind] in Ha.
  rewrite dom_insert_L, (analyze_frame_dom _ _ _ Ha).
  unfold RESULT_KEYS, REPORT_COLUMNS. cbn [list_to_set foldr]. set_solver.
Qed.
End Report.

Lemma frame_columns_uniform (rows : list (gmap string string)) (S : gset string) :
  rows ≠ [] → (∀ r, r ∈ rows → dom r = S) → frame_columns rows = S.
Proof.
  unfold frame_columns. induction rows as [|r rows IH]; [done|].
  intros _ Hdom. cbn [fmap list_fmap union_list foldr].
  rewrite (Hdom r) by set_solver.
  destruct rows as [|r' rows']; [cbn; set_solver|].
  rewrite IH; [set_solver | done | intros x Hx; apply Hdom; set_solver].
Qed.

(** X17.  The table of a group never lacks a column or a cell: for a group
    with at least one instrument, whatever the network does, the selection of
    the twelve report columns does not raise, the table has one line for
    every instrument, and every line has its twelve cells filled, the first
    two with the name and the symbol of the instrument.  A group without
    instruments gives no table. *)
Theorem report_table_complete
    (yf_download : string → string → string → result (option RawFrame))
    (select_ohlc : list string → RawFrame → result (list Row))
    (offset_resample : string → string → list Row → DataFrame)
    (group_name : string) (symbols : list (string * string)) :
  (symbols ≠ [] →
   ∃ rows table,
     process_group yf_download select_ohlc offset_resample group_name symbols = Ok rows
     ∧ report_table rows = Ok (Some table)
     ∧ length table = length symbols
     ∧ ∀ i sym name, symbols !! i = Some (sym, name) →
         ∃ line, table !! i = Some line
               ∧ length line = 12
               ∧ line !! 0 = Some (Some name)
               ∧ line !! 1 = Some (Some sym)
               ∧ ∀ cell, cell ∈ line → is_Some cell)
  ∧ (process_group yf_download select_ohlc offset_resample group_name [] = Ok []
     ∧ report_table [] = Ok None).
Proof.
  split; [|done].
  intros Hne. rewrite process_group_rows.
  set (rows := (λ e, result_row yf_download select_ohlc offset_resample group_name e.1 e.2)
                 <$> symbols).
  assert (frame_columns rows = list_to_set REPORT_COLUMNS) as Hcols.
  { apply frame_columns_uniform.
    - subst rows. by destruct symbols.
    - intros r (e & -> & _)%list_elem_of_fmap. apply result_row_dom. }
  exists rows. eexists. split; [done|].
  unfold report_table. rewrite Hcols.
  rewrite (bool_decide_eq_false_2 (rows = [])) by (subst rows; by destruct symbols).
  rewrite (bool_decide_eq_false_2 (list_to_set REPORT_COLUMNS = ∅)).
  2:{ intros E. assert ("Asset" ∈ (∅ : gset string)) as Hin; [|set_solver].
      rewrite <- E. apply elem_of_list_to_set. unfold REPORT_COLUMNS. set_solver. }
  cbn [orb].
  replace (forallb _ REPORT_COLUMNS) with true.
  2:{ symmetry. apply forallb_forall. intros c Hc%list_elem_of_In.
      apply bool_decide_eq_true. by apply elem_of_list_to_set. }
  split; [reflexivity|]. split; [subst rows; by rewrite !length_fmap|].
  intros i sym name Hi. subst rows.
  rewrite !list_lookup_fmap, Hi. cbn [fmap option_fmap option_map fst snd].
  eexists. split; [reflexivity|].
  destruct (result_row_cases yf_download select_ohlc offset_resample group_name sym name)
    as (HS & HA & _).
  split_and!.
  - by rewrite length_fmap.
  - cbn. by rewrite HA.
  - cbn. by rewrite HS.
  - intros cell (c & -> & Hc)%list_elem_of_fmap.
    apply elem_of_dom. rewrite result_row_dom. by apply elem_of_list_to_set.
Qed.

Lemma report_table_complete_witness :
  sample_symbols ≠ []
  ∧ ∃ rows table,
      process_group sample_download select_positional resample_id "Commodities"
        sample_symbols = Ok rows
      ∧ report_table rows = Ok (Some table)
      ∧ length table = 4
      ∧ ∃ line, table !! 2 = Some line
              ∧ line !! 0 = Some (Some "Silver")
              ∧ line !! 1 = Some (Some "SI=F").
Proof.
  assert (sample_symbols ≠ []) as Hne by discriminate.
  split; [exact Hne|].
  destruct (report_table_complete sample_download select_positional resample_id
              "Commodities" sample_symbols) as [H _].
  destruct (H Hne) as (rows & table & Hrows & Htable & Hlen & Hline).
  destruct (Hline 2 "SI=F" "Silver" eq_refl) as (line & Hl & _ & H0 & H1 & _).
  exists rows, table. split_and!; [done..|]. by exists line.
Defined.

(** ** Failed downloads *)

Section Failures.
Variable yf_download : string → string → string → result (option RawFrame).
Variable select_ohlc : list string → RawFrame → result (list Row).
Variable offset_resample : string → string → list Row → DataFrame.

(** What makes the hourly download of a symbol unusable: the download
    raises; it returns no frame; its columns cannot be repaired; the four
    prices cannot be selected from the repaired columns. *)
Lemma get_data_raises symbol offset tz :
  (∃ e, get_data yf_download select_ohlc offset_resample symbol "3mo" offset tz = Raise e) ↔
    (∃ e, yf_download symbol "3mo" "1h" = Raise e)
    ∨ yf_download symbol "3mo" "1h" = Ok None
    ∨ (∃ raw, yf_download symbol "3mo" "1h" = Ok (Some raw)
            ∧ identical_labels (collapse (raw_columns raw)) = true
            ∧ 5 < length (collapse (raw_columns raw)))
    ∨ (∃ raw labels e, yf_download symbol "3mo" "1h" = Ok (Some raw)
            ∧ fix_columns (raw_columns raw) = Ok labels
            ∧ select_ohlc labels raw = Raise e).
Proof.
  unfold get_data.
  destruct (yf_download symbol "3mo" "1h") as [[raw|]|e]; cbn [mbind result_bind].
  - destruct (fix_columns_cases (raw_columns raw)) as (_ & Hraise & _).
    destruct (fix_columns (raw_columns raw)) as [labels|e] eqn:Hfix; cbn [mbind result_bind].
    + destruct (select_ohlc labels raw) as [bars|e] eqn:Hsel; cbn [mbind result_bind].
      * split; [by intros [? ?]|].
        intros [[? ?]|[?|[(raw' & H1 & Hid)|(raw' & l & e & H1 & H2 & H3)]]];
          [done | done | |].
        -- injection H1 as <-. by destruct (proj2 Hraise Hid) as [? ?].
        -- injection H1 as <-. rewrite H2 in Hfix. injection Hfix as ->. congruence.
      * split; [|by eexists]. intros _. right. right. right.
        exists raw, labels, e. done.
    + split; [|by eexists]. intros _. right. right. left.
      exists raw. split; [done|]. apply Hraise. by eexists.
  - split; [|by eexists]. intros _. right. by left.
  - split; [|by eexists]. intros _. left. by eexists.
Qed.
End Failures.

(** X18.  When the pre-flight passed and the hourly download of the analysis
    is unusable - it raises, it returns no frame, it has 6 columns or more
    under one label, or the four prices cannot be selected from its repaired
    columns - [get_data] raises, and the loop appends the row with every flag
    "Error". *)
Theorem failed_download_is_error
    (yf_download : string → string → string → result (option RawFrame))
    (select_ohlc : list string → RawFrame → result (list Row))
    (offset_resample : string → string → list Row → DataFrame)
    (group_name sym name : string) (results : list (gmap string string)) :
  preflight yf_download sym = Ok () →
  ((∃ e, yf_download sym "3mo" "1h" = Raise e)
   ∨ yf_download sym "3mo" "1h" = Ok None
   ∨ (∃ raw, yf_download sym "3mo" "1h" = Ok (Some raw)
           ∧ identical_labels (collapse (raw_columns raw)) = true
           ∧ 5 < length (collapse (raw_columns raw)))
   ∨ (∃ raw labels e, yf_download sym "3mo" "1h" = Ok (Some raw)
           ∧ fix_columns (raw_columns raw) = Ok labels
           ∧ select_ohlc labels raw = Raise e)) →
  (∃ e, get_data yf_download select_ohlc offset_resample sym "3mo"
          (session_config group_name sym).2 (session_config group_name sym).1 = Raise e)
  ∧ process_symbol yf_download select_ohlc offset_resample group_name results (sym, name)
    = Ok (results ++ [error_row name sym]).
Proof.
  intros Hpre Hbad.
  apply (get_data_raises yf_download select_ohlc offset_resample sym
           (session_config group_name sym).2 (session_config group_name sym).1) in Hbad
    as [e He].
  split; [by exists e|].
  rewrite process_symbol_row.
  destruct (result_row_cases yf_download select_ohlc offset_resample group_name sym name)
    as (_ & _ & _ & HE & _).
  destruct (HE Hpre e) as [-> _]; [|done].
  unfold analyze_symbol. by rewrite He.
Qed.

Lemma failed_download_is_error_witness :
  preflight six_columns_download "CL=F" = Ok ()
  ∧ process_symbol six_columns_download select_positional resample_id "Commodities" []
      ("CL=F", "WTI Crude Oil")
    = Ok [error_row "WTI Crude Oil" "CL=F"].
Proof.
  assert (preflight six_columns_download "CL=F" = Ok ()) as Hpre by reflexivity.
  split; [exact Hpre|].
  refine (proj2 (failed_download_is_error six_columns_download select_positional resample_id
                   "Commodities" "CL=F" "WTI Crude Oil" [] Hpre _)).
  right. right. left. eexists. split; [reflexivity|]. split; [reflexivity | cbn; lia].
Defined.

(** ** Month and week *)

Lemma tail_subset {A} (m n : nat) (s : list A) x :
  m ≤ n → x ∈ tail m s → x ∈ tail n s.
Proof.
  intros Hmn. unfold tail. rewrite !list_elem_of_lookup.
  intros [i Hi]. rewrite lookup_drop in Hi.
  pose proof (lookup_lt_Some _ _ _ Hi) as Hlt.
  exists (length s - m + i - (length s - n)). rewrite lookup_drop, <- Hi. f_equal. lia.
Qed.

(** X19.  A high of the month is a high of the week, and a low of the month
    a low of the week: when [is_high_of_month] is true so is
    [is_high_of_week], and when [is_low_of_month] is true so is
    [is_low_of_week]. *)
Theorem month_extreme_is_week_extreme (data : DataFrame) :
  (is_high_of_month data = Ok true → is_high_of_week data = Ok true)
  ∧ (is_low_of_month data = Ok true → is_low_of_week data = Ok true).
Proof.
  rewrite is_high_of_month_window, is_low_of_month_window,
    is_high_of_week_window, is_low_of_week_window.
  split.
  - intros Hm.
    assert (2 ≤ length (column High (rows data))) as Hlen.
    { apply (of_window_max_returns 22); [lia | by eexists]. }
    destruct (of_window_max 22 (column High (rows data)))
      as (v & _ & Hv & _ & _ & _ & _ & Hall); [lia | done |].
    destruct (of_window_max 5 (column High (rows data)))
      as (v' & _ & Hv' & _ & _ & _ & _ & Hall'); [lia | done |].
    rewrite Hv in Hv'. injection Hv' as <-.
    apply Hall'. intros x Hx. apply (proj1 Hall Hm). apply (tail_subset 5 22); [lia | done].
  - intros Hm.
    assert (2 ≤ length (column Low (rows data))) as Hlen.
    { apply (of_window_min_returns 22); [lia | by eexists]. }
    destruct (of_window_min 22 (column Low (rows data)))
      as (v & _ & Hv & _ & _ & _ & _ & Hall); [lia | done |].
    destruct (of_window_min 5 (column Low (rows data)))
      as (v' & _ & Hv' & _ & _ & _ & _ & Hall'); [lia | done |].
    rewrite Hv in Hv'. injection Hv' as <-.
    apply Hall'. intros x Hx. apply (proj1 Hall Hm). apply (tail_subset 5 22); [lia | done].
Qed.

Lemma month_extreme_is_week_extreme_witness :
  is_high_of_month month30 = Ok true ∧ is_high_of_week month30 = Ok true.
Proof.
  assert (is_high_of_month month30 = Ok true) as Hm by reflexivity.
  split; [exact Hm|]. exact (proj1 (month_extreme_is_week_extreme month30) Hm).
Defined.

(** ** Weeks *)

(** X20.  The two notions of week agree: daily candles of one calendar week,
    Monday to Sunday in the time zone of the index, bear the same ISO week
    number; so the candles [in_previous_week_range] takes for the current
    week include all the candles of the weekly bin of the last candle. *)
Theorem week_number_of_calendar_week (data : DataFrame) (final : Z * OHLC) :
  (∀ t1 t2, week_bin (utcoffset data) t1 = week_bin (utcoffset data) t2 →
     isocalendar_week (utcoffset data) t1 = isocalendar_week (utcoffset data) t2)
  ∧ (∀ c, c ∈ bin_rows (week_bin (utcoffset data)) (week_bin (utcoffset data) final.1)
                (rows data) →
       c ∈ snd <$> filter (λ r, isocalendar_week (utcoffset data) r.1
                                = isocalendar_week (utcoffset data) final.1) (rows data)).
Proof.
  split; [apply iso_week_same_bin|].
  unfold bin_rows. intros c (r & -> & [Hk Hr]%list_elem_of_filter)%list_elem_of_fmap.
  apply list_elem_of_fmap_2, list_elem_of_filter. split; [|done].
  by apply iso_week_same_bin.
Qed.

Lemma week_number_of_calendar_week_witness :
  week_bin UTC 950400 = week_bin UTC 1123200
  ∧ isocalendar_week UTC 950400 = isocalendar_week UTC 1123200
  ∧ isocalendar_week UTC 950400 = 3%Z.
Proof.
  assert (week_bin UTC 950400 = week_bin UTC 1123200) as Hbin by reflexivity.
  split; [exact Hbin|]. split; [|reflexivity].
  exact (proj1 (week_number_of_calendar_week two_weeks (0%Z, mkOHLC 1 1 1 1)) _ _ Hbin).
Defined.

Lemma ascending_same_key (bins : list Row) :
  ascending bins → (∀ b1 b2, b1 ∈ bins → b2 ∈ bins → b1.1 = b2.1) → length bins ≤ 1.
Proof.
  intros Hasc Hsame. destruct bins as [|b1 [|b2 bins]]; [cbn; lia..|].
  exfalso. apply ascending_cons in Hasc as [Hlt _].
  assert (b1.1 < b2.1)%Z as H by (apply Hlt; set_solver).
  rewrite (Hsame b1 b2) in H by set_solver. lia.
Qed.

(** X21.  With the daily candles of a single calendar week, or with none,
    both weekly flags are false: [is_inside_week] and
    [in_previous_week_range] return false. *)
Theorem single_week_flags_false (data : DataFrame) :
  (∀ r1 r2, r1 ∈ rows data → r2 ∈ rows data →
     week_bin (utcoffset data) r1.1 = week_bin (utcoffset data) r2.1) →
  length (get_weekly_data data) ≤ 1
  ∧ is_inside_week data = Ok false
  ∧ in_previous_week_range data = Ok false.
Proof.
  intros Hweek.
  assert (length (get_weekly_data data) ≤ 1) as Hlen.
  { apply ascending_same_key; [apply resample_spec|].
    intros b1 b2 (r1 & Hr1 & <-)%resample_labels (r2 & Hr2 & <-)%resample_labels.
    by apply Hweek. }
  split; [done|]. split.
  - apply is_inside_week_cases. lia.
  - unfold in_previous_week_range.
    by replace (length (get_weekly_data data) <? 2) with true
      by (symmetry; apply Nat.ltb_lt; lia).
Qed.

Lemma single_week_flags_false_witness :
  (∀ r1 r2, r1 ∈ rows two_candles → r2 ∈ rows two_candles →
     week_bin (utcoffset two_candles) r1.1 = week_bin (utcoffset two_candles) r2.1)
  ∧ is_inside_week two_candles = Ok false
  ∧ in_previous_week_range two_candles = Ok false.
Proof.
  assert (∀ r1 r2, r1 ∈ rows two_candles → r2 ∈ rows two_candles →
            week_bin (utcoffset two_candles) r1.1 = week_bin (utcoffset two_candles) r2.1)
    as Hweek.
  { intros r1 r2 H1 H2. unfold two_candles, daily_utc in H1, H2. cbn in H1, H2.
    repeat (apply elem_of_cons in H1 as [->|H1]); [..|by apply not_elem_of_nil in H1];
      (repeat (apply elem_of_cons in H2 as [->|H2]); [..|by apply not_elem_of_nil in H2]);
      reflexivity. }
  split; [exact Hweek|].
  exact (proj2 (single_week_flags_false two_candles Hweek)).
Defined.

(** ** The cells of a row *)

Lemma red_green_never_both data frd fgd :
  is_red_day data = Ok frd → is_green_day data = Ok fgd → ¬ (frd = true ∧ fgd = true).
Proof.
  intros Hr Hg. destruct (decide (len data < 2)) as [H|H].
  - destruct (red_green_day_short data H) as [Hr' _]. rewrite Hr' in Hr.
    injection Hr as <-. by intros [? _].
  - destruct (red_green_day_long data) as (r & _ & Hr' & Hg'); [lia|].
    rewrite Hr' in Hr. rewrite Hg' in Hg. injection Hr as <-. injection Hg as <-.
    apply red_green_exclusive.
Qed.

(** X22.  The row of an analysis agrees with itself: its signal is SHORT
    exactly when its cells HOM and FRD are both ticked, LONG exactly when LOM
    and FGD are both ticked, and the dash otherwise; the two pairs of cells
    are never ticked together. *)
Theorem row_signal_agrees (symbol : string) (data : DataFrame) (row : gmap string string) :
  analyze_frame symbol data = Ok row →
  (row !! "Signal" = Some SHORT ↔ row !! "HOM" = Some TICK ∧ row !! "FRD" = Some TICK)
  ∧ (row !! "Signal" = Some LONG ↔ row !! "LOM" = Some TICK ∧ row !! "FGD" = Some TICK)
  ∧ (row !! "Signal" = Some NO_SIGNAL ↔
       ¬ (row !! "HOM" = Some TICK ∧ row !! "FRD" = Some TICK)
       ∧ ¬ (row !! "LOM" = Some TICK ∧ row !! "FGD" = Some TICK))
  ∧ ¬ ((row !! "HOM" = Some TICK ∧ row !! "FRD" = Some TICK)
       ∧ (row !! "LOM" = Some TICK ∧ row !! "FGD" = Some TICK)).
Proof.
  unfold analyze_frame, compute_signal.
  destruct (is_high_of_month data) as [hom|]; [|done]; cbn [mbind result_bind].
  destruct (is_low_of_month data) as [lom|]; [|done]; cbn [mbind result_bind].
  destruct (is_red_day data) as [frd|] eqn:Hfrd; [|done]; cbn [mbind result_bind].
  destruct (is_green_day data) as [fgd|] eqn:Hfgd; [|done]; cbn [mbind result_bind].
  destruct (is_inside_week data) as [iw|]; [|done]; cbn [mbind result_bind].
  destruct (in_previous_week_range data) as [pw|]; [|done]; cbn [mbind result_bind].
  destruct (is_high_of_week data) as [how|]; [|done]; cbn [mbind result_bind].
  destruct (is_low_of_week data) as [low|]; [|done]; cbn [mbind result_bind].
  destruct (is_inside_day data) as [idy|]; [|done]; cbn [mbind result_bind].
  intros [= <-].
  pose proof (red_green_never_both data frd fgd Hfrd Hfgd) as Hex.
  clear Hfrd Hfgd.
  destruct hom, lom, frd, fgd; try (exfalso; by apply Hex); clear Hex;
    vm_compute; split_and!; try split; intros; try discriminate;
    intuition discriminate.
Qed.

Lemma row_signal_agrees_witness :
  ∃ row, analyze_frame "HG=F" short3 = Ok row
       ∧ row !! "Signal" = Some SHORT
       ∧ row !! "HOM" = Some TICK
       ∧ row !! "FRD" = Some TICK.
Proof.
  assert (∃ row, analyze_frame "HG=F" short3 = Ok row ∧ row !! "Signal" = Some SHORT)
    as (row & Hrow & Hsig).
  { eexists. split; [reflexivity|]. vm_compute. reflexivity. }
  destruct (row_signal_agrees "HG=F" short3 row Hrow) as (HS & _).
  exists row. split; [done|]. split; [done|]. by apply HS.
Defined.

(** X23.  The two degraded rows name their instrument and differ in every
    other cell: the "No data" row keeps the dash for its signal, while in the
    "Error" row the signal is "Error" like every flag. *)
Theorem degraded_rows_cells (name sym : string) :
  no_data_row name sym !! "Asset" = Some name
  ∧ no_data_row name sym !! "Symbol" = Some sym
  ∧ no_data_row name sym !! "Signal" = Some NO_SIGNAL
  ∧ (∀ k, k ∈ FLAGS → no_data_row name sym !! k = Some "No data")
  ∧ error_row name sym !! "Asset" = Some name
  ∧ error_row name sym !! "Symbol" = Some sym
  ∧ error_row name sym !! "Signal" = Some "Error"
  ∧ (∀ k, k ∈ FLAGS → error_row name sym !! k = Some "Error")
  ∧ (∀ k, k ∈ "Signal" :: FLAGS → no_data_row name sym !! k ≠ error_row name sym !! k).
Proof.
  assert (∀ k, k ∈ FLAGS → no_data_row name sym !! k = Some "No data") as Hn.
  { intros k Hk. unfold FLAGS in Hk.
    repeat (apply elem_of_cons in Hk as [->|Hk]); [..|by apply not_elem_of_nil in Hk];
      vm_compute; reflexivity. }
  assert (∀ k, k ∈ FLAGS → error_row name sym !! k = Some "Error") as He.
  { intros k Hk. unfold FLAGS in Hk.
    repeat (apply elem_of_cons in Hk as [->|Hk]); [..|by apply not_elem_of_nil in Hk];
      vm_compute; reflexivity. }
  destruct (no_data_row_kind name sym) as (NS & NA & NG & _).
  destruct (error_row_kind name sym) as (ES & EA & EG & _).
  split_and!; try done.
  intros k [->|Hk]%elem_of_cons.
  - rewrite NG, EG. discriminate.
  - rewrite (Hn k Hk), (He k Hk). discriminate.
Qed.

(** ** The daily series of get_data *)

(** X24.  For "^FTSE" the configured time zone and cutoff are not used: when
    [get_data] returns, its frame is the FTSE daily series of the selected
    bars, with a UTC index in ascending order whose labels are all at 02:00
    and no more candles than there are bars, and it returns the same frame
    under any other time zone, cutoff and local resampling. *)
Theorem get_data_ftse
    (yf_download : string → string → string → result (option RawFrame))
    (select_ohlc : list string → RawFrame → result (list Row))
    (offset_resample : string → string → list Row → DataFrame)
    (period offset tz : string) (data : DataFrame) :
  get_data yf_download select_ohlc offset_resample "^FTSE" period offset tz = Ok data →
  ∃ raw labels bars,
    yf_download "^FTSE" period "1h" = Ok (Some raw)
    ∧ fix_columns (raw_columns raw) = Ok labels
    ∧ select_ohlc labels raw = Ok bars
    ∧ data = mkFrame UTC (ftse_daily bars)
    ∧ ascending (rows data)
    ∧ (∀ r, r ∈ rows data → (r.1 mod DAY = 2 * HOUR)%Z)
    ∧ length (rows data) ≤ length bars
    ∧ ∀ offset_resample' offset' tz',
        get_data yf_download select_ohlc offset_resample' "^FTSE" period offset' tz'
        = Ok data.
Proof.
  unfold get_data.
  destruct (yf_download "^FTSE" period "1h") as [[raw|]|e]; cbn [mbind result_bind]; [|done..].
  destruct (fix_columns (raw_columns raw)) as [labels|e] eqn:Hfix;
    cbn [mbind result_bind]; [|done].
  destruct (select_ohlc labels raw) as [bars|e] eqn:Hsel; cbn [mbind result_bind]; [|done].
  intros [= <-]. exists raw, labels, bars.
  unfold session_resample. rewrite bool_decide_eq_true_2 by done.
  cbn [rows]. split_and!; [done | done | done | done | | | |].
  - apply ftse_daily_ascending.
  - intros [L c] Hr. by destruct (ftse_daily_label bars L c Hr).
  - unfold ftse_daily, resample_1D. rewrite length_shift_index.
    rewrite <- (length_shift_index (- (2 * HOUR)) bars). apply resample_length.
  - intros offset_resample' offset' tz'. cbn [mbind result_bind].
    rewrite ?Hfix. cbn [mbind result_bind]. rewrite ?Hsel. cbn [mbind result_bind].
    done.
Qed.

Lemma get_data_ftse_witness :
  ∃ data,
    get_data sample_download select_positional resample_id "^FTSE" "3mo" "0h" "UTC" = Ok data
    ∧ rows data = [ (-79200, mkOHLC 5 8 4 6); (7200, mkOHLC 9 10 5 7);
                    (93600, mkOHLC 7 8 6 7) ]%Z
    ∧ ascending (rows data)
    ∧ get_data sample_download select_positional (λ _ _ _, mkFrame UTC [])
        "^FTSE" "3mo" "16h30min" "America/New_York" = Ok data.
Proof.
  eexists. split; [reflexivity|].
  destruct (get_data_ftse sample_download select_positional resample_id
              "3mo" "0h" "UTC" _ eq_refl)
    as (raw & labels & bars & _ & _ & _ & _ & Hasc & _ & _ & Hsame).
  split; [reflexivity|]. split; [exact Hasc|]. apply Hsame.
Defined.

Lemma degraded_rows_cells_witness :
  "HOM" ∈ FLAGS
  ∧ no_data_row "Gold" "GC=F" !! "HOM" = Some "No data"
  ∧ error_row "Gold" "GC=F" !! "HOM" = Some "Error"
  ∧ no_data_row "Gold" "GC=F" !! "Signal" ≠ error_row "Gold" "GC=F" !! "Signal".
Proof.
  assert ("HOM" ∈ FLAGS) as Hin by (unfold FLAGS; set_solver).
  destruct (degraded_rows_cells "Gold" "GC=F")
    as (_ & _ & _ & Hn & _ & _ & _ & He & Hd).
  split_and!; [done | by apply Hn | by apply He |].
  apply Hd. set_solver.
Defined.
